(** * Exchange-rate retrieval with fallback, and the statistics calculator

    A shallow embedding of [src/app.py]: the class [ExchangeRateService]
    (tiered remote retrieval that degrades to a bundled data file) and the
    class [FinanceCalculator] (percentage change, per-day breakdown, totals).

    Python values are modelled as the program handles them:
    - a [dict] is an association list in insertion order (keys are unique in
      every dict Python builds; [dict_set] keeps that invariant);
    - a rate is the binary64 float it denotes ([PrimFloat.float]), with
      IEEE arithmetic; the integer literals of the calculator ([0], [100])
      and [len] are the floats of the same value;
    - a [str] is a byte string (UTF-8), whose byte-wise order is the order of
      code points that Python's comparison uses;
    - an exception is a value of [exc], a computation returns an [outcome];
    - network and file accesses are answered by oracles, and every request
      sent and every diagnostic printed is recorded in a trace; standard
      output takes every line in [ExchangeRateService], and is a console
      that may refuse a line in [ServiceOnConsole]. *)

From Stdlib Require Import List String Ascii ZArith Bool Lia.
From Stdlib Require Import Floats.
From Stdlib Require Import Sorting.Permutation Sorting.Sorted Sorting.Mergesort.
Import ListNotations.

Local Open Scope string_scope.
Local Open Scope Z_scope.

(** ** The Python run time *)

Module Py.

Inductive exc_kind :=
| Exception | ValueError | KeyError | TypeError | AttributeError
| IndexError | ZeroDivisionError | OverflowError | OSError
| JSONDecodeError | RequestException.

(** An exception object; [message] is what [str(e)] returns. *)
Record exc := mk_exc { kind : exc_kind; message : string }.

(** How a computation ends.  [Diverge] is the outcome of a loop that was
    given too little fuel; no handler catches it. *)
Inductive outcome (A : Type) :=
| Ret (a : A)
| Raise (e : exc)
| Diverge.
Arguments Ret {A} a.
Arguments Raise {A} e.
Arguments Diverge {A}.

Definition bind {A B} (c : outcome A) (k : A -> outcome B) : outcome B :=
  match c with
  | Ret a => k a
  | Raise e => Raise e
  | Diverge => Diverge
  end.

(** [repr(s)] of a string, which is how an error text shows a key or an
    input: between single quotes, or between double quotes when the text
    holds a single quote and no double quote; the quote in use, the backslash
    and the control characters are escaped.  A byte above 127 belongs to a
    character that [repr] writes as it is when it is printable. *)
Definition single_quote : ascii := ascii_of_N 39.
Definition double_quote : ascii := ascii_of_N 34.
Definition backslash : ascii := ascii_of_N 92.

Fixpoint has_char (c : ascii) (s : string) : bool :=
  match s with
  | EmptyString => false
  | String c' s' => Ascii.eqb c c' || has_char c s'
  end.

Definition hex_digit (n : N) : ascii :=
  if (n <? 10)%N then ascii_of_N (48 + n) else ascii_of_N (87 + n).

Definition escaped (q c : ascii) : string :=
  let n := N_of_ascii c in
  if Ascii.eqb c q || Ascii.eqb c backslash
  then String backslash (String c "")
  else if (n =? 9)%N then String backslash "t"
  else if (n =? 10)%N then String backslash "n"
  else if (n =? 13)%N then String backslash "r"
  else if (n <? 32)%N || (n =? 127)%N
  then String backslash
         (String "x" (String (hex_digit (n / 16))
                        (String (hex_digit (n mod 16)) "")))
  else String c "".

Fixpoint escape_all (q : ascii) (s : string) : string :=
  match s with
  | EmptyString => ""
  | String c s' => escaped q c ++ escape_all q s'
  end.

Definition py_repr (s : string) : string :=
  let q := if has_char single_quote s && negb (has_char double_quote s)
           then double_quote else single_quote in
  String q (escape_all q s ++ String q "").

(** Values as [json.load] and [response.json()] produce them. *)
#[local] Unset Elimination Schemes.
Inductive json :=
| JNull
| JBool (b : bool)
| JInt (z : Z)
| JFloat (f : float)
| JStr (s : string)
| JList (l : list json)
| JDict (d : list (string * json)).
#[local] Set Elimination Schemes.

Definition dict (V : Type) := list (string * V).

Section Dict.
Context {V : Type}.

(** [d.get(k)] as an option. *)
Fixpoint dict_get (k : string) (d : dict V) : option V :=
  match d with
  | [] => None
  | (k', v) :: d' => if String.eqb k k' then Some v else dict_get k d'
  end.

(** [k in d] *)
Definition dict_mem (k : string) (d : dict V) : bool :=
  match dict_get k d with Some _ => true | None => false end.

(** [d[k] = v]: an existing key keeps its position, a new key goes last. *)
Fixpoint dict_set (k : string) (v : V) (d : dict V) : dict V :=
  match d with
  | [] => [(k, v)]
  | (k', v') :: d' =>
      if String.eqb k k' then (k, v) :: d' else (k', v') :: dict_set k v d'
  end.

(** [d.get(k, default)] *)
Definition dict_get_default (k : string) (default : V) (d : dict V) : V :=
  match dict_get k d with Some v => v | None => default end.

(** [d[k]] *)
Definition dict_getitem (k : string) (d : dict V) : outcome V :=
  match dict_get k d with
  | Some v => Ret v
  | None => Raise (mk_exc KeyError (py_repr k))
  end.

(** [d.keys()] *)
Definition keys (d : dict V) : list string := map fst d.
End Dict.

(** [s1 in s2] on strings: [s1] occurs in [s2]. *)
Fixpoint is_substring (s1 s2 : string) : bool :=
  String.prefix s1 s2 ||
  match s2 with
  | EmptyString => false
  | String _ s2' => is_substring s1 s2'
  end.

(** [bool(v)] *)
Definition truthy (v : json) : bool :=
  match v with
  | JNull => false
  | JBool b => b
  | JInt z => negb (z =? 0)
  | JFloat f => negb (f =? 0)%float
  | JStr s => negb (String.eqb s "")
  | JList l => match l with [] => false | _ => true end
  | JDict d => match d with [] => false | _ => true end
  end.

(** [v == s] for a string [s]: only an equal string compares equal. *)
Definition eq_str (s : string) (v : json) : bool :=
  match v with JStr s' => String.eqb s s' | _ => false end.

Definition type_name (v : json) : string :=
  match v with
  | JNull => "NoneType" | JBool _ => "bool" | JInt _ => "int"
  | JFloat _ => "float" | JStr _ => "str" | JList _ => "list"
  | JDict _ => "dict"
  end.

Definition no_attribute (v : json) (a : string) : exc :=
  mk_exc AttributeError
    ("'" ++ type_name v ++ "' object has no attribute '" ++ a ++ "'").

(** [v.get(k, default)]: only a dict has the method. *)
Definition py_get (v : json) (k : string) (default : json) : outcome json :=
  match v with
  | JDict d => Ret (dict_get_default k default d)
  | _ => Raise (no_attribute v "get")
  end.

(** [v.items()] *)
Definition py_items (v : json) : outcome (list (string * json)) :=
  match v with
  | JDict d => Ret d
  | _ => Raise (no_attribute v "items")
  end.

(** [k in v] for a string [k]: key of a dict, element of a list, substring
    of a string; anything else is not iterable. *)
Definition py_in (k : string) (v : json) : outcome bool :=
  match v with
  | JDict d => Ret (dict_mem k d)
  | JList l => Ret (existsb (eq_str k) l)
  | JStr s => Ret (is_substring k s)
  | _ => Raise (mk_exc TypeError
                  ("argument of type '" ++ type_name v ++ "' is not iterable"))
  end.

(** [v[k]] for a string [k] *)
Definition py_getitem (v : json) (k : string) : outcome json :=
  match v with
  | JDict d => dict_getitem k d
  | JList _ =>
      Raise (mk_exc TypeError "list indices must be integers or slices, not str")
  | JStr _ => Raise (mk_exc TypeError "string indices must be integers, not 'str'")
  | _ => Raise (mk_exc TypeError
                  ("'" ++ type_name v ++ "' object is not subscriptable"))
  end.

End Py.
Import Py.

Declare Scope py_scope.
Delimit Scope py_scope with py.
Notation "x <- c ;; k" := (Py.bind c (fun x => k))
  (at level 100, c at next level, right associativity) : py_scope.
Notation "' p <- c ;; k" := (Py.bind c (fun x => let 'p := x in k))
  (at level 100, p pattern, c at next level, right associativity) : py_scope.

(** ** Numbers: binary64 floats and Python's [round] *)

Module Num.

(** The double nearest to [n / d] (ties to even) with sign [s], for
    [0 <= n] and [0 < d]: what [float("0.9")] is for [n = 9], [d = 10]. *)
Definition nearest_double (s : bool) (n d : Z) : float :=
  let '(q, e, l) := SFdiv_core_binary prec emax n 0 d 0 in
  SF2Prim (binary_round_aux prec emax s q e l).

(** A decimal literal [n / d] of the program text or of a JSON document. *)
Definition dec (n d : Z) : float :=
  if n <? 0 then nearest_double true (- n) d else nearest_double false n d.

(** [n / d] rounded to the nearest integer, ties to even ([0 <= n], [0 < d]). *)
Definition div_half_even (n d : Z) : Z :=
  let q := n / d in
  let r := n mod d in
  match 2 * r ?= d with
  | Lt => q
  | Gt => q + 1
  | Eq => if Z.even q then q else q + 1
  end.

(** [round(x, ndigits)] for [0 <= ndigits]: infinities and NaN are returned
    as they are; a finite [x = m * 2^e] is rounded at the decimal digit
    [ndigits] on its exact value, ties to even, and the decimal result is
    converted back to the nearest double; the sign is kept, also on zero. *)
Definition py_round (x : float) (ndigits : Z) : float :=
  match Prim2SF x with
  | S754_finite s m e =>
      let p := 10 ^ ndigits in
      let scaled :=
        if 0 <=? e then Zpos m * 2 ^ e * p
        else div_half_even (Zpos m * p) (2 ^ (- e)) in
      nearest_double s scaled p
  | _ => x
  end.

(** [float(n)] for a list length [n] (a length is far below the range where
    the conversion would overflow). *)
Definition float_of_len (n : nat) : float :=
  SF2Prim (binary_normalize prec emax (Z.of_nat n) 0 false).

(** [x / y]: division by zero raises. *)
Definition py_truediv (x y : float) : outcome float :=
  if (y =? 0)%float
  then Raise (mk_exc ZeroDivisionError "float division by zero")
  else Ret (x / y)%float.

(** [x / n] for a list length [n]: [n] is converted to a float, and the
    division raises when that float is zero, which is when [n] is 0. *)
Definition py_truediv_len (x : float) (n : nat) : outcome float :=
  match n with
  | O => Raise (mk_exc ZeroDivisionError "float division by zero")
  | S _ => Ret (x / float_of_len n)%float
  end.

(** [sum(l)]: the items are added from the left, starting from 0, as the
    language reference defines it (from version 3.12 on CPython adds floats
    with a compensated sum, which differs in the last bit at most on some
    inputs). *)
Definition py_sum (l : list float) : float :=
  fold_left PrimFloat.add l 0%float.

End Num.
Import Num.

(** ** Calendar dates: [datetime.strptime], [strftime], [timedelta(days=1)] *)

Module Dates.

(** A [datetime] whose time of day is midnight, as [strptime] with the
    format [%Y-%m-%d] builds it. *)
Record datetime := mk_date { year : Z; month : Z; day : Z }.

Definition is_leap (y : Z) : bool :=
  (y mod 4 =? 0) && (negb (y mod 100 =? 0) || (y mod 400 =? 0)).

Definition days_in_month (y m : Z) : Z :=
  if m =? 2 then (if is_leap y then 29 else 28)
  else if (m =? 4) || (m =? 6) || (m =? 9) || (m =? 11) then 30
  else 31.

Definition valid (d : datetime) : Prop :=
  1 <= year d <= 9999 /\ 1 <= month d <= 12 /\
  1 <= day d <= days_in_month (year d) (month d).

(** [a <= b]: the fields are compared in order. *)
Definition leb (a b : datetime) : bool :=
  (year a <? year b) ||
  ((year a =? year b) &&
   ((month a <? month b) ||
    ((month a =? month b) && (day a <=? day b)))).

(** [d + timedelta(days=1)]; past 9999-12-31 it raises. *)
Definition next_day (d : datetime) : outcome datetime :=
  if day d <? days_in_month (year d) (month d)
  then Ret (mk_date (year d) (month d) (day d + 1))
  else if month d <? 12 then Ret (mk_date (year d) (month d + 1) 1)
  else if year d <? 9999 then Ret (mk_date (year d + 1) 1 1)
  else Raise (mk_exc OverflowError "date value out of range").

(** The value of a decimal digit; strings are byte strings here and the
    digits are the ASCII ones.  On an ASCII text the reading of [strptime]
    below is the one of CPython; CPython also takes, for the year and for the
    second digit of the day, the decimal digits of other scripts, which this
    reading rejects.  The statements that conclude from a rejection are
    therefore made for ASCII texts ([is_ascii]). *)
Definition digit_val (c : ascii) : option Z :=
  let n := Z.of_N (N_of_ascii c) in
  if (48 <=? n) && (n <=? 57) then Some (n - 48) else None.

Definition digit_char (n : Z) : ascii := ascii_of_N (Z.to_N (48 + n)).

(** One alternative of a group of the format's regular expression: the
    value read and the rest of the input. *)
Definition alt := string -> option (Z * string).

(** Two digits, the first accepted by [p1] and the second by [p2]. *)
Definition two_digits (p1 p2 : Z -> bool) : alt := fun s =>
  match s with
  | String a (String b rest) =>
      match digit_val a, digit_val b with
      | Some x, Some y => if p1 x && p2 y then Some (10 * x + y, rest) else None
      | _, _ => None
      end
  | _ => None
  end.

Definition one_digit (p : Z -> bool) : alt := fun s =>
  match s with
  | String a rest =>
      match digit_val a with
      | Some x => if p x then Some (x, rest) else None
      | None => None
      end
  | _ => None
  end.

Definition space_then (a : alt) : alt := fun s =>
  match s with
  | String c rest => if Ascii.eqb c " " then a rest else None
  | _ => None
  end.

Definition between (lo hi x : Z) : bool := (lo <=? x) && (x <=? hi).

(** [%Y] is [\d\d\d\d]. *)
Definition year_group : alt := fun s =>
  match s with
  | String a (String b (String c (String d rest))) =>
      match digit_val a, digit_val b, digit_val c, digit_val d with
      | Some x3, Some x2, Some x1, Some x0 =>
          Some (1000 * x3 + 100 * x2 + 10 * x1 + x0, rest)
      | _, _, _, _ => None
      end
  | _ => None
  end.

(** [%m] is [1[0-2]|0[1-9]|[1-9]]. *)
Definition month_group : list alt :=
  [ two_digits (Z.eqb 1) (between 0 2);
    two_digits (Z.eqb 0) (between 1 9);
    one_digit (between 1 9) ].

(** [%d] is [3[01]|[12]\d|0[1-9]|[1-9]| [1-9]]. *)
Definition day_group : list alt :=
  [ two_digits (Z.eqb 3) (between 0 1);
    two_digits (between 1 2) (between 0 9);
    two_digits (Z.eqb 0) (between 1 9);
    one_digit (between 1 9);
    space_then (one_digit (between 1 9)) ].

(** The alternatives are tried in order; one is kept when the rest of the
    pattern, [k], matches after it. *)
Fixpoint first_match {R} (alts : list alt) (k : Z -> string -> option R)
    (s : string) : option R :=
  match alts with
  | [] => None
  | a :: alts' =>
      match a s with
      | Some (v, rest) =>
          match k v rest with
          | Some r => Some r
          | None => first_match alts' k s
          end
      | None => first_match alts' k s
      end
  end.

Definition dash {R} (k : string -> option R) (s : string) : option R :=
  match s with
  | String c rest => if Ascii.eqb c "-" then k rest else None
  | _ => None
  end.

(** A match of [%Y-%m-%d] at the start of [s]: the three fields and what is
    left of the input. *)
Definition match_format (s : string) : option (Z * Z * Z * string) :=
  match year_group s with
  | Some (y, r1) =>
      dash (first_match month_group (fun m =>
        dash (first_match day_group (fun d r => Some (y, m, d, r))))) r1
  | None => None
  end.

(** [datetime.strptime(s, '%Y-%m-%d')] *)
Definition strptime (s : string) : outcome datetime :=
  match match_format s with
  | None =>
      Raise (mk_exc ValueError
               ("time data " ++ py_repr s
                  ++ " does not match format '%Y-%m-%d'"))
  | Some (y, m, d, rest) =>
      if negb (String.eqb rest "")
      then Raise (mk_exc ValueError ("unconverted data remains: " ++ rest))
      else if y =? 0
      then Raise (mk_exc ValueError "year 0 is out of range")
      else if days_in_month y m <? d
      then Raise (mk_exc ValueError "day is out of range for month")
      else Ret (mk_date y m d)
  end.

Definition pad2 (n : Z) : string :=
  String (digit_char (n / 10)) (String (digit_char (n mod 10)) "").

Definition pad4 (n : Z) : string :=
  String (digit_char (n / 1000)) (String (digit_char (n / 100 mod 10))
    (String (digit_char (n / 10 mod 10)) (String (digit_char (n mod 10)) ""))).

(** The year as [%Y] writes it with the C library of Linux (glibc): in
    decimal, without padding.  From the year 1000 on this is the four-digit
    text that [strptime] reads back; below, other C libraries pad with zeros
    and the text differs from one platform to the other, so the statements
    that depend on the text of a date ask for a year of 1000 or more. *)
Definition year_text (y : Z) : string :=
  if y <? 10 then String (digit_char y) ""
  else if y <? 100 then pad2 y
  else if y <? 1000 then String (digit_char (y / 100)) (pad2 (y mod 100))
  else pad4 y.

(** [d.strftime('%Y-%m-%d')]: month and day on two digits. *)
Definition strftime (d : datetime) : string :=
  year_text (year d) ++ "-" ++ pad2 (month d) ++ "-" ++ pad2 (day d).

(** A strictly increasing numbering of the dates, used to bound loops. *)
Definition rank (d : datetime) : Z := (year d * 13 + month d) * 32 + day d.

End Dates.
Import Dates.

(** ** The outside world: HTTP, the file system, standard output *)

Module World.

(** A call [requests.get(url, params=params, timeout=timeout)]. *)
Record request := mk_request {
  url : string;
  params : dict json;
  timeout : Z
}.

(** What the call gives back: it raises, or it returns a response with its
    [status_code] and the outcome of [response.json()]. *)
Inductive http_answer :=
| Failed (e : exc)
| Response (status_code : Z) (body : exc + json).

Inductive event :=
| Get (r : request)
| Open (path : string)
| Print (line : string).

(** The remote service and the file system, which may answer anything and
    may depend on all that happened before. *)
Record oracle := mk_oracle {
  http : list event -> request -> http_answer;
  open_json : list event -> string -> exc + json
}.

(** A computation reads the trace so far and extends it. *)
Definition M (A : Type) := list event -> outcome A * list event.

Definition ret {A} (a : A) : M A := fun t => (Ret a, t).

Definition bind {A B} (c : M A) (k : A -> M B) : M B := fun t =>
  match c t with
  | (Ret a, t') => k a t'
  | (Raise e, t') => (Raise e, t')
  | (Diverge, t') => (Diverge, t')
  end.

Definition lift {A} (c : outcome A) : M A := fun t => (c, t).

Definition raise {A} (e : exc) : M A := lift (Raise e).

(** [try: body] / [except Exception as e: handler] *)
Definition try_except {A} (body : M A) (handler : exc -> M A) : M A := fun t =>
  match body t with
  | (Raise e, t') => handler e t'
  | r => r
  end.

(** [print(line)] on a standard output that takes the line. *)
Definition print (line : string) : M unit := fun t => (Ret tt, (t ++ [Print line])%list).

(** Standard output as it may be: [print] raises when the stream cannot
    encode the text or is closed.  A console says, for a line and what
    happened before, whether the line is taken or which exception writing it
    raises; [accepting] takes every line. *)
Definition console := list event -> string -> option exc.

Definition say (out : console) (line : string) : M unit := fun t =>
  match out t line with
  | None => (Ret tt, (t ++ [Print line])%list)
  | Some e => (Raise e, t)
  end.

Definition accepting : console := fun _ _ => None.

Definition requests_get (o : oracle) (u : string) (p : dict json) (tmo : Z)
    : M (Z * (exc + json)) := fun t =>
  let r := mk_request u p tmo in
  match http o t r with
  | Failed e => (Raise e, (t ++ [Get r])%list)
  | Response st body => (Ret (st, body), (t ++ [Get r])%list)
  end.

(** [response.json()] *)
Definition response_json (body : exc + json) : M json :=
  match body with
  | inl e => raise e
  | inr v => ret v
  end.

(** [with open(path, 'r') as f: json.load(f)] *)
Definition load_json (o : oracle) (path : string) : M json := fun t =>
  match open_json o t path with
  | inl e => (Raise e, (t ++ [Open path])%list)
  | inr v => (Ret v, (t ++ [Open path])%list)
  end.

End World.
Import World.

Declare Scope io_scope.
Delimit Scope io_scope with io.
Notation "x <- c ;; k" := (World.bind c (fun x => k))
  (at level 100, c at next level, right associativity) : io_scope.
Notation "' p <- c ;; k" := (World.bind c (fun x => let 'p := x in k))
  (at level 100, p pattern, c at next level, right associativity) : io_scope.
Notation "c ;;; k" := (World.bind c (fun _ => k))
  (at level 100, right associativity) : io_scope.

(** ** The result dictionary of [get_rates] *)

(** The keys [success], [historical], [base], [rates] and [error]; a key that
    is absent is [None] ([success] is read with [.get('success', False)]). *)
Record rates_data (V : Type) := mk_rates_data {
  success : bool;
  historical : option bool;
  base : option json;
  rates : option (dict V);
  error : option string
}.
Arguments mk_rates_data {V}.
Arguments success {V}.
Arguments historical {V}.
Arguments base {V}.
Arguments rates {V}.
Arguments error {V}.

(** [{'success': True, 'historical': True, 'base': b, 'rates': r}] *)
Definition success_result {V} (b : json) (r : dict V) : rates_data V :=
  mk_rates_data true (Some true) (Some b) (Some r) None.

(** [{'success': False, 'error': msg}] *)
Definition failure_result {V} (msg : string) : rates_data V :=
  mk_rates_data false None None None (Some msg).

(** ** [class ExchangeRateService] *)

Module ExchangeRateService.

Record service := mk_service {
  base_url : string;
  fallback_file : string;
  api_key : json
}.

(** [__init__]; the key is read from the environment ([JNull] when unset). *)
Definition init (key : json) : service :=
  mk_service "https://api.exchangerate.host" "data/sample_api.json" key.

Section Methods.
Variable o : oracle.
Variable self : service.

Local Open Scope io_scope.

(** [data.get('success', False) and 'quotes' in data] *)
Definition has_quotes (data : json) : outcome bool :=
  (succ <- py_get data "success" (JBool false) ;;
   if truthy succ then py_in "quotes" data else Ret false)%py.

(** The body of the [for] loop of [_get_timeframe_rates]. *)
Definition timeframe_step (from_currency to_currency : string)
    (rates : dict json) (item : string * json) : outcome (dict json) :=
  (let '(date_str, quote_data) := item in
   let currency_pair := from_currency ++ to_currency in
   found <- py_in currency_pair quote_data ;;
   if found
   then v <- py_getitem quote_data currency_pair ;;
        Ret (dict_set date_str (JDict [(to_currency, v)]) rates)
   else Ret rates)%py.

Fixpoint for_each {A B} (f : A -> B -> outcome A) (l : list B) (a : A)
    : outcome A :=
  match l with
  | [] => Ret a
  | x :: l' => Py.bind (f a x) (for_each f l')
  end.

(** The body of the [for] loop of [_load_fallback_data]. *)
Definition fallback_step (start end_ : datetime)
    (filtered_rates : dict json) (item : string * json) : outcome (dict json) :=
  (let '(date_str, rate_data) := item in
   date_obj <- strptime date_str ;;
   if Dates.leb start date_obj && Dates.leb date_obj end_
   then Ret (dict_set date_str rate_data filtered_rates)
   else Ret filtered_rates)%py.

(** The [try] block of [_load_fallback_data]: reading the file and slicing
    its table. *)
Definition load_fallback_try (start_date end_date : string)
    : M (rates_data json) :=
  data <- load_json o (fallback_file self) ;;
  start <- lift (strptime start_date) ;;
  end_ <- lift (strptime end_date) ;;
  table <- lift (py_getitem data "rates") ;;
  items <- lift (py_items table) ;;
  filtered_rates <- lift (for_each (fallback_step start end_) items []) ;;
  b <- lift (py_get data "base" (JStr "USD")) ;;
  ret (success_result b filtered_rates).

(** [_load_fallback_data] *)
Definition _load_fallback_data (start_date end_date : string)
    : M (rates_data json) :=
  try_except
    (load_fallback_try start_date end_date)
    (fun e =>
       print ("Fallback data loading failed: " ++ message e) ;;;
       ret (failure_result (message e))).

Definition historical_params (date from_currency to_currency : string)
    : dict json :=
  [("access_key", api_key self); ("date", JStr date);
   ("source", JStr from_currency); ("currencies", JStr to_currency)].

(** [_get_historical_rate] *)
Definition _get_historical_rate (date from_currency to_currency : string)
    : M (rates_data json) :=
  try_except
    (let url := base_url self ++ "/historical" in
     let params := historical_params date from_currency to_currency in
     '(status_code, body) <- requests_get o url params 10 ;;
     found <-
       (if status_code =? 200
        then
          data <- response_json body ;;
          ok <- lift (has_quotes data) ;;
          if ok
          then
            let currency_pair := from_currency ++ to_currency in
            quotes <- lift (py_getitem data "quotes") ;;
            present <- lift (py_in currency_pair quotes) ;;
            if present
            then
              quotes <- lift (py_getitem data "quotes") ;;
              v <- lift (py_getitem quotes currency_pair) ;;
              ret (Some (success_result (JStr from_currency)
                           [(date, JDict [(to_currency, v)])]))
            else ret None
          else ret None
        else ret None) ;;
     match found with
     | Some r => ret r
     | None => raise (mk_exc Exception "No historical data available")
     end)
    (fun e =>
       print ("Historical API request failed: " ++ message e) ;;;
       _load_fallback_data date date).

(** The [while current <= end] loop of [_get_rates_day_by_day]; each turn
    of the loop uses one unit of [fuel]. *)
Fixpoint day_loop (fuel : nat) (end_ : datetime)
    (from_currency to_currency : string)
    (current : datetime) (rates : dict json) : M (dict json) :=
  match fuel with
  | O => lift Diverge
  | S fuel' =>
      if Dates.leb current end_
      then
        let date_str := strftime current in
        let url := base_url self ++ "/historical" in
        let params := historical_params date_str from_currency to_currency in
        '(status_code, body) <- requests_get o url params 5 ;;
        rates' <-
          (if status_code =? 200
           then
             data <- response_json body ;;
             ok <- lift (has_quotes data) ;;
             if ok
             then
               let currency_pair := from_currency ++ to_currency in
               quotes <- lift (py_getitem data "quotes") ;;
               present <- lift (py_in currency_pair quotes) ;;
               if present
               then
                 quotes <- lift (py_getitem data "quotes") ;;
                 v <- lift (py_getitem quotes currency_pair) ;;
                 ret (dict_set date_str (JDict [(to_currency, v)]) rates)
               else ret rates
             else ret rates
           else ret rates) ;;
        current' <- lift (next_day current) ;;
        day_loop fuel' end_ from_currency to_currency current' rates'
      else ret rates
  end.

(** Turns of the loop from [start] to [end_], and the last test. *)
Definition day_fuel (start end_ : datetime) : nat :=
  S (Z.to_nat (rank end_ - rank start + 1)).

(** [_get_rates_day_by_day] *)
Definition _get_rates_day_by_day
    (start_date end_date from_currency to_currency : string)
    : M (rates_data json) :=
  try_except
    (start <- lift (strptime start_date) ;;
     end_ <- lift (strptime end_date) ;;
     rates <- day_loop (day_fuel start end_) end_
                from_currency to_currency start [] ;;
     match rates with
     | _ :: _ => ret (success_result (JStr from_currency) rates)
     | [] => raise (mk_exc Exception "No rates retrieved")
     end)
    (fun e =>
       print ("Day-by-day API request failed: " ++ message e) ;;;
       _load_fallback_data start_date end_date).

Definition timeframe_params
    (start_date end_date from_currency to_currency : string) : dict json :=
  [("access_key", api_key self); ("start_date", JStr start_date);
   ("end_date", JStr end_date); ("source", JStr from_currency);
   ("currencies", JStr to_currency)].

(** [_get_timeframe_rates] *)
Definition _get_timeframe_rates
    (start_date end_date from_currency to_currency : string)
    : M (rates_data json) :=
  try_except
    (let url := base_url self ++ "/timeframe" in
     let params :=
       timeframe_params start_date end_date from_currency to_currency in
     '(status_code, body) <- requests_get o url params 10 ;;
     found <-
       (if status_code =? 200
        then
          data <- response_json body ;;
          ok <- lift (has_quotes data) ;;
          if ok
          then
            quotes <- lift (py_getitem data "quotes") ;;
            items <- lift (py_items quotes) ;;
            rates <- lift (for_each
              (timeframe_step from_currency to_currency) items []) ;;
            ret (Some (success_result (JStr from_currency) rates))
          else ret None
        else ret None) ;;
     match found with
     | Some r => ret r
     | None =>
         _get_rates_day_by_day start_date end_date from_currency to_currency
     end)
    (fun e =>
       print ("Timeframe API request failed: " ++ message e) ;;;
       _get_rates_day_by_day start_date end_date from_currency to_currency).

(** [get_rates] *)
Definition get_rates
    (start_date end_date from_currency to_currency : string)
    : M (rates_data json) :=
  try_except
    (if negb (String.eqb start_date end_date)
     then _get_timeframe_rates start_date end_date from_currency to_currency
     else _get_historical_rate start_date from_currency to_currency)
    (fun e =>
       print ("API request failed: " ++ message e) ;;;
       _load_fallback_data start_date end_date).

End Methods.

End ExchangeRateService.
Import ExchangeRateService.

(** ** [class ExchangeRateService] on a console that may refuse a line

    The methods above are the code on a standard output that takes every
    line.  Here the same methods are given for any console: a [print] in an
    [except] clause may raise, and nothing in that clause catches it.  With
    the console [accepting] these definitions are the ones above. *)

Module ServiceOnConsole.

Section Methods.
Variable out : console.
Variable o : oracle.
Variable self : service.

Local Open Scope io_scope.

(** [_load_fallback_data] *)
Definition _load_fallback_data (start_date end_date : string)
    : M (rates_data json) :=
  try_except
    (load_fallback_try o self start_date end_date)
    (fun e =>
       say out ("Fallback data loading failed: " ++ message e) ;;;
       ret (failure_result (message e))).

(** [_get_historical_rate] *)
Definition _get_historical_rate (date from_currency to_currency : string)
    : M (rates_data json) :=
  try_except
    (let url := base_url self ++ "/historical" in
     let params := historical_params self date from_currency to_currency in
     '(status_code, body) <- requests_get o url params 10 ;;
     found <-
       (if status_code =? 200
        then
          data <- response_json body ;;
          ok <- lift (has_quotes data) ;;
          if ok
          then
            let currency_pair := from_currency ++ to_currency in
            quotes <- lift (py_getitem data "quotes") ;;
            present <- lift (py_in currency_pair quotes) ;;
            if present
            then
              quotes <- lift (py_getitem data "quotes") ;;
              v <- lift (py_getitem quotes currency_pair) ;;
              ret (Some (success_result (JStr from_currency)
                           [(date, JDict [(to_currency, v)])]))
            else ret None
          else ret None
        else ret None) ;;
     match found with
     | Some r => ret r
     | None => raise (mk_exc Exception "No historical data available")
     end)
    (fun e =>
       say out ("Historical API request failed: " ++ message e) ;;;
       _load_fallback_data date date).

(** [_get_rates_day_by_day]; the loop does not print. *)
Definition _get_rates_day_by_day
    (start_date end_date from_currency to_currency : string)
    : M (rates_data json) :=
  try_except
    (start <- lift (strptime start_date) ;;
     end_ <- lift (strptime end_date) ;;
     rates <- day_loop o self (day_fuel start end_) end_
                from_currency to_currency start [] ;;
     match rates with
     | _ :: _ => ret (success_result (JStr from_currency) rates)
     | [] => raise (mk_exc Exception "No rates retrieved")
     end)
    (fun e =>
       say out ("Day-by-day API request failed: " ++ message e) ;;;
       _load_fallback_data start_date end_date).

(** [_get_timeframe_rates] *)
Definition _get_timeframe_rates
    (start_date end_date from_currency to_currency : string)
    : M (rates_data json) :=
  try_except
    (let url := base_url self ++ "/timeframe" in
     let params :=
       timeframe_params self start_date end_date from_currency to_currency in
     '(status_code, body) <- requests_get o url params 10 ;;
     found <-
       (if status_code =? 200
        then
          data <- response_json body ;;
          ok <- lift (has_quotes data) ;;
          if ok
          then
            quotes <- lift (py_getitem data "quotes") ;;
            items <- lift (py_items quotes) ;;
            rates <- lift (for_each
              (timeframe_step from_currency to_currency) items []) ;;
            ret (Some (success_result (JStr from_currency) rates))
          else ret None
        else ret None) ;;
     match found with
     | Some r => ret r
     | None =>
         _get_rates_day_by_day start_date end_date from_currency to_currency
     end)
    (fun e =>
       say out ("Timeframe API request failed: " ++ message e) ;;;
       _get_rates_day_by_day start_date end_date from_currency to_currency).

(** [get_rates] *)
Definition get_rates
    (start_date end_date from_currency to_currency : string)
    : M (rates_data json) :=
  try_except
    (if negb (String.eqb start_date end_date)
     then _get_timeframe_rates start_date end_date from_currency to_currency
     else _get_historical_rate start_date from_currency to_currency)
    (fun e =>
       say out ("API request failed: " ++ message e) ;;;
       _load_fallback_data start_date end_date).

End Methods.

End ServiceOnConsole.

(** ** [sorted] on strings *)

Module StringOrder <: Orders.TotalLeBool.
Definition t := string.
Definition leb : t -> t -> bool := String.leb.
Theorem leb_total : forall a1 a2, leb a1 a2 = true \/ leb a2 a1 = true.
Proof. exact String.leb_total. Qed.
End StringOrder.

Module StringSort := Sort StringOrder.

(** [sorted(l)] for a list of strings: the ascending arrangement of [l]. *)
Definition sorted (l : list string) : list string := StringSort.sort l.

(** ** [class FinanceCalculator] on float rates

    The two methods as their annotations type them: a series is a dictionary
    of days and a day a dictionary of float rates.  A day without the quote
    currency counts for the float 0.0, the value of the integer 0 that the
    code takes there; [FinanceCalculatorDyn], below, follows the code on
    every value, writes the integer, and raises where the code raises. *)

Module FinanceCalculator.

Local Open Scope py_scope.

(** [float('inf')] *)
Definition inf : float := infinity.

(** [calculate_percentage_change] *)
Definition calculate_percentage_change (old_value new_value : float)
    : outcome float :=
  if (old_value =? 0)%float
  then Ret (if (new_value =? 0)%float then 0%float else inf)
  else
    q <- py_truediv (new_value - old_value)%float old_value ;;
    Ret (q * 100)%float.

(** [l[i]]: a negative index counts from the end. *)
Definition py_index (l : list float) (i : Z) : outcome float :=
  let n := Z.of_nat (List.length l) in
  let j := if i <? 0 then i + n else i in
  match (if (0 <=? j) && (j <? n) then nth_error l (Z.to_nat j) else None) with
  | Some x => Ret x
  | None => Raise (mk_exc IndexError "list index out of range")
  end.

(** [round(p, 2) if p != float('inf') else 'N/A'] *)
Definition pct_field (p : float) : json :=
  if negb (p =? inf)%float then JFloat (py_round p 2) else JStr "N/A".

(** The lists [daily_data] and [rate_values] that the loop extends. *)
Definition loop_state := (list json * list float)%type.

(** One turn of [for i, date in enumerate(sorted_dates)]. *)
Definition day_step (rates : dict (dict float)) (to_currency : string)
    (i : Z) (date : string) (st : loop_state) : outcome loop_state :=
  let '(daily_data, rate_values) := st in
  day <- dict_getitem date rates ;;
  let rate := dict_get_default to_currency 0%float day in
  let rate_values := (rate_values ++ [rate])%list in
  pct_change <-
    (if 0 <? i
     then prev_rate <- py_index rate_values (i - 1) ;;
          calculate_percentage_change prev_rate rate
     else Ret 0%float) ;;
  Ret ((daily_data ++
          [JDict [("date", JStr date);
                  ("rate", JFloat (py_round rate 5));
                  ("pct_change", pct_field pct_change)]])%list,
       rate_values).

Fixpoint enumerate_loop (rates : dict (dict float)) (to_currency : string)
    (i : Z) (dates : list string) (st : loop_state) : outcome loop_state :=
  match dates with
  | [] => Ret st
  | date :: dates' =>
      st' <- day_step rates to_currency i date st ;;
      enumerate_loop rates to_currency (i + 1) dates' st'
  end.

(** [process_rates_data] *)
Definition process_rates_data (rates_data : rates_data (dict float))
    (to_currency breakdown : string) : outcome json :=
  if negb (success rates_data)
  then Ret (JDict [("error", JStr "Failed to retrieve rates data")])
  else
    let rates := match rates rates_data with Some r => r | None => [] end in
    match rates with
    | [] => Ret (JDict [("error", JStr "No rates data available")])
    | _ :: _ =>
        let sorted_dates := sorted (keys rates) in
        ' (daily_data, rate_values) <-
          enumerate_loop rates to_currency 0 sorted_dates ([], []) ;;
        let nonempty := match rate_values with [] => false | _ => true end in
        start_rate <- (if nonempty then py_index rate_values 0 else Ret 0%float) ;;
        end_rate <- (if nonempty then py_index rate_values (-1) else Ret 0%float) ;;
        total_pct_change <- calculate_percentage_change start_rate end_rate ;;
        mean_rate <-
          (if nonempty
           then py_truediv_len (py_sum rate_values) (List.length rate_values)
           else Ret 0%float) ;;
        let result :=
          [("totals",
            JDict [("start_rate", JFloat (py_round start_rate 5));
                   ("end_rate", JFloat (py_round end_rate 5));
                   ("total_pct_change", pct_field total_pct_change);
                   ("mean_rate", JFloat (py_round mean_rate 5))])] in
        Ret (JDict (if String.eqb breakdown "day"
                    then dict_set "breakdown" (JList daily_data) result
                    else result))
    end.

End FinanceCalculator.
Import FinanceCalculator.

(** ** [class FinanceCalculator] on the values that [get_rates] returns

    The route handlers pass the result of [get_rates] to the calculator as it
    is: a day entry and a rate are then any JSON value.  This second
    embedding of the same two methods follows every operation on such values:
    integers are exact and unbounded, a boolean counts as the integer 0 or 1,
    an integer meets a float as the nearest float (or raises when it is too
    large), and an operation on a value of another type raises. *)

Module FinanceCalculatorDyn.

Local Open Scope py_scope.

(** A Python number. *)
Inductive num :=
| NInt (z : Z)
| NFloat (f : float).

Definition as_num (v : json) : option num :=
  match v with
  | JInt z => Some (NInt z)
  | JBool b => Some (NInt (if b then 1 else 0))
  | JFloat f => Some (NFloat f)
  | _ => None
  end.

(** [float(z)]: the nearest float, ties to even. *)
Definition float_of_int (z : Z) : outcome float :=
  match binary_normalize prec emax z 0 false with
  | S754_infinity _ =>
      Raise (mk_exc OverflowError "int too large to convert to float")
  | sf => Ret (SF2Prim sf)
  end.

Definition to_float (x : num) : outcome float :=
  match x with
  | NInt z => float_of_int z
  | NFloat f => Ret f
  end.

(** [a / b] on integers: the float nearest to the exact quotient. *)
Definition int_truediv (a b : Z) : outcome float :=
  if b =? 0
  then Raise (mk_exc ZeroDivisionError "division by zero")
  else
    let s := xorb (a <? 0) (b <? 0) in
    let '(q, e, l) := SFdiv_core_binary prec emax (Z.abs a) 0 (Z.abs b) 0 in
    match binary_round_aux prec emax s q e l with
    | S754_infinity _ =>
        Raise (mk_exc OverflowError
                 "integer division result too large for a float")
    | sf => Ret (SF2Prim sf)
    end.

Definition unsupported (op : string) (a b : string) : exc :=
  mk_exc TypeError
    ("unsupported operand type(s) for " ++ op ++ ": '" ++ a ++ "' and '"
       ++ b ++ "'").

Definition num_type (x : num) : string :=
  match x with NInt _ => "int" | NFloat _ => "float" end.

(** [x - y] *)
Definition num_sub (x y : num) : outcome num :=
  match x, y with
  | NInt a, NInt b => Ret (NInt (a - b))
  | _, _ =>
      fa <- to_float x ;; fb <- to_float y ;; Ret (NFloat (fa - fb))
  end.

(** [x + y] *)
Definition num_add (x y : num) : outcome num :=
  match x, y with
  | NInt a, NInt b => Ret (NInt (a + b))
  | _, _ =>
      fa <- to_float x ;; fb <- to_float y ;; Ret (NFloat (fa + fb))
  end.

(** [x / y] *)
Definition num_truediv (x y : num) : outcome float :=
  match x, y with
  | NInt a, NInt b => int_truediv a b
  | _, _ =>
      fa <- to_float x ;; fb <- to_float y ;;
      if (fb =? 0)%float
      then Raise (mk_exc ZeroDivisionError "float division by zero")
      else Ret (fa / fb)%float
  end.

(** [v == 0]: a value that is not a number is not equal to 0. *)
Definition py_eq_zero (v : json) : bool :=
  match as_num v with
  | Some (NInt z) => z =? 0
  | Some (NFloat f) => (f =? 0)%float
  | None => false
  end.

(** [a - b] on values *)
Definition py_sub (a b : json) : outcome num :=
  match as_num a, as_num b with
  | Some x, Some y => num_sub x y
  | _, _ => Raise (unsupported "-" (type_name a) (type_name b))
  end.

(** [x / b] for a number [x] and a value [b] *)
Definition py_truediv_by (x : num) (b : json) : outcome float :=
  match as_num b with
  | Some y => num_truediv x y
  | None => Raise (unsupported "/" (num_type x) (type_name b))
  end.

(** [calculate_percentage_change] *)
Definition calculate_percentage_change_dyn (old_value new_value : json)
    : outcome float :=
  if py_eq_zero old_value
  then Ret (if py_eq_zero new_value then 0%float else inf)
  else
    d <- py_sub new_value old_value ;;
    q <- py_truediv_by d old_value ;;
    Ret (q * 100)%float.

(** [round(v, ndigits)]: an integer is returned as it is. *)
Definition py_round_dyn (v : json) (ndigits : Z) : outcome json :=
  match v with
  | JInt z => Ret (JInt z)
  | JBool b => Ret (JInt (if b then 1 else 0))
  | JFloat f => Ret (JFloat (py_round f ndigits))
  | _ => Raise (mk_exc TypeError
                  ("type " ++ type_name v ++ " doesn't define __round__ method"))
  end.

(** [sum(l)] *)
Fixpoint sum_from (acc : num) (l : list json) : outcome num :=
  match l with
  | [] => Ret acc
  | v :: l' =>
      match as_num v with
      | Some y => acc' <- num_add acc y ;; sum_from acc' l'
      | None => Raise (unsupported "+" (num_type acc) (type_name v))
      end
  end.

Definition py_sum_dyn (l : list json) : outcome num := sum_from (NInt 0) l.

(** [x / len(l)] for the length [n] of a list *)
Definition num_truediv_len (x : num) (n : nat) : outcome float :=
  match x with
  | NInt z => int_truediv z (Z.of_nat n)
  | NFloat f => py_truediv_len f n
  end.

(** [l[i]] on a list of values *)
Definition list_index (l : list json) (i : Z) : outcome json :=
  let n := Z.of_nat (List.length l) in
  let j := if i <? 0 then i + n else i in
  match (if (0 <=? j) && (j <? n) then nth_error l (Z.to_nat j) else None) with
  | Some x => Ret x
  | None => Raise (mk_exc IndexError "list index out of range")
  end.

Definition loop_state_dyn := (list json * list json)%type.

(** One turn of [for i, date in enumerate(sorted_dates)]. *)
Definition day_step_dyn (rates : dict json) (to_currency : string)
    (i : Z) (date : string) (st : loop_state_dyn) : outcome loop_state_dyn :=
  let '(daily_data, rate_values) := st in
  day <- dict_getitem date rates ;;
  rate <- py_get day to_currency (JInt 0) ;;
  let rate_values := (rate_values ++ [rate])%list in
  pct_change <-
    (if 0 <? i
     then prev_rate <- list_index rate_values (i - 1) ;;
          calculate_percentage_change_dyn prev_rate rate
     else Ret 0%float) ;;
  rounded <- py_round_dyn rate 5 ;;
  Ret ((daily_data ++
          [JDict [("date", JStr date);
                  ("rate", rounded);
                  ("pct_change", pct_field pct_change)]])%list,
       rate_values).

Fixpoint enumerate_loop_dyn (rates : dict json) (to_currency : string)
    (i : Z) (dates : list string) (st : loop_state_dyn)
    : outcome loop_state_dyn :=
  match dates with
  | [] => Ret st
  | date :: dates' =>
      st' <- day_step_dyn rates to_currency i date st ;;
      enumerate_loop_dyn rates to_currency (i + 1) dates' st'
  end.

(** [process_rates_data] *)
Definition process_rates_data_dyn (rates_data : rates_data json)
    (to_currency breakdown : string) : outcome json :=
  if negb (success rates_data)
  then Ret (JDict [("error", JStr "Failed to retrieve rates data")])
  else
    let rates := match rates rates_data with Some r => r | None => [] end in
    match rates with
    | [] => Ret (JDict [("error", JStr "No rates data available")])
    | _ :: _ =>
        let sorted_dates := sorted (keys rates) in
        ' (daily_data, rate_values) <-
          enumerate_loop_dyn rates to_currency 0 sorted_dates ([], []) ;;
        let nonempty := match rate_values with [] => false | _ => true end in
        start_rate <- (if nonempty then list_index rate_values 0
                       else Ret (JInt 0)) ;;
        end_rate <- (if nonempty then list_index rate_values (-1)
                     else Ret (JInt 0)) ;;
        total_pct_change <-
          calculate_percentage_change_dyn start_rate end_rate ;;
        mean_rate <-
          (if nonempty
           then total <- py_sum_dyn rate_values ;;
                m <- num_truediv_len total (List.length rate_values) ;;
                Ret (JFloat m)
           else Ret (JInt 0)) ;;
        start_rounded <- py_round_dyn start_rate 5 ;;
        end_rounded <- py_round_dyn end_rate 5 ;;
        mean_rounded <- py_round_dyn mean_rate 5 ;;
        let result :=
          [("totals",
            JDict [("start_rate", start_rounded);
                   ("end_rate", end_rounded);
                   ("total_pct_change", pct_field total_pct_change);
                   ("mean_rate", mean_rounded)])] in
        Ret (JDict (if String.eqb breakdown "day"
                    then dict_set "breakdown" (JList daily_data) result
                    else result))
    end.

End FinanceCalculatorDyn.
Import FinanceCalculatorDyn.

(** ** The route handlers of [app.py] and [webapp.py] *)

Module Routes.

Local Open Scope io_scope.

(** What a handler returns: the document given to [jsonify] and the status. *)
Definition response := (json * Z)%type.

(** [not v] for a query parameter: it is absent or the empty string. *)
Definition missing (v : option string) : bool :=
  match v with
  | None => true
  | Some s => String.eqb s ""
  end.

(** [isinstance(e, ValueError)], over the kinds of the model. *)
Definition is_value_error (e : exc) : bool :=
  match kind e with
  | ValueError | JSONDecodeError => true
  | _ => false
  end.

(** [try: body] / [except ValueError: handler] *)
Definition try_except_value_error {A} (body : M A) (handler : M A) : M A :=
  fun t =>
    match body t with
    | (Raise e, t') => if is_value_error e then handler t' else (Raise e, t')
    | r => r
    end.

(** [v[k] = x] *)
Definition py_setitem (v : json) (k : string) (x : json) : outcome json :=
  match v with
  | JDict d => Ret (JDict (dict_set k x d))
  | _ => Raise (mk_exc TypeError
                  ("'" ++ type_name v ++ "' object does not support item assignment"))
  end.

(** The items that [for x in v] goes through. *)
Definition py_iter (v : json) : outcome (list json) :=
  match v with
  | JList l => Ret l
  | JDict d => Ret (map JStr (keys d))
  | JStr s => Ret (map (fun c => JStr (String c "")) (list_ascii_of_string s))
  | _ => Raise (mk_exc TypeError
                  ("'" ++ type_name v ++ "' object is not iterable"))
  end.

(** A list comprehension [[f(x) for x in l]]. *)
Fixpoint comprehension (f : json -> outcome json) (l : list json)
    : outcome (list json) :=
  match l with
  | [] => Ret []
  | x :: l' =>
      Py.bind (f x) (fun y =>
      Py.bind (comprehension f l') (fun ys => Ret (y :: ys)))
  end.

Section Handlers.
Variable o : oracle.
Variable self : service.

(** The clock: what [datetime.now().isoformat()] gives after a trace. *)
Variable now : list event -> string.

Definition isoformat_now : M string := fun t => (Ret (now t), t).

(** The two date parameters are read with [strptime]; a [ValueError] gives
    the response [bad_format]. *)
Definition validate_dates (start_date end_date : string) (bad_format : response)
    : M (option response) :=
  try_except_value_error
    (lift (strptime start_date) ;;;
     lift (strptime end_date) ;;;
     ret None)
    (ret (Some bad_format)).

(** [finance] of [app.py]; [args] are the query parameters. *)
Definition finance (args : dict string) : M response :=
  try_except
    (let start_date := dict_get "start" args in
     let end_date := dict_get "end" args in
     let breakdown := dict_get_default "breakdown" "day" args in
     let from_currency := dict_get_default "from" "USD" args in
     let to_currency := dict_get_default "to" "EUR" args in
     match start_date, end_date with
     | Some start_date, Some end_date =>
         if missing (Some start_date) || missing (Some end_date)
         then ret (JDict [("error", JStr "Both start and end dates are required");
                          ("example",
                           JStr "/finance?start=2025-07-01&end=2025-07-03")],
                   400)
         else
           rejected <- validate_dates start_date end_date
             (JDict [("error", JStr "Invalid date format. Use YYYY-MM-DD");
                     ("example",
                      JStr "/finance?start=2025-07-01&end=2025-07-03")],
              400) ;;
           match rejected with
           | Some r => ret r
           | None =>
               rates_data <- get_rates o self start_date end_date
                               from_currency to_currency ;;
               result <- lift (process_rates_data_dyn rates_data
                                 to_currency breakdown) ;;
               failed <- lift (py_in "error" result) ;;
               if failed
               then ret (result, 500)
               else
                 timestamp <- isoformat_now ;;
                 result <- lift (py_setitem result "metadata"
                   (JDict [("start_date", JStr start_date);
                           ("end_date", JStr end_date);
                           ("from_currency", JStr from_currency);
                           ("to_currency", JStr to_currency);
                           ("breakdown", JStr breakdown);
                           ("timestamp", JStr timestamp)])) ;;
                 ret (result, 200)
           end
     | _, _ =>
         ret (JDict [("error", JStr "Both start and end dates are required");
                     ("example",
                      JStr "/finance?start=2025-07-01&end=2025-07-03")],
              400)
     end)
    (fun e =>
       ret (JDict [("error", JStr "Internal server error");
                   ("details", JStr (message e))],
            500)).

(** [day['pct_change'] if day['pct_change'] != 'N/A' else 0] *)
Definition chart_change (day : json) : outcome json :=
  (v <- py_getitem day "pct_change" ;;
   if negb (eq_str "N/A" v)
   then py_getitem day "pct_change"
   else Ret (JInt 0))%py.

(** [api_rates] of [webapp.py] *)
Definition api_rates (args : dict string) : M response :=
  try_except
    (let start_date := dict_get "start" args in
     let end_date := dict_get "end" args in
     let from_currency := dict_get_default "from" "USD" args in
     let to_currency := dict_get_default "to" "EUR" args in
     match start_date, end_date with
     | Some start_date, Some end_date =>
         if missing (Some start_date) || missing (Some end_date)
         then ret (JDict [("error", JStr "Start and end dates are required")],
                   400)
         else
           rejected <- validate_dates start_date end_date
             (JDict [("error", JStr "Invalid date format. Use YYYY-MM-DD")],
              400) ;;
           match rejected with
           | Some r => ret r
           | None =>
               rates_data <- get_rates o self start_date end_date
                               from_currency to_currency ;;
               result <- lift (process_rates_data_dyn rates_data
                                 to_currency "day") ;;
               failed <- lift (py_in "error" result) ;;
               if failed
               then ret (result, 500)
               else
                 breakdown <- lift (py_get result "breakdown" (JList [])) ;;
                 days <- lift (py_iter breakdown) ;;
                 labels <- lift (comprehension
                                   (fun day => py_getitem day "date") days) ;;
                 days <- lift (py_iter breakdown) ;;
                 chart_rates <- lift (comprehension
                                        (fun day => py_getitem day "rate") days) ;;
                 days <- lift (py_iter breakdown) ;;
                 changes <- lift (comprehension chart_change days) ;;
                 totals <- lift (py_getitem result "totals") ;;
                 timestamp <- isoformat_now ;;
                 ret (JDict [("labels", JList labels);
                             ("rates", JList chart_rates);
                             ("changes", JList changes);
                             ("totals", totals);
                             ("metadata",
                              JDict [("start_date", JStr start_date);
                                     ("end_date", JStr end_date);
                                     ("from_currency", JStr from_currency);
                                     ("to_currency", JStr to_currency);
                                     ("timestamp", JStr timestamp)])],
                      200)
           end
     | _, _ =>
         ret (JDict [("error", JStr "Start and end dates are required")], 400)
     end)
    (fun e => ret (JDict [("error", JStr (message e))], 500)).

(** [health] of [app.py] and of [webapp.py]; [name] is the service name. *)
Definition health (name : string) : M response :=
  timestamp <- isoformat_now ;;
  ret (JDict [("status", JStr "healthy");
              ("service", JStr name);
              ("timestamp", JStr timestamp)],
       200).

End Handlers.

End Routes.
Import Routes.

(** ** Vocabulary of the statements *)

(** The value [calculate_percentage_change] computes, as a total function. *)
Definition pct_value (old_value new_value : float) : float :=
  if (old_value =? 0)%float
  then (if (new_value =? 0)%float then 0%float else inf)
  else ((new_value - old_value) / old_value * 100)%float.

(** The series is missing or has no entry. *)
Definition series_empty {V} (rd : rates_data V) : Prop :=
  rates rd = None \/ rates rd = Some [].

(** A dictionary that holds an error message and nothing else. *)
Definition is_error_object (r : outcome json) : Prop :=
  exists msg, r = Ret (JDict [("error", JStr msg)]).

(** The rate of [date] for the quote currency: 0 when the day's entry does
    not carry the currency. *)
Definition rate_of (rates : dict (dict float)) (to_currency date : string)
    : float :=
  match dict_get date rates with
  | Some day => dict_get_default to_currency 0%float day
  | None => 0%float
  end.

(** The breakdown, stated on the unrounded rates: the change of an entry is
    taken from the unrounded rate before it ([prev]) and its own, and only
    the fields written out are rounded. *)
Fixpoint breakdown_from (prev : option float) (series : list (string * float))
    : list json :=
  match series with
  | [] => []
  | (date, rate) :: series' =>
      JDict [("date", JStr date);
             ("rate", JFloat (py_round rate 5));
             ("pct_change",
              pct_field (match prev with
                         | Some p => pct_value p rate
                         | None => 0%float
                         end))]
      :: breakdown_from (Some rate) series'
  end.

(** The totals, stated on the unrounded rates. *)
Definition totals_from (values : list float) : json :=
  let start_rate := hd 0%float values in
  let end_rate := last values 0%float in
  JDict [("start_rate", JFloat (py_round start_rate 5));
         ("end_rate", JFloat (py_round end_rate 5));
         ("total_pct_change", pct_field (pct_value start_rate end_rate));
         ("mean_rate",
          JFloat (py_round (py_sum values / float_of_len (List.length values)) 5))].

(** The output for a successful, non-empty series. *)
Definition stats_from (rates : dict (dict float))
    (to_currency breakdown : string) : json :=
  let series :=
    map (fun date => (date, rate_of rates to_currency date))
        (sorted (keys rates)) in
  JDict (("totals", totals_from (map snd series)) ::
         (if String.eqb breakdown "day"
          then [("breakdown", JList (breakdown_from None series))]
          else [])).

(** The last item of a list, if any. *)
Definition last_opt {A} (l : list A) : option A :=
  match l with
  | [] => None
  | _ :: _ => nth_error l (List.length l - 1)
  end.

(** The field [k] of a breakdown entry. *)
Definition entry_field (k : string) (entry : json) : option json :=
  match entry with
  | JDict d => dict_get k d
  | _ => None
  end.

(** The series of the worked example of the specification, and the same
    entries in the other order. *)
Definition example_series : dict (dict float) :=
  [("2025-07-01", [("EUR", dec 9 10)]); ("2025-07-02", [("EUR", dec 91 100)])].

Definition example_series_swapped : dict (dict float) :=
  [("2025-07-02", [("EUR", dec 91 100)]); ("2025-07-01", [("EUR", dec 9 10)])].


(** [c] ends, with a value or an exception, from every trace. *)
Definition terminates {A} (c : M A) : Prop :=
  forall t, fst (c t) <> Diverge.

(** [c] returns a value from every trace: it neither raises nor diverges. *)
Definition returns {A} (c : M A) : Prop :=
  forall t, exists a t', c t = (Ret a, t').

(** Every value that [c] returns satisfies [Q]. *)
Definition post {A} (c : M A) (Q : A -> Prop) : Prop :=
  forall t a t', c t = (Ret a, t') -> Q a.

(** A remote call that errors or answers without success: the request
    raises, the status is not 200, the body is not JSON, or the document is
    not a dictionary whose [success] entry is true. *)
Definition remote_fails (ans : http_answer) : bool :=
  match ans with
  | Failed _ => true
  | Response st body =>
      negb (st =? 200) ||
      match body with
      | inl _ => true
      | inr (JDict d) => negb (truthy (dict_get_default "success" (JBool false) d))
      | inr _ => true
      end
  end.

(** The key [key] reads as a date between [start] and [end_], both included. *)
Definition date_in_range (start end_ : datetime) (key : string) : bool :=
  match strptime key with
  | Ret d => Dates.leb start d && Dates.leb d end_
  | _ => false
  end.

(** The same as a proposition. *)
Definition in_range (start end_ : datetime) (key : string) : Prop :=
  date_in_range start end_ key = true.

(** Every date key of the series of [r] is within [start, end_]. *)
Definition dates_within (start end_ : datetime) (r : rates_data json) : Prop :=
  forall rs, rates r = Some rs -> Forall (in_range start end_) (keys rs).

(** The entries of a rate table whose date is between [start] and [end_]. *)
Definition restrict (start end_ : datetime) (table : dict json) : dict json :=
  filter (fun item => date_in_range start end_ (fst item)) table.

(** The structured failure: reading and slicing the fallback file raised the
    exception whose text the result carries. *)
Definition fallback_failed (o : oracle) (self : service)
    (start_date end_date : string) (r : rates_data json) : Prop :=
  exists e t1 t2,
    load_fallback_try o self start_date end_date t1 = (Raise e, t2) /\
    r = failure_result (message e).

(** The two shapes of a result of [get_rates]. *)
Definition success_or_fallback_failed (o : oracle) (self : service)
    (start_date end_date : string) (r : rates_data json) : Prop :=
  (exists b rs, r = success_result b rs) \/
  fallback_failed o self start_date end_date r.

(** A fallback file: base currency USD and four days of rates. *)
Definition sample_file : json :=
  JDict [("base", JStr "USD");
         ("rates",
          JDict [("2025-06-30", JDict [("EUR", JFloat (dec 89 100))]);
                 ("2025-07-01", JDict [("EUR", JFloat (dec 9 10))]);
                 ("2025-07-02", JDict [("EUR", JFloat (dec 91 100))]);
                 ("2025-07-04", JDict [("EUR", JFloat (dec 92 100))])])].

(** A world in which the remote service cannot be reached. *)
Definition world_down : oracle :=
  mk_oracle (fun _ _ => Failed (mk_exc RequestException "connection refused"))
            (fun _ _ => inr sample_file).

(** A timeframe document that reports success and whose quotes do not carry
    the pair USDEUR. *)
Definition payload_other_pair : json :=
  JDict [("success", JBool true);
         ("quotes",
          JDict [("2025-07-01", JDict [("USDGBP", JFloat (dec 8 10))]);
                 ("2025-07-02", JDict [("USDGBP", JFloat (dec 81 100))])])].

(** A world in which the remote service answers every request with
    [payload_other_pair]. *)
Definition world_other_pair : oracle :=
  mk_oracle (fun _ _ => Response 200 (inr payload_other_pair))
            (fun _ _ => inr sample_file).

(** A timeframe document with a quote for a day outside the range asked. *)
Definition payload_stray_date : json :=
  JDict [("success", JBool true);
         ("quotes",
          JDict [("2024-01-01", JDict [("USDEUR", JFloat (dec 9 10))])])].

(** A world in which the remote service answers every request with
    [payload_stray_date]. *)
Definition world_stray_date : oracle :=
  mk_oracle (fun _ _ => Response 200 (inr payload_stray_date))
            (fun _ _ => inr sample_file).

(** A timeframe document with quotes for two days of the range asked. *)
Definition payload_in_range : json :=
  JDict [("success", JBool true);
         ("quotes",
          JDict [("2025-07-01", JDict [("USDEUR", JFloat (dec 9 10))]);
                 ("2025-07-02", JDict [("USDEUR", JFloat (dec 91 100))])])].

(** A world in which the remote service answers every request with
    [payload_in_range]. *)
Definition world_in_range : oracle :=
  mk_oracle (fun _ _ => Response 200 (inr payload_in_range))
            (fun _ _ => inr sample_file).

(** The timeframe call of [get_rates], and the condition that every
    dictionary of quotes it may answer with is keyed by dates of the range. *)
Definition timeframe_request (self : service)
    (start_date end_date from_currency to_currency : string) : request :=
  mk_request (base_url self ++ "/timeframe")
    (timeframe_params self start_date end_date from_currency to_currency) 10.

Definition timeframe_dates_in_range (o : oracle) (self : service)
    (start_date end_date from_currency to_currency : string)
    (start end_ : datetime) : Prop :=
  forall t st d q,
    http o t (timeframe_request self start_date end_date
                from_currency to_currency)
    = Response st (inr (JDict d)) ->
    dict_get "quotes" d = Some (JDict q) ->
    Forall (in_range start end_) (keys q).

(** The fallback file can be read and holds a dataset: a dictionary whose
    [rates] entry is a table keyed by dates. *)
Definition dataset_readable (o : oracle) (self : service) : Prop :=
  exists data table,
    (forall t, open_json o t (fallback_file self) = inr (JDict data)) /\
    dict_get "rates" data = Some (JDict table) /\
    Forall (fun k => exists d, strptime k = Ret d) (keys table).

(** The series that the timeframe tier builds from the quotes of a
    response: a date is kept, with the quote of the pair, when its entry
    carries the pair. *)
Fixpoint reshape (from_currency to_currency : string) (quotes : dict json)
    : dict json :=
  match quotes with
  | [] => []
  | (date_str, JDict quote_data) :: quotes' =>
      match dict_get (from_currency ++ to_currency) quote_data with
      | Some v =>
          (date_str, JDict [(to_currency, v)])
          :: reshape from_currency to_currency quotes'
      | None => reshape from_currency to_currency quotes'
      end
  | _ :: quotes' => reshape from_currency to_currency quotes'
  end.

(** Every entry of the quotes is a dictionary. *)
Definition quotes_by_date (quotes : dict json) : Prop :=
  Forall (fun v => exists quote_data, v = JDict quote_data) (map snd quotes).

(** The single request of the historical tier for [date]. *)
Definition historical_request (self : service)
    (date from_currency to_currency : string) (tmo : Z) : request :=
  mk_request (base_url self ++ "/historical")
    (historical_params self date from_currency to_currency) tmo.

(** A historical document that quotes the pair USDEUR, and a world in which
    the remote service answers every request with it. *)
Definition payload_single_quote : dict json :=
  [("success", JBool true);
   ("quotes", JDict [("USDEUR", JFloat (dec 9 10))])].

Definition world_single_quote : oracle :=
  mk_oracle (fun _ _ => Response 200 (inr (JDict payload_single_quote)))
            (fun _ _ => inr sample_file).

(** The last day of the calendar. *)
Definition max_date : datetime := mk_date 9999 12 31.

(** A world whose fallback file has a table and no [base] entry, one whose
    file has no [rates] entry, and one whose table has a key that is not a
    date; the remote service cannot be reached. *)
Definition world_no_base : oracle :=
  mk_oracle (fun _ _ => Failed (mk_exc RequestException "connection refused"))
            (fun _ _ => inr (JDict
               [("rates",
                 JDict [("2025-07-01", JDict [("EUR", JFloat (dec 9 10))]);
                        ("2025-07-09", JDict [("EUR", JFloat (dec 92 100))])])])).

Definition world_no_rates : oracle :=
  mk_oracle (fun _ _ => Failed (mk_exc RequestException "connection refused"))
            (fun _ _ => inr (JDict [("base", JStr "USD")])).

Definition world_bad_key : oracle :=
  mk_oracle (fun _ _ => Failed (mk_exc RequestException "connection refused"))
            (fun _ _ => inr (JDict
               [("base", JStr "USD");
                ("rates",
                 JDict [("2025-07-01", JDict [("EUR", JFloat (dec 9 10))]);
                        ("updated", JStr "2025-07-09")])])).

(** The table of [sample_file]. *)
Definition sample_table : dict json :=
  [("2025-06-30", JDict [("EUR", JFloat (dec 89 100))]);
   ("2025-07-01", JDict [("EUR", JFloat (dec 9 10))]);
   ("2025-07-02", JDict [("EUR", JFloat (dec 91 100))]);
   ("2025-07-04", JDict [("EUR", JFloat (dec 92 100))])].

(** A typed series as the values [get_rates] returns: each day is a
    dictionary of floats. *)
Definition day_json (day : dict float) : json :=
  JDict (map (fun p => (fst p, JFloat (snd p))) day).

Definition series_json (r : dict (dict float)) : dict json :=
  map (fun p => (fst p, day_json (snd p))) r.

Definition rates_data_json (rd : rates_data (dict float)) : rates_data json :=
  mk_rates_data (success rd) (historical rd) (base rd)
    (option_map series_json (rates rd)) (error rd).

(** Every day of the series quotes the currency. *)
Definition quoted (to_currency : string) (r : dict (dict float)) : Prop :=
  Forall (fun p => dict_mem to_currency (snd p) = true) r.

(** [c] ends as [target] does from some later trace: same outcome, same
    final trace. *)
Definition ends_like {A} (target c : M A) : Prop :=
  forall t, exists t1, c t = target t1.

(** [c] raises, or ends as [target] does from some later trace. *)
Definition raises_or_ends_like {A} (target c : M A) : Prop :=
  forall t, (exists e t1, c t = (Raise e, t1)) \/ (exists t1, c t = target t1).

(** A world whose fallback file cannot be opened; the remote service cannot
    be reached. *)
Definition world_no_file : oracle :=
  mk_oracle (fun _ _ => Failed (mk_exc RequestException "connection refused"))
            (fun _ _ => inl (mk_exc OSError
               "[Errno 2] No such file or directory: 'data/sample_api.json'")).

(** A change as the breakdown writes it: the marker 'N/A' or a float. *)
Definition is_change (p : json) : Prop :=
  p = JStr "N/A" \/ exists f, p = JFloat f.

(** An entry of the breakdown. *)
Definition is_entry (entry : json) : Prop :=
  exists d r p,
    entry = JDict [("date", JStr d); ("rate", r); ("pct_change", p)] /\
    is_change p.

(** The document of a successful calculation: the totals, and with them in
    the 'day' mode the list of entries. *)
Definition is_stats (breakdown : string) (v : json) : Prop :=
  exists totals entries,
    Forall is_entry entries /\
    v = JDict (("totals", JDict totals) ::
               (if String.eqb breakdown "day"
                then [("breakdown", JList entries)]
                else [])).

(** The document of a failed calculation. *)
Definition is_error_doc (v : json) : Prop :=
  exists msg, v = JDict [("error", JStr msg)].

(** The documents of the handlers, as the statements name them. *)
Definition dates_required_doc : json :=
  JDict [("error", JStr "Both start and end dates are required");
         ("example", JStr "/finance?start=2025-07-01&end=2025-07-03")].

Definition bad_format_doc : json :=
  JDict [("error", JStr "Invalid date format. Use YYYY-MM-DD");
         ("example", JStr "/finance?start=2025-07-01&end=2025-07-03")].

Definition internal_error_doc (e : exc) : json :=
  JDict [("error", JStr "Internal server error");
         ("details", JStr (message e))].

Definition finance_metadata
    (start_date end_date from_currency to_currency breakdown timestamp : string)
    : json :=
  JDict [("start_date", JStr start_date);
         ("end_date", JStr end_date);
         ("from_currency", JStr from_currency);
         ("to_currency", JStr to_currency);
         ("breakdown", JStr breakdown);
         ("timestamp", JStr timestamp)].

(** The parameters [from], [to] and [breakdown] with their defaults. *)
Definition from_of (args : dict string) : string :=
  dict_get_default "from" "USD" args.

Definition to_of (args : dict string) : string :=
  dict_get_default "to" "EUR" args.

Definition breakdown_of (args : dict string) : string :=
  dict_get_default "breakdown" "day" args.

(** Both date parameters are given and read as dates. *)
Definition dates_accepted (args : dict string) (start_date end_date : string)
    : Prop :=
  dict_get "start" args = Some start_date /\
  dict_get "end" args = Some end_date /\
  (exists a, strptime start_date = Ret a) /\
  (exists b, strptime end_date = Ret b).

(** A clock for the examples. *)
Definition noon (_ : list event) : string := "2025-07-10T12:00:00".

(** The field [k] of an entry, [None] read as [null]. *)
Definition field (k : string) (entry : json) : json :=
  match entry_field k entry with
  | Some v => v
  | None => JNull
  end.

(** The change as the chart shows it: 0 in place of the marker 'N/A'. *)
Definition zero_if_na (p : json) : json :=
  if eq_str "N/A" p then JInt 0 else p.

Definition chart_metadata
    (start_date end_date from_currency to_currency timestamp : string) : json :=
  JDict [("start_date", JStr start_date);
         ("end_date", JStr end_date);
         ("from_currency", JStr from_currency);
         ("to_currency", JStr to_currency);
         ("timestamp", JStr timestamp)].

(** The dates of a series in ascending order, each with its rate. *)
Definition dated_rates (rates : dict (dict float)) (to_currency : string)
    : list (string * float) :=
  map (fun date => (date, rate_of rates to_currency date)) (sorted (keys rates)).

(** A world whose fallback file gives a rate as a text; the remote service
    cannot be reached. *)
Definition world_text_rate : oracle :=
  mk_oracle (fun _ _ => Failed (mk_exc RequestException "connection refused"))
            (fun _ _ => inr (JDict
               [("base", JStr "USD");
                ("rates",
                 JDict [("2025-07-01", JDict [("EUR", JStr "0.9")])])])).

(** A world in which the timeframe endpoint is refused (status 403), the
    historical endpoint answers with [payload_single_quote], and the request
    for 2025-07-02 times out. *)
Definition world_one_day_off : oracle :=
  mk_oracle
    (fun _ r =>
       match dict_get "date" (params r) with
       | Some (JStr date) =>
           if String.eqb date "2025-07-02"
           then Failed (mk_exc RequestException "read timed out")
           else Response 200 (inr (JDict payload_single_quote))
       | _ => Response 403 (inr (JDict [("success", JBool false)]))
       end)
    (fun _ _ => inr sample_file).

(** How the historical endpoint answers for a day: with a document that
    quotes the pair, or with a status other than 200. *)
Definition day_answer (pair : string) (q : option json) (ans : http_answer)
    : Prop :=
  match q with
  | Some v =>
      exists doc qs,
        ans = Response 200 (inr (JDict doc)) /\
        truthy (dict_get_default "success" (JBool false) doc) = true /\
        dict_get "quotes" doc = Some (JDict qs) /\
        dict_get pair qs = Some v
  | None => exists st body, ans = Response st body /\ st <> 200
  end.

(** The entry that the day-by-day tier writes for a quote. *)
Definition day_entry (to_currency : string) (q : option json) : option json :=
  match q with
  | Some v => Some (JDict [(to_currency, v)])
  | None => None
  end.

(** A console on which every [print] raises, as a pipe that was closed. *)
Definition closed_pipe : console :=
  fun _ _ => Some (mk_exc OSError "[Errno 32] Broken pipe").

(** The exception [e] is one that writing a line to the console raises. *)
Definition from_console (out : console) (e : exc) : Prop :=
  exists t line, out t line = Some e.

(** Every exception that leaves [c] comes from the console. *)
Definition raises_only_from {A} (out : console) (c : M A) : Prop :=
  forall t e t', c t = (Raise e, t') -> from_console out e.

(** The tier that [get_rates] calls. *)
Definition tier (out : console) (o : oracle) (self : service)
    (start_date end_date from_currency to_currency : string)
    : M (rates_data json) :=
  if String.eqb start_date end_date
  then ServiceOnConsole._get_historical_rate out o self
         start_date from_currency to_currency
  else ServiceOnConsole._get_timeframe_rates out o self
         start_date end_date from_currency to_currency.

(** The text is made of ASCII characters only.  On such a text the reading
    of [strptime] above is the one of CPython, which on other texts also
    takes the decimal digits of other scripts. *)
Definition is_ascii (s : string) : bool :=
  forallb (fun c => (N_of_ascii c <? 128)%N) (list_ascii_of_string s).

(** The parameter [k] of a request, when given, is an ASCII text. *)
Definition ascii_param (k : string) (args : dict string) : Prop :=
  forall v, dict_get k args = Some v -> is_ascii v = true.

(** A rate as the loop of the calculator meets it when rates are floats:
    the float of the day, or the integer 0 of a day that does not quote the
    currency. *)
Definition rate_or_zero (v : json) : Prop :=
  v = JInt 0 \/ exists f, v = JFloat f.

(** Every day entry is a dictionary, and the rate of the currency, where
    the day has one, is a float. *)
Definition float_days (to_currency : string) (r : dict json) : Prop :=
  Forall (fun kv =>
            exists day,
              snd kv = JDict day /\
              (dict_get to_currency day = None \/
               exists f, dict_get to_currency day = Some (JFloat f))) r.

(** The rate that the loop extracts for a date: the rate of the day, the
    integer 0 when the day has none. *)
Definition extracted (r : dict json) (to_currency date : string) : json :=
  match dict_get date r with
  | Some (JDict day) => dict_get_default to_currency (JInt 0) day
  | _ => JInt 0
  end.

(** The rates in ascending order of the dates. *)
Definition extracted_rates (r : dict json) (to_currency : string) : list json :=
  map (extracted r to_currency) (sorted (keys r)).

(** A series with a rate written as a text. *)
Definition series_text_rate : dict json :=
  [("2025-07-01", JDict [("EUR", JStr "0.9")])].

(** A series of two days, the second of which does not quote EUR. *)
Definition series_one_quote : dict json :=
  [("2025-07-01", JDict [("EUR", JFloat (dec 9 10))]);
   ("2025-07-02", JDict [("GBP", JFloat (dec 8 10))])].

(** * Properties *)

(** ** The model of numbers and dates on known values *)

(** Decimal literals denote the same doubles as in CPython. *)
Example dec_known_values :
  dec 9 10 = 0x1.ccccccccccccdp-1%float /\
  dec 91 100 = 0x1.d1eb851eb851fp-1%float /\
  dec 111 100 = 0x1.1c28f5c28f5c3p+0%float /\
  dec 905 1000 = 0x1.cf5c28f5c28f6p-1%float.
Proof. repeat split. Qed.

(** [round] on values that CPython documents or computes: a tie on an exact
    value goes to the even digit, 2.675 and 1.005 are below the tie, the
    sign of a zero result is kept, infinity is returned as it is. *)
Example py_round_known_values :
  py_round 0.125 2 = dec 12 100 /\
  py_round (dec 2675 1000) 2 = dec 267 100 /\
  py_round (dec 1005 1000) 2 = 1%float /\
  py_round (dec (-4) 1000) 2 = (-0)%float /\
  py_round (dec 5 1000) 2 = dec 1 100 /\
  py_round (dec 123456789012345678 1000000) 5 = 0x1.cbe991a14587ep+36%float /\
  py_round infinity 5 = infinity /\
  py_round (0x1.1c71c71c71c76p+0)%float 2 = dec 111 100.
Proof. repeat split. Qed.

(** [strptime] on inputs tried against CPython. *)
Example strptime_known_values :
  strptime "2025-07-01" = Ret (mk_date 2025 7 1) /\
  strptime "2025-7-1" = Ret (mk_date 2025 7 1) /\
  strptime "2025-07- 5" = Ret (mk_date 2025 7 5) /\
  strptime "2024-02-29" = Ret (mk_date 2024 2 29) /\
  strptime "2025-02-29"
  = Raise (mk_exc ValueError "day is out of range for month") /\
  strptime "2025-07-311"
  = Raise (mk_exc ValueError "unconverted data remains: 1") /\
  strptime "0000-01-01" = Raise (mk_exc ValueError "year 0 is out of range") /\
  strptime "2025-13-01"
  = Raise (mk_exc ValueError
             "time data '2025-13-01' does not match format '%Y-%m-%d'") /\
  next_day (mk_date 2024 2 28) = Ret (mk_date 2024 2 29) /\
  next_day (mk_date 2025 12 31) = Ret (mk_date 2026 1 1) /\
  next_day (mk_date 9999 12 31)
  = Raise (mk_exc OverflowError "date value out of range").
Proof. repeat split. Qed.

(** ** The percentage change *)

Lemma calculate_percentage_change_value : forall old_value new_value,
  calculate_percentage_change old_value new_value
  = Ret (pct_value old_value new_value).
Proof.
  intros old_value new_value.
  unfold calculate_percentage_change, pct_value, py_truediv.
  destruct (old_value =? 0)%float; reflexivity.
Qed.

(** C1, as stated, fails: on [(0, 5)] the function returns a float that is
    infinite. *)
Lemma C1_returns_infinite_float :
  ~ (exists v, calculate_percentage_change 0 5 = Ret v
               /\ PrimFloat.is_infinity v = false).
Proof.
  intros [v [H Hv]]. vm_compute in H. inversion H; subst v.
  vm_compute in Hv. discriminate Hv.
Qed.

(** C1 (amended): when the old value is zero the function returns without
    raising: [0.0] when the new value is zero too, and otherwise the float
    [inf], the internal marker that the output stage replaces by the string
    ['N/A']. *)
Theorem C1_zero_old_value : forall old_value new_value,
  (old_value =? 0)%float = true ->
  ((new_value =? 0)%float = true ->
     calculate_percentage_change old_value new_value = Ret 0%float) /\
  ((new_value =? 0)%float = false ->
     calculate_percentage_change old_value new_value = Ret inf
     /\ PrimFloat.is_infinity inf = true
     /\ pct_field inf = JStr "N/A").
Proof.
  intros old_value new_value Hold.
  unfold calculate_percentage_change. rewrite Hold.
  split; intros Hnew; rewrite Hnew.
  - reflexivity.
  - repeat split.
Qed.

Lemma C1_zero_old_value_witness :
  calculate_percentage_change 0 0 = Ret 0%float /\
  calculate_percentage_change 0 5 = Ret inf.
Proof.
  split.
  - apply (C1_zero_old_value 0 0); reflexivity.
  - apply (C1_zero_old_value 0 5); reflexivity.
Defined.

(** C7: for an old value other than zero the result is
    [((new - old) / old) * 100]; on [(100, 150)] it is [50.0] and on
    [(100, 50)] it is [-50.0]. *)
Theorem C7_percentage_formula :
  (forall old_value new_value,
     (old_value =? 0)%float = false ->
     calculate_percentage_change old_value new_value
     = Ret ((new_value - old_value) / old_value * 100)%float) /\
  calculate_percentage_change 100 150 = Ret 50%float /\
  calculate_percentage_change 100 50 = Ret (-50)%float.
Proof.
  split; [| split; reflexivity].
  intros old_value new_value Hold.
  unfold calculate_percentage_change, py_truediv. rewrite Hold. reflexivity.
Qed.

Lemma C7_percentage_formula_witness :
  calculate_percentage_change 4 5 = Ret ((5 - 4) / 4 * 100)%float.
Proof.
  apply (proj1 C7_percentage_formula 4%float 5%float). reflexivity.
Defined.

(** ** The statistics calculator *)

Section DictFacts.
Context {V : Type}.

Lemma dict_get_In : forall (k : string) (d : dict V),
  In k (keys d) -> exists v, dict_get k d = Some v.
Proof.
  intros k d. induction d as [| [k' v'] d IH]; simpl; intros Hin.
  - contradiction.
  - destruct (String.eqb_spec k k') as [Heq | Hne].
    + eauto.
    + destruct Hin as [Heq | Hin]; [congruence | auto].
Qed.

Lemma dict_get_Some_In : forall (k : string) (v : V) (d : dict V),
  dict_get k d = Some v -> In (k, v) d.
Proof.
  intros k v d. induction d as [| [k' v'] d IH]; simpl; intros H.
  - discriminate.
  - destruct (String.eqb_spec k k') as [Heq | Hne].
    + inversion H; subst. now left.
    + right. auto.
Qed.

Lemma dict_get_None_notin : forall (k : string) (d : dict V),
  dict_get k d = None -> ~ In k (keys d).
Proof.
  intros k d H Hin. apply dict_get_In in Hin. destruct Hin as [v Hv]. congruence.
Qed.

Lemma dict_get_NoDup_In : forall (k : string) (v : V) (d : dict V),
  NoDup (keys d) -> In (k, v) d -> dict_get k d = Some v.
Proof.
  intros k v d. induction d as [| [k' v'] d IH]; simpl; intros Hnd Hin.
  - contradiction.
  - inversion Hnd as [| ? ? Hnotin Hnd']; subst.
    destruct Hin as [Heq | Hin].
    + inversion Heq; subst. now rewrite String.eqb_refl.
    + destruct (String.eqb_spec k k') as [Heq | Hne].
      * subst k'. exfalso. apply Hnotin.
        change k with (fst (k, v)). now apply in_map.
      * auto.
Qed.

Lemma dict_set_fresh : forall (k : string) (v : V) (d : dict V),
  ~ In k (keys d) -> dict_set k v d = (d ++ [(k, v)])%list.
Proof.
  intros k v d. induction d as [| [k' v'] d IH]; simpl; intros Hnotin.
  - reflexivity.
  - destruct (String.eqb_spec k k') as [Heq | Hne].
    + exfalso. apply Hnotin. now left.
    + f_equal. apply IH. intros Hin. apply Hnotin. now right.
Qed.

Lemma keys_dict_set : forall (k k0 : string) (v : V) (d : dict V),
  In k0 (keys (dict_set k v d)) -> k0 = k \/ In k0 (keys d).
Proof.
  intros k k0 v d. induction d as [| [k' v'] d IH]; simpl.
  - intros [H | []]. now left.
  - destruct (String.eqb_spec k k') as [Heq | Hne]; simpl.
    + intros [H | H]; [now left | right; now right].
    + intros [H | H]; [right; now left |].
      destruct (IH H) as [H1 | H1]; [now left | right; now right].
Qed.

End DictFacts.

Lemma py_index_nth : forall (l : list float) (k : nat) (x : float),
  nth_error l k = Some x -> py_index l (Z.of_nat k) = Ret x.
Proof.
  intros l k x H. unfold py_index.
  assert (Hlt : (k < List.length l)%nat)
    by (apply nth_error_Some; congruence).
  replace (Z.of_nat k <? 0) with false by (symmetry; apply Z.ltb_ge; lia).
  replace ((0 <=? Z.of_nat k) && (Z.of_nat k <? Z.of_nat (List.length l)))
    with true.
  - rewrite Nat2Z.id, H. reflexivity.
  - symmetry. apply andb_true_iff. split; [apply Z.leb_le | apply Z.ltb_lt]; lia.
Qed.

Lemma py_index_last : forall (l : list float) (x : float),
  last_opt l = Some x -> py_index l (-1) = Ret x.
Proof.
  intros l x H. destruct l as [| a l]; [discriminate |].
  unfold last_opt in H. unfold py_index.
  set (n := List.length (a :: l)) in *.
  assert (Hn : (0 < n)%nat) by (subst n; simpl; lia).
  replace (-1 <? 0) with true by reflexivity.
  replace ((0 <=? -1 + Z.of_nat n) && (-1 + Z.of_nat n <? Z.of_nat n)) with true.
  - replace (Z.to_nat (-1 + Z.of_nat n)) with (n - 1)%nat by lia.
    rewrite H. reflexivity.
  - symmetry. apply andb_true_iff. split; [apply Z.leb_le | apply Z.ltb_lt]; lia.
Qed.

Lemma last_opt_app : forall (A : Type) (l : list A) (x : A),
  last_opt (l ++ [x]) = Some x.
Proof.
  intros A l x. unfold last_opt.
  destruct (l ++ [x])%list eqn:E.
  - destruct l; discriminate.
  - rewrite <- E. rewrite length_app. simpl.
    replace (List.length l + 1 - 1)%nat with (List.length l) by lia.
    rewrite nth_error_app2 by lia. now rewrite Nat.sub_diag.
Qed.

Lemma last_opt_last : forall (A : Type) (l : list A) (d x : A),
  last_opt l = Some x -> last l d = x.
Proof.
  intros A l d x. induction l as [| a l IH] using rev_ind; intros H.
  - discriminate.
  - rewrite last_opt_app in H. inversion H; subst. apply last_last.
Qed.

Lemma last_opt_nonempty : forall (A : Type) (l : list A),
  l <> [] -> exists x, last_opt l = Some x.
Proof.
  intros A l Hne. destruct l as [| a l] using rev_ind; [congruence |].
  exists a. apply last_opt_app.
Qed.

(** The loop extends both lists by what [breakdown_from] and [rate_of] say. *)
Lemma enumerate_loop_spec : forall (rates : dict (dict float)) to_currency dates i
    (daily_data : list json) (rate_values : list float),
  (forall d, In d dates -> In d (keys rates)) ->
  i = Z.of_nat (List.length rate_values) ->
  enumerate_loop rates to_currency i dates (daily_data, rate_values)
  = Ret ((daily_data ++
          breakdown_from (last_opt rate_values)
            (map (fun d => (d, rate_of rates to_currency d)) dates))%list,
         (rate_values ++ map (rate_of rates to_currency) dates)%list).
Proof.
  intros rates to_currency dates.
  induction dates as [| date dates IH]; intros i daily_data rate_values Hin Hi.
  - simpl. now rewrite !app_nil_r.
  - cbn [enumerate_loop]. unfold day_step.
    destruct (dict_get_In date rates (Hin date (or_introl eq_refl))) as [day Hday].
    unfold dict_getitem. rewrite Hday. cbn [Py.bind].
    assert (Hrate : rate_of rates to_currency date
                    = dict_get_default to_currency 0%float day)
      by (unfold rate_of; now rewrite Hday).
    rewrite <- Hrate.
    set (rate := rate_of rates to_currency date).
    assert (Hpct :
      (if 0 <? i
       then Py.bind (py_index (rate_values ++ [rate]) (i - 1))
              (fun prev_rate => calculate_percentage_change prev_rate rate)
       else Ret 0%float)
      = Ret (match last_opt rate_values with
             | Some p => pct_value p rate
             | None => 0%float
             end)).
    { destruct rate_values as [| a l].
      - subst i. reflexivity.
      - destruct (last_opt_nonempty _ (a :: l)) as [x Hx]; [discriminate |].
        rewrite Hx.
        replace (0 <? i) with true
          by (symmetry; apply Z.ltb_lt; subst i; simpl; lia).
        replace (i - 1) with (Z.of_nat (List.length (a :: l) - 1))
          by (subst i; simpl List.length; lia).
        rewrite (py_index_nth _ _ x).
        + simpl. apply calculate_percentage_change_value.
        + rewrite nth_error_app1 by (simpl; lia). exact Hx. }
    rewrite Hpct. cbn [Py.bind].
    rewrite IH.
    + rewrite last_opt_app. rewrite <- !app_assoc. reflexivity.
    + intros d Hd. apply Hin. now right.
    + rewrite length_app. simpl. lia.
Qed.

Lemma sorted_In : forall (l : list string) (x : string),
  In x (sorted l) <-> In x l.
Proof.
  intros l x. unfold sorted. split; intros H.
  - eapply Permutation_in; [apply Permutation_sym, StringSort.Permuted_sort | exact H].
  - eapply Permutation_in; [apply StringSort.Permuted_sort | exact H].
Qed.

Lemma sorted_nonempty : forall (l : list string), l <> [] -> sorted l <> [].
Proof.
  intros l Hne Hs. destruct l as [| a l]; [congruence |].
  assert (Hin : In a (sorted (a :: l))) by (apply sorted_In; now left).
  rewrite Hs in Hin. contradiction.
Qed.

(** On a successful, non-empty series the function returns, and what it
    returns is [stats_from]. *)
Lemma process_rates_data_spec : forall (rd : rates_data (dict float))
    (r : dict (dict float)) to_currency breakdown,
  success rd = true -> rates rd = Some r -> r <> [] ->
  process_rates_data rd to_currency breakdown
  = Ret (stats_from r to_currency breakdown).
Proof.
  intros rd r to_currency breakdown Hs Hr Hne.
  unfold process_rates_data. rewrite Hs, Hr. cbn [negb].
  destruct r as [| kv r']; [congruence |].
  set (rates := kv :: r') in *.
  rewrite (enumerate_loop_spec rates to_currency (sorted (keys rates)) 0 [] []);
    [| intros d Hd; now apply sorted_In | reflexivity].
  cbn [Py.bind app last_opt].
  unfold stats_from. rewrite map_map. cbn [snd].
  set (dates := sorted (keys rates)).
  set (values := map (fun x => rate_of rates to_currency x) dates).
  assert (Hvals : values <> []).
  { subst values. intros Hnil. apply map_eq_nil in Hnil.
    revert Hnil. apply sorted_nonempty. subst rates. destruct kv. discriminate. }
  destruct values as [| v0 vs] eqn:Ev; [congruence |].
  assert (Hhd : py_index (v0 :: vs) 0 = Ret v0)
    by (apply (py_index_nth (v0 :: vs) 0%nat); reflexivity).
  rewrite Hhd.
  destruct (last_opt_nonempty _ (v0 :: vs) Hvals) as [vl Hvl].
  rewrite (py_index_last _ vl Hvl).
  cbn [Py.bind]. rewrite calculate_percentage_change_value. cbn [Py.bind].
  cbn [List.length py_truediv_len].
  unfold totals_from. cbn [hd List.length].
  rewrite (last_opt_last _ _ 0%float vl Hvl).
  destruct (String.eqb breakdown "day"); reflexivity.
Qed.

(** C6: the result is an error object exactly when the input is a failure or
    its series is empty; an empty series of a successful input gives the
    message 'No rates data available', a failed input gives another one. *)
Theorem C6_error_object_iff : forall (rd : rates_data (dict float))
    to_currency breakdown,
  (is_error_object (process_rates_data rd to_currency breakdown)
   <-> (success rd = false \/ series_empty rd)) /\
  (success rd = true -> series_empty rd ->
   process_rates_data rd to_currency breakdown
   = Ret (JDict [("error", JStr "No rates data available")])) /\
  (success rd = false ->
   process_rates_data rd to_currency breakdown
   = Ret (JDict [("error", JStr "Failed to retrieve rates data")])) /\
  "No rates data available" <> "Failed to retrieve rates data".
Proof.
  intros rd to_currency breakdown.
  assert (Hfail : success rd = false ->
            process_rates_data rd to_currency breakdown
            = Ret (JDict [("error", JStr "Failed to retrieve rates data")])).
  { intros Hs. unfold process_rates_data. now rewrite Hs. }
  assert (Hempty : success rd = true -> series_empty rd ->
            process_rates_data rd to_currency breakdown
            = Ret (JDict [("error", JStr "No rates data available")])).
  { intros Hs [Hr | Hr]; unfold process_rates_data; now rewrite Hs, Hr. }
  repeat split; auto; try discriminate.
  - intros [msg Hmsg].
    destruct (success rd) eqn:Hs; [right | now left].
    unfold series_empty.
    destruct (rates rd) as [[| kv r'] |] eqn:Hr; auto.
    rewrite (process_rates_data_spec rd (kv :: r')) in Hmsg by (auto; discriminate).
    unfold stats_from in Hmsg. discriminate Hmsg.
  - intros [Hs | He].
    + eexists. now apply Hfail.
    + destruct (success rd) eqn:Hs; eexists; [now apply Hempty | now apply Hfail].
Qed.

Lemma C6_error_object_iff_witness :
  process_rates_data (success_result (JStr "USD") []) "EUR" "day"
  = Ret (JDict [("error", JStr "No rates data available")]).
Proof.
  apply (C6_error_object_iff (success_result (JStr "USD") []) "EUR" "day").
  - reflexivity.
  - right. reflexivity.
Defined.



(** ** Sorting does not depend on the order of the input *)

Lemma string_compare_trans : forall a b c : string,
  String.compare a b <> Gt -> String.compare b c <> Gt ->
  String.compare a c <> Gt.
Proof.
  induction a as [| x a IH]; intros [| y b] [| z c]; simpl;
    try congruence.
  unfold Ascii.compare.
  destruct (N.compare_spec (N_of_ascii x) (N_of_ascii y));
    destruct (N.compare_spec (N_of_ascii y) (N_of_ascii z));
    destruct (N.compare_spec (N_of_ascii x) (N_of_ascii z));
    try congruence; try lia.
  apply IH.
Qed.

Lemma string_leb_trans : forall a b c : string,
  String.leb a b = true -> String.leb b c = true -> String.leb a c = true.
Proof.
  unfold String.leb. intros a b c Hab Hbc.
  pose proof (string_compare_trans a b c) as H.
  destruct (String.compare a b); destruct (String.compare b c);
    destruct (String.compare a c); try discriminate; try reflexivity;
    exfalso; apply H; congruence.
Qed.

Lemma sorted_StronglySorted : forall l : list string,
  StronglySorted (fun a b => String.leb a b = true) (sorted l).
Proof.
  intros l. apply Sorted_StronglySorted.
  - intros a b c. apply string_leb_trans.
  - apply StringSort.Sorted_sort.
Qed.

Lemma StronglySorted_perm_eq : forall l1 l2 : list string,
  StronglySorted (fun a b => String.leb a b = true) l1 ->
  StronglySorted (fun a b => String.leb a b = true) l2 ->
  Permutation l1 l2 -> l1 = l2.
Proof.
  induction l1 as [| a l1 IH]; intros l2 H1 H2 Hp.
  - apply Permutation_nil in Hp. now subst.
  - destruct l2 as [| b l2].
    + apply Permutation_sym, Permutation_nil in Hp. discriminate.
    + inversion H1 as [| ? ? Hs1 Ha]; subst.
      inversion H2 as [| ? ? Hs2 Hb]; subst.
      assert (Hab : a = b).
      { assert (Hina : In a (b :: l2))
          by (eapply Permutation_in; [exact Hp | now left]).
        assert (Hinb : In b (a :: l1))
          by (eapply Permutation_in; [apply Permutation_sym; exact Hp | now left]).
        destruct Hina as [Heq | Hina]; [now subst |].
        destruct Hinb as [Heq | Hinb]; [now subst |].
        rewrite Forall_forall in Ha, Hb.
        apply String.leb_antisym; auto. }
      subst b. f_equal. apply IH; auto.
      eapply Permutation_cons_inv. exact Hp.
Qed.

Lemma sorted_perm : forall l1 l2 : list string,
  Permutation l1 l2 -> sorted l1 = sorted l2.
Proof.
  intros l1 l2 Hp. apply StronglySorted_perm_eq; try apply sorted_StronglySorted.
  unfold sorted.
  eapply Permutation_trans;
    [apply Permutation_sym, StringSort.Permuted_sort |].
  eapply Permutation_trans; [exact Hp | apply StringSort.Permuted_sort].
Qed.

Lemma dict_get_perm : forall (V : Type) (d1 d2 : dict V) (k : string),
  NoDup (keys d1) -> Permutation d1 d2 -> dict_get k d1 = dict_get k d2.
Proof.
  intros V d1 d2 k Hnd Hp.
  assert (Hnd2 : NoDup (keys d2)).
  { eapply Permutation_NoDup; [| exact Hnd]. unfold keys. now apply Permutation_map. }
  destruct (dict_get k d1) as [v |] eqn:H1.
  - symmetry. apply dict_get_NoDup_In; [exact Hnd2 |].
    eapply Permutation_in; [exact Hp |]. now apply dict_get_Some_In.
  - destruct (dict_get k d2) as [v |] eqn:H2; [| reflexivity].
    apply dict_get_Some_In in H2.
    apply Permutation_sym in Hp.
    pose proof (Permutation_in _ Hp H2) as Hin.
    apply (dict_get_NoDup_In k v d1 Hnd) in Hin. congruence.
Qed.

Lemma stats_from_perm : forall (r1 r2 : dict (dict float)) to_currency breakdown,
  NoDup (keys r1) -> Permutation r1 r2 ->
  stats_from r1 to_currency breakdown = stats_from r2 to_currency breakdown.
Proof.
  intros r1 r2 to_currency breakdown Hnd Hp. unfold stats_from.
  rewrite (sorted_perm (keys r1) (keys r2))
    by (unfold keys; now apply Permutation_map).
  assert (Hmap :
    map (fun date => (date, rate_of r1 to_currency date)) (sorted (keys r2))
    = map (fun date => (date, rate_of r2 to_currency date)) (sorted (keys r2))).
  { apply map_ext. intros d. unfold rate_of.
    now rewrite (dict_get_perm _ r1 r2 d Hnd Hp). }
  now rewrite Hmap.
Qed.

Lemma breakdown_from_dates : forall series prev,
  map (entry_field "date") (breakdown_from prev series)
  = map (fun p => Some (JStr (fst p))) series.
Proof.
  induction series as [| [d x] series IH]; intros prev.
  - reflexivity.
  - cbn [breakdown_from map fst]. f_equal. apply IH.
Qed.

(** C9: two inputs that hold the same (date, entry) pairs in different
    orders give the same output; the dates of the breakdown are the keys in
    ascending lexicographic order; the first entry has the change 0.0. *)
Theorem C9_iteration_order : forall (rd1 rd2 : rates_data (dict float))
    (r1 r2 : dict (dict float)) to_currency breakdown,
  success rd1 = success rd2 ->
  rates rd1 = Some r1 -> rates rd2 = Some r2 ->
  NoDup (keys r1) -> Permutation r1 r2 ->
  process_rates_data rd1 to_currency breakdown
  = process_rates_data rd2 to_currency breakdown /\
  (success rd1 = true -> r1 <> [] ->
   exists totals entries,
     process_rates_data rd1 to_currency "day"
     = Ret (JDict [("totals", totals); ("breakdown", JList entries)]) /\
     map (entry_field "date") entries
     = map (fun d => Some (JStr d)) (sorted (keys r1)) /\
     StronglySorted (fun a b => String.leb a b = true) (sorted (keys r1)) /\
     Permutation (keys r1) (sorted (keys r1)) /\
     option_map (entry_field "pct_change") (hd_error entries)
     = Some (Some (JFloat 0))).
Proof.
  intros rd1 rd2 r1 r2 to_currency breakdown Hs Hr1 Hr2 Hnd Hp.
  split.
  - destruct (success rd1) eqn:Hs1.
    + destruct r1 as [| kv r1'].
      * apply Permutation_nil in Hp. subst r2.
        unfold process_rates_data. now rewrite Hs1, <- Hs, Hr1, Hr2.
      * rewrite (process_rates_data_spec rd1 (kv :: r1')) by (auto; discriminate).
        rewrite (process_rates_data_spec rd2 r2); auto.
        -- f_equal. now apply stats_from_perm.
        -- intros Hnil. subst r2.
           apply Permutation_sym, Permutation_nil in Hp. discriminate.
    + unfold process_rates_data. now rewrite <- Hs, Hs1.
  - intros Hs1 Hne.
    rewrite (process_rates_data_spec rd1 r1) by assumption.
    unfold stats_from. cbn [String.eqb Ascii.eqb Bool.eqb].
    do 2 eexists. split; [reflexivity |].
    split; [| split; [| split]].
    + rewrite breakdown_from_dates, map_map. reflexivity.
    + apply sorted_StronglySorted.
    + apply StringSort.Permuted_sort.
    + assert (Hk : sorted (keys r1) <> []).
      { apply sorted_nonempty. destruct r1 as [| [k v] r1']; [congruence | discriminate]. }
      destruct (sorted (keys r1)) as [| d ds]; [congruence |].
      reflexivity.
Qed.

Lemma C9_iteration_order_witness :
  process_rates_data (success_result (JStr "USD") example_series) "EUR" "day"
  = process_rates_data (success_result (JStr "USD") example_series_swapped)
      "EUR" "day".
Proof.
  apply (C9_iteration_order
           (success_result (JStr "USD") example_series)
           (success_result (JStr "USD") example_series_swapped)
           example_series example_series_swapped "EUR" "day"
           eq_refl eq_refl eq_refl).
  - repeat constructor; simpl; intuition discriminate.
  - apply perm_swap.
Defined.

(** ** Calendar dates *)

Lemma days_in_month_bounds : forall y m, 28 <= days_in_month y m <= 31.
Proof.
  intros y m. unfold days_in_month.
  destruct (m =? 2); [destruct (is_leap y); lia |].
  destruct ((m =? 4) || (m =? 6) || (m =? 9) || (m =? 11)); lia.
Qed.

Lemma leb_rank : forall a b, valid a -> valid b ->
  (Dates.leb a b = true <-> rank a <= rank b).
Proof.
  intros [ya ma da] [yb mb db] (Hya & Hma & Hda) (Hyb & Hmb & Hdb).
  unfold Dates.leb, rank. simpl in *.
  pose proof (days_in_month_bounds ya ma). pose proof (days_in_month_bounds yb mb).
  rewrite !orb_true_iff, !andb_true_iff, !orb_true_iff, !andb_true_iff.
  rewrite !Z.ltb_lt, !Z.eqb_eq, Z.leb_le. lia.
Qed.

Lemma leb_refl : forall a, valid a -> Dates.leb a a = true.
Proof. intros a Ha. apply leb_rank; auto. lia. Qed.

Lemma next_day_valid : forall c c', valid c -> next_day c = Ret c' ->
  valid c' /\ rank c < rank c'.
Proof.
  intros [y m d] c' (Hy & Hm & Hd). unfold next_day, rank, valid. simpl in *.
  pose proof (days_in_month_bounds y m).
  pose proof (days_in_month_bounds y (m + 1)).
  pose proof (days_in_month_bounds (y + 1) 1).
  destruct (d <? days_in_month y m) eqn:E1.
  - intros H'; inversion H'; subst; simpl. apply Z.ltb_lt in E1. lia.
  - destruct (m <? 12) eqn:E2.
    + intros H'; inversion H'; subst; simpl. apply Z.ltb_lt in E2. lia.
    + destruct (y <? 9999) eqn:E3; [| discriminate].
      intros H'; inversion H'; subst; simpl.
      apply Z.ltb_lt in E3. apply Z.ltb_ge in E2. lia.
Qed.

Lemma digit_val_range : forall c x, digit_val c = Some x -> 0 <= x <= 9.
Proof.
  intros c x. unfold digit_val.
  destruct ((48 <=? Z.of_N (N_of_ascii c)) && (Z.of_N (N_of_ascii c) <=? 57)) eqn:E;
    [| discriminate].
  apply andb_true_iff in E. destruct E as [E1 E2].
  apply Z.leb_le in E1, E2. intros H; inversion H. lia.
Qed.

Lemma digit_val_char : forall k, 0 <= k <= 9 -> digit_val (digit_char k) = Some k.
Proof.
  intros k Hk.
  destruct k as [| p | p]; [reflexivity | | lia].
  do 4 (destruct p as [p | p |]; try lia; try reflexivity).
Qed.

Lemma two_digits_sound : forall p1 p2 s v rest,
  two_digits p1 p2 s = Some (v, rest) ->
  exists x y, v = 10 * x + y /\ 0 <= x <= 9 /\ 0 <= y <= 9 /\
              p1 x = true /\ p2 y = true.
Proof.
  intros p1 p2 s v rest. unfold two_digits.
  destruct s as [| a [| b s']]; try discriminate.
  destruct (digit_val a) as [x |] eqn:Ea; [| discriminate].
  destruct (digit_val b) as [y |] eqn:Eb; [| discriminate].
  destruct (p1 x && p2 y) eqn:Ep; [| discriminate].
  apply andb_true_iff in Ep. destruct Ep.
  intros H'; inversion H'; subst.
  exists x, y. repeat split; auto; eapply digit_val_range; eauto.
Qed.

Lemma one_digit_sound : forall p s v rest,
  one_digit p s = Some (v, rest) -> 0 <= v <= 9 /\ p v = true.
Proof.
  intros p s v rest. unfold one_digit.
  destruct s as [| a s']; try discriminate.
  destruct (digit_val a) as [x |] eqn:Ea; [| discriminate].
  destruct (p x) eqn:Ep; [| discriminate].
  intros H'; inversion H'; subst. split; auto. eapply digit_val_range; eauto.
Qed.

Lemma first_match_sound : forall R alts (k : Z -> string -> option R) s r,
  first_match alts k s = Some r ->
  exists a v rest, In a alts /\ a s = Some (v, rest) /\ k v rest = Some r.
Proof.
  intros R alts k s r. induction alts as [| a alts IH]; simpl; [discriminate |].
  destruct (a s) as [[v rest] |] eqn:Ea.
  - destruct (k v rest) as [r' |] eqn:Ek.
    + intros H'; inversion H'; subst. exists a, v, rest. auto.
    + intros H'. destruct (IH H') as (a' & v' & rest' & Hin & Ha & Hk).
      exists a', v', rest'. auto.
  - intros H'. destruct (IH H') as (a' & v' & rest' & Hin & Ha & Hk).
    exists a', v', rest'. auto.
Qed.

Lemma dash_sound : forall R (k : string -> option R) s r,
  dash k s = Some r -> exists rest, k rest = Some r.
Proof.
  intros R k s r. unfold dash. destruct s as [| c rest]; [discriminate |].
  destruct (Ascii.eqb c "-"); [| discriminate]. eauto.
Qed.

Lemma month_group_range : forall a s v rest,
  In a month_group -> a s = Some (v, rest) -> 1 <= v <= 12.
Proof.
  unfold month_group, between. intros a s v rest Hin Ha.
  simpl in Hin. destruct Hin as [<- | [<- | [<- | []]]].
  - apply two_digits_sound in Ha. destruct Ha as (x & y & -> & Hx & Hy & H1 & H2).
    apply Z.eqb_eq in H1. apply andb_true_iff in H2. destruct H2 as [H2 H3].
    apply Z.leb_le in H2, H3. lia.
  - apply two_digits_sound in Ha. destruct Ha as (x & y & -> & Hx & Hy & H1 & H2).
    apply Z.eqb_eq in H1. apply andb_true_iff in H2. destruct H2 as [H2 H3].
    apply Z.leb_le in H2, H3. lia.
  - apply one_digit_sound in Ha. destruct Ha as (Hx & H2).
    apply andb_true_iff in H2. destruct H2 as [H2 H3].
    apply Z.leb_le in H2, H3. lia.
Qed.

Lemma day_group_range : forall a s v rest,
  In a day_group -> a s = Some (v, rest) -> 1 <= v <= 31.
Proof.
  unfold day_group, between. intros a s v rest Hin Ha.
  simpl in Hin. destruct Hin as [<- | [<- | [<- | [<- | [<- | []]]]]].
  - apply two_digits_sound in Ha. destruct Ha as (x & y & -> & Hx & Hy & H1 & H2).
    apply Z.eqb_eq in H1. apply andb_true_iff in H2. destruct H2 as [H2 H3].
    apply Z.leb_le in H2, H3. lia.
  - apply two_digits_sound in Ha. destruct Ha as (x & y & -> & Hx & Hy & H1 & H2).
    apply andb_true_iff in H1, H2. destruct H1 as [H1 H1'], H2 as [H2 H3].
    apply Z.leb_le in H1, H1', H2, H3. lia.
  - apply two_digits_sound in Ha. destruct Ha as (x & y & -> & Hx & Hy & H1 & H2).
    apply Z.eqb_eq in H1. apply andb_true_iff in H2. destruct H2 as [H2 H3].
    apply Z.leb_le in H2, H3. lia.
  - apply one_digit_sound in Ha. destruct Ha as (Hx & H2).
    apply andb_true_iff in H2. destruct H2 as [H2 H3].
    apply Z.leb_le in H2, H3. lia.
  - unfold space_then in Ha. destruct s as [| c s']; [discriminate |].
    destruct (Ascii.eqb c " "); [| discriminate].
    apply one_digit_sound in Ha. destruct Ha as (Hx & H2).
    apply andb_true_iff in H2. destruct H2 as [H2 H3].
    apply Z.leb_le in H2, H3. lia.
Qed.

Lemma year_group_range : forall s y rest,
  year_group s = Some (y, rest) -> 0 <= y <= 9999.
Proof.
  intros s y rest. unfold year_group.
  destruct s as [| a [| b [| c [| e s']]]]; try discriminate.
  destruct (digit_val a) as [x3 |] eqn:E3; [| discriminate].
  destruct (digit_val b) as [x2 |] eqn:E2; [| discriminate].
  destruct (digit_val c) as [x1 |] eqn:E1; [| discriminate].
  destruct (digit_val e) as [x0 |] eqn:E0; [| discriminate].
  apply digit_val_range in E3, E2, E1, E0.
  intros H.
  assert (Hy : 1000 * x3 + 100 * x2 + 10 * x1 + x0 = y) by congruence.
  lia.
Qed.

(** What [strptime] returns is a date of the calendar. *)
Lemma strptime_valid : forall s d, strptime s = Ret d -> valid d.
Proof.
  intros s d. unfold strptime.
  destruct (match_format s) as [[[[y m] dd] rest] |] eqn:Em; [| discriminate].
  destruct (negb (rest =? "")%string); [discriminate |].
  destruct (y =? 0) eqn:Ey; [discriminate |].
  destruct (days_in_month y m <? dd) eqn:Ed; [discriminate |].
  intros H'; inversion H'; subst d. clear H'.
  apply Z.eqb_neq in Ey. apply Z.ltb_ge in Ed.
  unfold match_format in Em.
  destruct (year_group s) as [[y' r1] |] eqn:Eyg; [| discriminate].
  apply dash_sound in Em. destruct Em as [r2 Em].
  apply first_match_sound in Em.
  destruct Em as (am & vm & r3 & Hinm & Ham & Em).
  apply dash_sound in Em. destruct Em as [r4 Em].
  apply first_match_sound in Em.
  destruct Em as (ad & vd & r5 & Hind & Had & Em).
  injection Em as -> -> -> ->.
  pose proof (month_group_range _ _ _ _ Hinm Ham).
  pose proof (day_group_range _ _ _ _ Hind Had).
  pose proof (year_group_range _ _ _ Eyg).
  unfold valid. cbn [year month day]. lia.
Qed.

Lemma year_group_pad4 : forall y rest, 0 <= y <= 9999 ->
  year_group (pad4 y ++ rest) = Some (y, rest).
Proof.
  intros y rest Hy. unfold pad4, year_group. cbn [append].
  rewrite !digit_val_char by (Z.to_euclidean_division_equations; lia).
  do 2 f_equal. Z.to_euclidean_division_equations; lia.
Qed.

Lemma month_group_pad2 : forall m, 1 <= m <= 12 ->
  forall R (k : Z -> string -> option R) rest r,
  k m rest = Some r ->
  first_match month_group k (pad2 m ++ rest) = Some r.
Proof.
  intros m Hm R k rest r Hk.
  destruct m as [| p | p]; try lia.
  repeat (first [lia | destruct p as [p | p |]]);
    vm_compute; vm_compute in Hk; rewrite Hk; reflexivity.
Qed.

Lemma day_group_pad2 : forall d, 1 <= d <= 31 ->
  forall R (k : Z -> string -> option R) rest r,
  k d rest = Some r ->
  first_match day_group k (pad2 d ++ rest) = Some r.
Proof.
  intros d Hd R k rest r Hk.
  destruct d as [| p | p]; try lia.
  repeat (first [lia | destruct p as [p | p |]]);
    vm_compute; vm_compute in Hk; rewrite Hk; reflexivity.
Qed.

Lemma append_empty_r : forall s : string, (s ++ "")%string = s.
Proof. induction s as [| c s IH]; simpl; [reflexivity | now rewrite IH]. Qed.

(** Parsing the text that [strftime] writes gives the date back. *)
Lemma year_text_pad4 : forall y, 1000 <= y -> year_text y = pad4 y.
Proof.
  intros y Hy. unfold year_text.
  replace (y <? 10) with false by (symmetry; apply Z.ltb_ge; lia).
  replace (y <? 100) with false by (symmetry; apply Z.ltb_ge; lia).
  replace (y <? 1000) with false by (symmetry; apply Z.ltb_ge; lia).
  reflexivity.
Qed.

Lemma strptime_strftime : forall d,
  valid d -> 1000 <= year d -> strptime (strftime d) = Ret d.
Proof.
  intros [y m dd] (Hy & Hm & Hd) Hy4. cbn [year month day] in *.
  pose proof (days_in_month_bounds y m) as Hdim.
  assert (Hfmt : match_format (strftime (mk_date y m dd)) = Some (y, m, dd, "")).
  { unfold match_format, strftime. cbn [year month day].
    rewrite year_text_pad4 by assumption.
    rewrite year_group_pad4 by lia.
    cbn [append dash]. rewrite Ascii.eqb_refl.
    apply month_group_pad2; [lia |].
    cbn [append dash]. rewrite Ascii.eqb_refl.
    rewrite <- (append_empty_r (pad2 dd)).
    apply day_group_pad2; [lia | reflexivity]. }
  unfold strptime. rewrite Hfmt. cbn [String.eqb negb].
  replace (y =? 0) with false by (symmetry; apply Z.eqb_neq; lia).
  replace (days_in_month y m <? dd) with false by (symmetry; apply Z.ltb_ge; lia).
  reflexivity.
Qed.

(** ** Rules for computations *)

Section Rules.
Context {A B : Type}.

Lemma post_ret : forall (a : A) (Q : A -> Prop), Q a -> post (ret a) Q.
Proof. intros a Q Ha t a' t' H. inversion H; now subst. Qed.

Lemma post_raise : forall (e : exc) (Q : A -> Prop), post (raise e) Q.
Proof. intros e Q t a t' H. discriminate H. Qed.

Lemma post_lift : forall (c : outcome A) (Q : A -> Prop),
  (forall a, c = Ret a -> Q a) -> post (lift c) Q.
Proof. intros c Q Hc t a t' H. inversion H; subst. now apply Hc. Qed.

Lemma post_bind : forall (c : M A) (k : A -> M B) (P : A -> Prop) (Q : B -> Prop),
  post c P -> (forall a, P a -> post (k a) Q) -> post (World.bind c k) Q.
Proof.
  intros c k P Q Hc Hk t b t' H. unfold World.bind in H.
  destruct (c t) as [[a | e |] t1] eqn:Ec; try discriminate.
  eapply Hk; [eapply Hc; exact Ec | exact H].
Qed.

Lemma post_try : forall (body : M A) (h : exc -> M A) (Q : A -> Prop),
  post body Q -> (forall e, post (h e) Q) -> post (try_except body h) Q.
Proof.
  intros body h Q Hb Hh t a t' H. unfold try_except in H.
  destruct (body t) as [[a1 | e |] t1] eqn:Eb.
  - eapply Hb. rewrite Eb. exact H.
  - eapply Hh. exact H.
  - discriminate.
Qed.

Lemma post_weaken : forall (c : M A) (P Q : A -> Prop),
  post c P -> (forall a, P a -> Q a) -> post c Q.
Proof. intros c P Q Hc HPQ t a t' H. apply HPQ. eapply Hc. exact H. Qed.

Lemma terminates_ret : forall a : A, terminates (ret a).
Proof. intros a t. discriminate. Qed.

Lemma terminates_raise : forall e : exc, terminates (@raise A e).
Proof. intros e t. discriminate. Qed.

Lemma terminates_lift : forall c : outcome A, c <> Diverge -> terminates (lift c).
Proof. intros c Hc t. exact Hc. Qed.

Lemma terminates_bind : forall (c : M A) (k : A -> M B) (P : A -> Prop),
  terminates c -> post c P -> (forall a, P a -> terminates (k a)) ->
  terminates (World.bind c k).
Proof.
  intros c k P Hc Hp Hk t. unfold World.bind.
  pose proof (Hc t) as Hct.
  destruct (c t) as [[a | e |] t1] eqn:Ec; simpl in *; try congruence.
  apply Hk. eapply Hp. exact Ec.
Qed.

Lemma terminates_try : forall (body : M A) (h : exc -> M A),
  terminates body -> (forall e, terminates (h e)) ->
  terminates (try_except body h).
Proof.
  intros body h Hb Hh t. unfold try_except.
  pose proof (Hb t) as Hbt.
  destruct (body t) as [[a | e |] t1] eqn:Eb; simpl in *.
  - congruence.
  - apply Hh.
  - congruence.
Qed.

Lemma returns_terminates : forall c : M A, returns c -> terminates c.
Proof. intros c Hc t. destruct (Hc t) as (a & t' & E). rewrite E. discriminate. Qed.

Lemma returns_ret : forall a : A, returns (ret a).
Proof. intros a t. now exists a, t. Qed.

Lemma returns_bind : forall (c : M A) (k : A -> M B),
  returns c -> (forall a, returns (k a)) -> returns (World.bind c k).
Proof.
  intros c k Hc Hk t. unfold World.bind.
  destruct (Hc t) as (a & t1 & E). rewrite E. apply Hk.
Qed.

(** A [try] whose body ends and whose handler returns does return. *)
Lemma returns_try : forall (body : M A) (h : exc -> M A),
  terminates body -> (forall e, returns (h e)) -> returns (try_except body h).
Proof.
  intros body h Hb Hh t. unfold try_except.
  pose proof (Hb t) as Hbt.
  destruct (body t) as [[a | e |] t1] eqn:Eb; simpl in *; try congruence.
  - now exists a, t1.
  - apply Hh.
Qed.

End Rules.

Lemma returns_print : forall line, returns (print line).
Proof. intros line t. unfold print. eauto. Qed.

Lemma terminates_requests_get : forall o u p tmo,
  terminates (requests_get o u p tmo).
Proof.
  intros o u p tmo t. unfold requests_get.
  destruct (http o t _); discriminate.
Qed.

Lemma post_requests_get : forall o u p tmo (Q : Z * (exc + json) -> Prop),
  (forall t st body,
     http o t (mk_request u p tmo) = Response st body -> Q (st, body)) ->
  post (requests_get o u p tmo) Q.
Proof.
  intros o u p tmo Q HQ t a t' H. unfold requests_get in H.
  destruct (http o t _) eqn:E; inversion H; subst. eapply HQ. exact E.
Qed.

Lemma terminates_response_json : forall body, terminates (response_json body).
Proof. intros [e | v] t; discriminate. Qed.

Lemma post_response_json : forall body (Q : json -> Prop),
  (forall v, body = inr v -> Q v) -> post (response_json body) Q.
Proof.
  intros [e | v] Q HQ t a t' H; inversion H; subst. now apply HQ.
Qed.

Lemma terminates_load_json : forall o path, terminates (load_json o path).
Proof.
  intros o path t. unfold load_json. destruct (open_json o t path); discriminate.
Qed.

Lemma post_load_json : forall o path (Q : json -> Prop),
  (forall t v, open_json o t path = inr v -> Q v) ->
  post (load_json o path) Q.
Proof.
  intros o path Q HQ t a t' H. unfold load_json in H.
  destruct (open_json o t path) eqn:E; inversion H; subst. eapply HQ. exact E.
Qed.

(** The operations on values end: none of them loops. *)
Lemma strptime_ends : forall s, strptime s <> Diverge.
Proof.
  intros s. unfold strptime.
  destruct (match_format s) as [[[[y m] d] rest] |]; [| discriminate].
  destruct (negb (rest =? "")%string); [discriminate |].
  destruct (y =? 0); [discriminate |].
  destruct (days_in_month y m <? d); discriminate.
Qed.

Lemma py_getitem_ends : forall v k, py_getitem v k <> Diverge.
Proof.
  intros v k. destruct v; try discriminate.
  simpl. unfold dict_getitem. destruct (dict_get k d); discriminate.
Qed.

Lemma py_get_ends : forall v k d, py_get v k d <> Diverge.
Proof. intros v k d. destruct v; discriminate. Qed.

Lemma py_items_ends : forall v, py_items v <> Diverge.
Proof. intros v. destruct v; discriminate. Qed.

Lemma py_in_ends : forall k v, py_in k v <> Diverge.
Proof. intros k v. destruct v; discriminate. Qed.

Lemma next_day_ends : forall d, next_day d <> Diverge.
Proof.
  intros d. unfold next_day.
  destruct (day d <? _); [discriminate |].
  destruct (month d <? 12); [discriminate |].
  destruct (year d <? 9999); discriminate.
Qed.

Lemma has_quotes_ends : forall data, has_quotes data <> Diverge.
Proof.
  intros data. unfold has_quotes.
  destruct data; try discriminate. simpl.
  destruct (truthy _); [| discriminate].
  unfold dict_mem. discriminate.
Qed.

Lemma for_each_ends : forall (X Y : Type) (f : X -> Y -> outcome X) l a,
  (forall a y, f a y <> Diverge) -> for_each f l a <> Diverge.
Proof.
  intros X Y f l. induction l as [| y l IH]; intros a Hf; simpl.
  - discriminate.
  - specialize (Hf a y) as Hfa.
    destruct (f a y) as [a' | e |]; simpl; try congruence. now apply IH.
Qed.

(** ** The retrieval tiers return *)

Lemma fallback_step_ends : forall start end_ acc item,
  fallback_step start end_ acc item <> Diverge.
Proof.
  intros start end_ acc [date_str rate_data]. unfold fallback_step.
  pose proof (strptime_ends date_str) as Hs.
  destruct (strptime date_str) as [d | e |]; simpl; try congruence.
  destruct (Dates.leb start d && Dates.leb d end_); discriminate.
Qed.

Lemma timeframe_step_ends : forall from_currency to_currency acc item,
  timeframe_step from_currency to_currency acc item <> Diverge.
Proof.
  intros from_currency to_currency acc [date_str quote_data].
  unfold timeframe_step.
  pose proof (py_in_ends (from_currency ++ to_currency) quote_data) as Hin.
  destruct (py_in _ quote_data) as [[|] | e |]; simpl; try congruence.
  pose proof (py_getitem_ends quote_data (from_currency ++ to_currency)) as Hg.
  destruct (py_getitem quote_data _) as [v | e |]; simpl; congruence.
Qed.

(** One step of a proof that a computation ends. *)
Ltac ends_step :=
  match goal with
  | |- terminates (World.bind _ _) =>
      eapply terminates_bind with (P := fun _ => True);
      [ | intros ? ? ? _; exact I | intros ? _ ]
  | |- terminates (lift _) => apply terminates_lift
  | |- terminates (ret _) => apply terminates_ret
  | |- terminates (raise _) => apply terminates_raise
  | |- terminates (requests_get _ _ _ _) => apply terminates_requests_get
  | |- terminates (response_json _) => apply terminates_response_json
  | |- terminates (load_json _ _) => apply terminates_load_json
  | |- terminates (print _) => apply returns_terminates, returns_print
  | |- terminates (if ?b then _ else _) => destruct b
  | |- terminates (match ?x with _ => _ end) => destruct x
  | |- strptime _ <> Diverge => apply strptime_ends
  | |- py_getitem _ _ <> Diverge => apply py_getitem_ends
  | |- py_get _ _ _ <> Diverge => apply py_get_ends
  | |- py_items _ <> Diverge => apply py_items_ends
  | |- py_in _ _ <> Diverge => apply py_in_ends
  | |- has_quotes _ <> Diverge => apply has_quotes_ends
  | |- next_day _ <> Diverge => apply next_day_ends
  | |- for_each _ _ _ <> Diverge => apply for_each_ends; intros
  | |- fallback_step _ _ _ _ <> Diverge => apply fallback_step_ends
  | |- timeframe_step _ _ _ _ <> Diverge => apply timeframe_step_ends
  end.

Section Tiers.
Variable o : oracle.
Variable self : service.

Lemma load_fallback_try_terminates : forall start_date end_date,
  terminates (load_fallback_try o self start_date end_date).
Proof.
  intros start_date end_date. unfold load_fallback_try. repeat ends_step.
Qed.

Lemma load_fallback_data_returns : forall start_date end_date,
  returns (_load_fallback_data o self start_date end_date).
Proof.
  intros start_date end_date. unfold _load_fallback_data.
  apply returns_try.
  - apply load_fallback_try_terminates.
  - intros e. apply returns_bind; [apply returns_print |].
    intros _. apply returns_ret.
Qed.

(** With the fuel of [day_fuel] the loop reaches its end. *)
Lemma day_loop_terminates : forall fuel end_ from_currency to_currency current rates,
  valid current -> valid end_ ->
  (Z.to_nat (rank end_ - rank current + 1) < fuel)%nat ->
  terminates (day_loop o self fuel end_ from_currency to_currency current rates).
Proof.
  induction fuel as [| fuel IH];
    intros end_ from_currency to_currency current rates Hc He Hfuel.
  - lia.
  - cbn [day_loop].
    destruct (Dates.leb current end_) eqn:Hle; [| apply terminates_ret].
    apply (leb_rank _ _ Hc He) in Hle.
    ends_step; [ends_step |].
    destruct a as [status_code body].
    ends_step; [repeat ends_step |].
    eapply terminates_bind with (P := fun c' => next_day current = Ret c').
    + repeat ends_step.
    + apply post_lift. auto.
    + intros c' Hnext. destruct (next_day_valid _ _ Hc Hnext) as [Hc' Hrank].
      apply IH; auto. lia.
Qed.

Lemma get_rates_day_by_day_returns :
  forall start_date end_date from_currency to_currency,
  returns (_get_rates_day_by_day o self start_date end_date
             from_currency to_currency).
Proof.
  intros start_date end_date from_currency to_currency.
  unfold _get_rates_day_by_day. apply returns_try.
  - eapply terminates_bind with (P := valid).
    + repeat ends_step.
    + apply post_lift. intros d Hd. eapply strptime_valid; eauto.
    + intros start Hstart.
      eapply terminates_bind with (P := valid).
      * repeat ends_step.
      * apply post_lift. intros d Hd. eapply strptime_valid; eauto.
      * intros end_ Hend. ends_step.
        -- apply day_loop_terminates; auto.
        -- repeat ends_step.
  - intros e. apply returns_bind; [apply returns_print |].
    intros _. apply load_fallback_data_returns.
Qed.

Lemma get_historical_rate_returns : forall date from_currency to_currency,
  returns (_get_historical_rate o self date from_currency to_currency).
Proof.
  intros date from_currency to_currency.
  unfold _get_historical_rate. apply returns_try.
  - ends_step; [ends_step |]. destruct a as [status_code body].
    repeat ends_step.
  - intros e. apply returns_bind; [apply returns_print |].
    intros _. apply load_fallback_data_returns.
Qed.

Lemma get_timeframe_rates_returns :
  forall start_date end_date from_currency to_currency,
  returns (_get_timeframe_rates o self start_date end_date
             from_currency to_currency).
Proof.
  intros start_date end_date from_currency to_currency.
  unfold _get_timeframe_rates. apply returns_try.
  - ends_step; [ends_step |]. destruct a as [status_code body].
    ends_step; [repeat ends_step |].
    destruct a as [r |]; [apply terminates_ret |].
    apply returns_terminates, get_rates_day_by_day_returns.
  - intros e. apply returns_bind; [apply returns_print |].
    intros _. apply get_rates_day_by_day_returns.
Qed.

(** [get_rates] returns a result in every world: no exception leaves it and
    its loop ends. *)
Lemma get_rates_returns : forall start_date end_date from_currency to_currency,
  returns (get_rates o self start_date end_date from_currency to_currency).
Proof.
  intros start_date end_date from_currency to_currency.
  unfold get_rates. apply returns_try.
  - destruct (negb (start_date =? end_date)%string).
    + apply returns_terminates, get_timeframe_rates_returns.
    + apply returns_terminates, get_historical_rate_returns.
  - intros e. apply returns_bind; [apply returns_print |].
    intros _. apply load_fallback_data_returns.
Qed.

End Tiers.

(** ** What the tiers return *)

(** One step of a proof about the values a computation returns, where no
    fact about the intermediate value is needed. *)
Ltac post_step :=
  match goal with
  | |- post (World.bind _ _) _ =>
      eapply post_bind with (P := fun _ => True);
      [ intros ? ? ? _; exact I | intros ? _ ]
  | |- post (ret _) _ => apply post_ret
  | |- post (raise _) _ => apply post_raise
  | |- post (if ?b then _ else _) _ => destruct b
  | |- post (match ?x with _ => _ end) _ => destruct x
  end.

Section Shapes.
Variable o : oracle.
Variable self : service.

Lemma load_fallback_try_shape : forall start_date end_date,
  post (load_fallback_try o self start_date end_date)
       (fun r => exists b rs, r = success_result b rs).
Proof.
  intros. unfold load_fallback_try. repeat post_step. eauto.
Qed.

Lemma load_fallback_data_shape : forall start_date end_date,
  post (_load_fallback_data o self start_date end_date)
       (success_or_fallback_failed o self start_date end_date).
Proof.
  intros start_date end_date t r t' H.
  unfold _load_fallback_data, try_except in H.
  destruct (load_fallback_try o self start_date end_date t)
    as [[a | e |] t1] eqn:Etry.
  - inversion H; subst. left.
    eapply load_fallback_try_shape. exact Etry.
  - right. exists e, t, t1. split; [exact Etry |].
    unfold World.bind, print, ret in H. now inversion H.
  - discriminate.
Qed.

Lemma fallback_handler_shape : forall start_date end_date line,
  post (World.bind (print line)
          (fun _ => _load_fallback_data o self start_date end_date))
       (success_or_fallback_failed o self start_date end_date).
Proof.
  intros. eapply post_bind with (P := fun _ => True).
  - intros ? ? ? _; exact I.
  - intros _ _. apply load_fallback_data_shape.
Qed.

Lemma get_rates_day_by_day_shape :
  forall start_date end_date from_currency to_currency,
  post (_get_rates_day_by_day o self start_date end_date
          from_currency to_currency)
       (success_or_fallback_failed o self start_date end_date).
Proof.
  intros. unfold _get_rates_day_by_day. apply post_try.
  - repeat post_step. left. eauto.
  - intros e. apply fallback_handler_shape.
Qed.

Lemma get_historical_rate_shape : forall date from_currency to_currency,
  post (_get_historical_rate o self date from_currency to_currency)
       (success_or_fallback_failed o self date date).
Proof.
  intros. unfold _get_historical_rate. apply post_try.
  - eapply post_bind with (P := fun _ => True); [intros ? ? ? _; exact I |].
    intros [status_code body] _.
    eapply post_bind with
      (P := fun found => forall r, found = Some r ->
                         exists b rs, r = success_result b rs).
    + repeat post_step; try discriminate.
      intros r Hr. inversion Hr. eauto.
    + intros [r |] Hfound; [| apply post_raise].
      apply post_ret. left. now apply Hfound.
  - intros e. apply fallback_handler_shape.
Qed.

Lemma get_timeframe_rates_shape :
  forall start_date end_date from_currency to_currency,
  post (_get_timeframe_rates o self start_date end_date
          from_currency to_currency)
       (success_or_fallback_failed o self start_date end_date).
Proof.
  intros. unfold _get_timeframe_rates. apply post_try.
  - eapply post_bind with (P := fun _ => True); [intros ? ? ? _; exact I |].
    intros [status_code body] _.
    eapply post_bind with
      (P := fun found => forall r, found = Some r ->
                         exists b rs, r = success_result b rs).
    + repeat post_step; try discriminate.
      intros r Hr. inversion Hr. eauto.
    + intros [r |] Hfound; [| apply get_rates_day_by_day_shape].
      apply post_ret. left. now apply Hfound.
  - intros e. eapply post_bind with (P := fun _ => True).
    + intros ? ? ? _; exact I.
    + intros _ _. apply get_rates_day_by_day_shape.
Qed.

Lemma get_rates_shape : forall start_date end_date from_currency to_currency,
  post (get_rates o self start_date end_date from_currency to_currency)
       (success_or_fallback_failed o self start_date end_date).
Proof.
  intros. unfold get_rates. apply post_try.
  - destruct (String.eqb_spec start_date end_date) as [Heq | Hne]; cbn [negb].
    + subst end_date. apply get_historical_rate_shape.
    + apply get_timeframe_rates_shape.
  - intros e. apply fallback_handler_shape.
Qed.

End Shapes.

Lemma for_each_fallback_returns : forall start end_ items acc,
  Forall (fun k => exists d, strptime k = Ret d) (keys items) ->
  exists res, for_each (fallback_step start end_) items acc = Ret res.
Proof.
  intros start end_ items.
  induction items as [| [k v] items IH]; intros acc Hparse.
  - now exists acc.
  - cbn [for_each keys map fst] in *.
    inversion Hparse as [| ? ? [d Hd] Hparse']; subst.
    unfold fallback_step at 1. rewrite Hd. cbn [Py.bind].
    destruct (Dates.leb start d && Dates.leb d end_); cbn [Py.bind]; now apply IH.
Qed.

(** With valid dates and a readable dataset the fallback does not fail. *)
Lemma load_fallback_try_returns : forall o self start_date end_date start end_ t,
  dataset_readable o self ->
  strptime start_date = Ret start -> strptime end_date = Ret end_ ->
  exists r t', load_fallback_try o self start_date end_date t = (Ret r, t').
Proof.
  intros o self start_date end_date start end_ t
    (data & table & Hfile & Htable & Hparse) Hs He.
  unfold load_fallback_try.
  unfold World.bind at 1. unfold load_json. rewrite Hfile.
  unfold World.bind, lift. rewrite Hs, He.
  cbn [py_getitem]. unfold dict_getitem. rewrite Htable.
  cbn [py_items].
  destruct (for_each_fallback_returns start end_ table [] Hparse) as [res Hres].
  rewrite Hres. cbn [py_get]. unfold ret. eauto.
Qed.

(** ** The methods on a console that takes every line *)

Lemma try_except_ext : forall (A : Type) (b1 b2 : M A) (h1 h2 : exc -> M A),
  (forall t, b1 t = b2 t) -> (forall e t, h1 e t = h2 e t) ->
  forall t, try_except b1 h1 t = try_except b2 h2 t.
Proof.
  intros A b1 b2 h1 h2 Hb Hh t. unfold try_except. rewrite Hb.
  destruct (b2 t) as [[a | e |] t1]; auto.
Qed.

Lemma bind_ext : forall (A B : Type) (c : M A) (k1 k2 : A -> M B),
  (forall a t, k1 a t = k2 a t) ->
  forall t, World.bind c k1 t = World.bind c k2 t.
Proof.
  intros A B c k1 k2 Hk t. unfold World.bind.
  destruct (c t) as [[a | e |] t1]; auto.
Qed.

Section OnAccepting.
Variable out : console.
Variable o : oracle.
Variable self : service.
Hypothesis Haccepts : forall t line, out t line = None.

Lemma say_accepted : forall line t, say out line t = print line t.
Proof. intros line t. unfold say. now rewrite Haccepts. Qed.

Lemma load_fallback_data_accepted : forall start_date end_date t,
  ServiceOnConsole._load_fallback_data out o self start_date end_date t
  = _load_fallback_data o self start_date end_date t.
Proof.
  intros start_date end_date.
  apply try_except_ext; [reflexivity |].
  intros e t. unfold World.bind. now rewrite say_accepted.
Qed.

Lemma get_historical_rate_accepted : forall date from_currency to_currency t,
  ServiceOnConsole._get_historical_rate out o self date from_currency to_currency t
  = _get_historical_rate o self date from_currency to_currency t.
Proof.
  intros date from_currency to_currency.
  apply try_except_ext; [reflexivity |].
  intros e t. unfold World.bind. rewrite say_accepted. unfold print.
  apply load_fallback_data_accepted.
Qed.

Lemma get_rates_day_by_day_accepted :
  forall start_date end_date from_currency to_currency t,
  ServiceOnConsole._get_rates_day_by_day out o self
    start_date end_date from_currency to_currency t
  = _get_rates_day_by_day o self start_date end_date from_currency to_currency t.
Proof.
  intros start_date end_date from_currency to_currency.
  apply try_except_ext; [reflexivity |].
  intros e t. unfold World.bind. rewrite say_accepted. unfold print.
  apply load_fallback_data_accepted.
Qed.

Lemma get_timeframe_rates_accepted :
  forall start_date end_date from_currency to_currency t,
  ServiceOnConsole._get_timeframe_rates out o self
    start_date end_date from_currency to_currency t
  = _get_timeframe_rates o self start_date end_date from_currency to_currency t.
Proof.
  intros start_date end_date from_currency to_currency.
  apply try_except_ext.
  - apply bind_ext. intros [status_code body] t.
    apply bind_ext. intros [r |] t1; [reflexivity |].
    apply get_rates_day_by_day_accepted.
  - intros e t. unfold World.bind. rewrite say_accepted. unfold print.
    apply get_rates_day_by_day_accepted.
Qed.

Lemma get_rates_accepted :
  forall start_date end_date from_currency to_currency t,
  ServiceOnConsole.get_rates out o self
    start_date end_date from_currency to_currency t
  = get_rates o self start_date end_date from_currency to_currency t.
Proof.
  intros start_date end_date from_currency to_currency.
  apply try_except_ext.
  - intros t. destruct (negb (String.eqb start_date end_date)).
    + apply get_timeframe_rates_accepted.
    + apply get_historical_rate_accepted.
  - intros e t. unfold World.bind. rewrite say_accepted. unfold print.
    apply load_fallback_data_accepted.
Qed.

End OnAccepting.

(** C4, as stated, fails in two ways.  A failure is returned although the
    fallback file loads and parses: the dataset of [world_down] is readable
    and the remote service is down, and for a start date that is not a date
    the result is the failure that carries the parse error of that date.
    And an exception leaves [get_rates]: on a console that refuses every
    line, with the remote service down, the first diagnostic raises inside
    an [except] clause, the outer clause catches it, and its own [print]
    raises in turn. *)
Lemma C4_fails_on_bad_date_and_raises :
  (dataset_readable world_down (init JNull) /\
   ServiceOnConsole.get_rates accepting world_down (init JNull)
     "2025-13-01" "2025-13-02" "USD" "EUR" []
   = (Ret (failure_result
             "time data '2025-13-01' does not match format '%Y-%m-%d'"),
      [Get (timeframe_request (init JNull)
              "2025-13-01" "2025-13-02" "USD" "EUR");
       Print "Timeframe API request failed: connection refused";
       Print ("Day-by-day API request failed: time data '2025-13-01' "
              ++ "does not match format '%Y-%m-%d'");
       Open "data/sample_api.json";
       Print ("Fallback data loading failed: time data '2025-13-01' "
              ++ "does not match format '%Y-%m-%d'")])) /\
  ServiceOnConsole.get_rates closed_pipe world_down (init JNull)
    "2025-07-01" "2025-07-03" "USD" "EUR" []
  = (Raise (mk_exc OSError "[Errno 32] Broken pipe"),
     [Get (timeframe_request (init JNull)
             "2025-07-01" "2025-07-03" "USD" "EUR")]).
Proof.
  split; [split |].
  - do 2 eexists. split; [intros; reflexivity |]. split; [reflexivity |].
    repeat constructor; eexists; reflexivity.
  - reflexivity.
  - reflexivity.
Qed.

(** C4 (amended): on a console that takes every line, in every world
    (whatever the remote service and the file system answer) and on every
    input, [get_rates] returns a result and raises nothing: either a success
    that carries a series, possibly empty, or a failure that carries an error
    text.  The failure is returned only when the [try] block of
    [_load_fallback_data] raised, with that exception's text: the file could
    not be opened or parsed, has no table, a key of the table is not a date,
    or the start or the end asked for is not a date.  With valid dates and a
    readable dataset the result is a success. *)
Theorem C4_returns_when_output_is_taken :
  forall (out : console) (o : oracle) (self : service)
    start_date end_date from_currency to_currency (t : list event),
  (forall t line, out t line = None) ->
  exists r t',
    ServiceOnConsole.get_rates out o self
      start_date end_date from_currency to_currency t
    = (Ret r, t') /\
    ((success r = true /\ exists rs, rates r = Some rs) \/
     (success r = false /\ (exists msg, error r = Some msg) /\
      fallback_failed o self start_date end_date r)) /\
    (forall start end_,
       strptime start_date = Ret start -> strptime end_date = Ret end_ ->
       dataset_readable o self -> success r = true).
Proof.
  intros out o self start_date end_date from_currency to_currency t Haccepts.
  rewrite (get_rates_accepted out o self Haccepts).
  destruct (get_rates_returns o self start_date end_date
              from_currency to_currency t) as (r & t' & Hrun).
  exists r, t'. split; [exact Hrun |].
  destruct (get_rates_shape o self _ _ _ _ _ _ _ Hrun) as [(b & rs & ->) | Hfail].
  - split; [| reflexivity].
    left. split; [reflexivity | now exists rs].
  - destruct Hfail as (e & t1 & t2 & Htry & ->). split.
    + right. split; [reflexivity |]. split; [now exists (message e) |].
      now exists e, t1, t2.
    + intros start end_ Hs He Hdata.
      destruct (load_fallback_try_returns o self _ _ _ _ t1 Hdata Hs He)
        as (r' & t3 & Hok).
      rewrite Hok in Htry. discriminate Htry.
Qed.

Lemma C4_returns_when_output_is_taken_witness :
  exists r t',
    ServiceOnConsole.get_rates accepting world_down (init JNull)
      "2025-07-01" "2025-07-03" "USD" "EUR" []
    = (Ret r, t') /\
    success r = true.
Proof.
  destruct (C4_returns_when_output_is_taken accepting world_down (init JNull)
              "2025-07-01" "2025-07-03" "USD" "EUR" [] (fun _ _ => eq_refl))
    as (r & t' & Hrun & _ & Hok).
  exists r, t'. split; [exact Hrun |].
  apply (Hok (mk_date 2025 7 1) (mk_date 2025 7 3)); try reflexivity.
  do 2 eexists. split; [intros; reflexivity |]. split; [reflexivity |].
  repeat constructor; eexists; reflexivity.
Defined.

(** ** The timeframe tier accepts an empty reshaped series *)

(** C2 (what the code does on the failing input): the range 2025-07-01 to
    2025-07-03 is asked for USD/EUR and the timeframe call answers 200 with
    success and quotes that carry only USDGBP.  [get_rates] returns a success
    with an empty series, and the only request sent is the timeframe one: the
    day-by-day tier is not entered. *)
Theorem C2_empty_timeframe_is_returned : forall key t,
  get_rates world_other_pair (init key)
    "2025-07-01" "2025-07-03" "USD" "EUR" t
  = (Ret (success_result (JStr "USD") []),
     (t ++ [Get (mk_request "https://api.exchangerate.host/timeframe"
                   [("access_key", key); ("start_date", JStr "2025-07-01");
                    ("end_date", JStr "2025-07-03"); ("source", JStr "USD");
                    ("currencies", JStr "EUR")] 10)])%list).
Proof. intros key t. reflexivity. Qed.

(** ** When every remote call fails *)

Lemma fails_no_quotes : forall data ok,
  remote_fails (Response 200 (inr data)) = true ->
  has_quotes data = Ret ok -> ok = false.
Proof.
  intros data ok Hfail Hq. unfold has_quotes in Hq.
  destruct data; try discriminate.
  cbn in Hfail. cbn [py_get Py.bind] in Hq.
  apply negb_true_iff in Hfail. rewrite Hfail in Hq. now inversion Hq.
Qed.

(** The loop over the file's table keeps the entries of the range. *)
Lemma for_each_fallback_restrict : forall start end_ items acc,
  NoDup (keys items) ->
  (forall k, In k (keys items) -> ~ In k (keys acc)) ->
  Forall (fun k => exists d, strptime k = Ret d) (keys items) ->
  for_each (fallback_step start end_) items acc
  = Ret (acc ++ restrict start end_ items)%list.
Proof.
  intros start end_ items.
  induction items as [| [k v] items IH]; intros acc Hnd Hfresh Hparse.
  - simpl. now rewrite app_nil_r.
  - cbn [for_each keys map fst] in *.
    inversion Hnd as [| ? ? Hk Hnd']; subst.
    inversion Hparse as [| ? ? [d Hd] Hparse']; subst.
    unfold fallback_step at 1. rewrite Hd. cbn [Py.bind].
    unfold restrict. cbn [filter fst]. unfold date_in_range at 1. rewrite Hd.
    destruct (Dates.leb start d && Dates.leb d end_).
    + cbn [Py.bind]. rewrite dict_set_fresh by (apply Hfresh; now left).
      fold (restrict start end_ items).
      rewrite IH; auto.
      * now rewrite <- app_assoc.
      * intros k' Hin Hacc. unfold keys in Hacc. rewrite map_app in Hacc.
        apply in_app_or in Hacc. destruct Hacc as [Hacc | Hacc].
        -- eapply Hfresh; [right; exact Hin | exact Hacc].
        -- simpl in Hacc. destruct Hacc as [-> | []]. contradiction.
    + cbn [Py.bind]. fold (restrict start end_ items).
      apply IH; auto. intros k' Hin. apply Hfresh. now right.
Qed.

Section RemoteDown.
Variable o : oracle.
Variable self : service.
Variable data : dict json.
Variable table : dict json.
Variable b : json.
Hypothesis Hdown : forall t r, remote_fails (http o t r) = true.
Hypothesis Hfile : forall t, open_json o t (fallback_file self) = inr (JDict data).
Hypothesis Htable : dict_get "rates" data = Some (JDict table).
Hypothesis Hbase : dict_get "base" data = Some b.
Hypothesis Hnodup : NoDup (keys table).
Hypothesis Hparse : Forall (fun k => exists d, strptime k = Ret d) (keys table).

Lemma load_fallback_data_slice : forall start_date end_date start end_ t,
  strptime start_date = Ret start -> strptime end_date = Ret end_ ->
  _load_fallback_data o self start_date end_date t
  = (Ret (success_result b (restrict start end_ table)),
     (t ++ [Open (fallback_file self)])%list).
Proof.
  intros start_date end_date start end_ t Hs He.
  unfold _load_fallback_data, try_except, load_fallback_try.
  unfold World.bind at 1. unfold load_json. rewrite Hfile.
  unfold World.bind, lift. rewrite Hs, He.
  cbn [py_getitem]. unfold dict_getitem. rewrite Htable.
  cbn [py_items].
  rewrite (for_each_fallback_restrict start end_ table []); auto.
  cbn [app py_get]. unfold dict_get_default. rewrite Hbase. reflexivity.
Qed.

Lemma fallback_handler_slice : forall start_date end_date start end_ line,
  strptime start_date = Ret start -> strptime end_date = Ret end_ ->
  post (World.bind (print line)
          (fun _ => _load_fallback_data o self start_date end_date))
       (fun r => r = success_result b (restrict start end_ table)).
Proof.
  intros start_date end_date start end_ line Hs He t r t' H.
  unfold World.bind, print in H.
  rewrite (load_fallback_data_slice _ _ start end_) in H by assumption.
  now inversion H.
Qed.

(** A failing answer is never accepted: the test that guards the use of the
    quotes is false. *)
Lemma failing_answer_rejected : forall st body data' ok,
  remote_fails (Response st body) = true ->
  (st =? 200) = true -> body = inr data' ->
  has_quotes data' = Ret ok -> ok = false.
Proof.
  intros st body data' ok Hfail Hst Hbody Hq.
  apply Z.eqb_eq in Hst. subst st body. eapply fails_no_quotes; eauto.
Qed.

Lemma day_loop_down : forall fuel end_ from_currency to_currency current rates,
  post (day_loop o self fuel end_ from_currency to_currency current rates)
       (fun r => r = rates).
Proof.
  induction fuel as [| fuel IH];
    intros end_ from_currency to_currency current rates.
  - cbn [day_loop]. intros t r t' H. discriminate H.
  - cbn [day_loop].
    destruct (Dates.leb current end_); [| now apply post_ret].
    eapply post_bind with
      (P := fun a => remote_fails (Response (fst a) (snd a)) = true).
    + apply post_requests_get. intros t st body Hans. cbn [fst snd].
      rewrite <- Hans. apply Hdown.
    + intros [status_code body] Hfail. cbn [fst snd] in Hfail.
      eapply post_bind with (P := fun r => r = rates).
      * destruct (status_code =? 200) eqn:Hst; [| now apply post_ret].
        eapply post_bind with (P := fun v => body = inr v).
        -- apply post_response_json. auto.
        -- intros v Hv.
           eapply post_bind with (P := fun ok => ok = false).
           ++ apply post_lift. intros ok Hok.
              eapply failing_answer_rejected; eauto.
           ++ intros ok ->. now apply post_ret.
      * intros r ->.
        eapply post_bind with (P := fun _ => True);
          [intros ? ? ? _; exact I |].
        intros c' _. apply IH.
Qed.

Lemma get_rates_day_by_day_down :
  forall start_date end_date start end_ from_currency to_currency,
  strptime start_date = Ret start -> strptime end_date = Ret end_ ->
  post (_get_rates_day_by_day o self start_date end_date
          from_currency to_currency)
       (fun r => r = success_result b (restrict start end_ table)).
Proof.
  intros start_date end_date start end_ from_currency to_currency Hs He.
  unfold _get_rates_day_by_day. apply post_try.
  - do 2 post_step.
    eapply post_bind with (P := fun r => r = []).
    + apply day_loop_down.
    + intros r ->. apply post_raise.
  - intros e. now apply fallback_handler_slice.
Qed.

Lemma get_historical_rate_down : forall date start from_currency to_currency,
  strptime date = Ret start ->
  post (_get_historical_rate o self date from_currency to_currency)
       (fun r => r = success_result b (restrict start start table)).
Proof.
  intros date start from_currency to_currency Hs.
  unfold _get_historical_rate. apply post_try.
  - eapply post_bind with
      (P := fun a => remote_fails (Response (fst a) (snd a)) = true).
    + apply post_requests_get. intros t st body Hans. cbn [fst snd].
      rewrite <- Hans. apply Hdown.
    + intros [status_code body] Hfail. cbn [fst snd] in Hfail.
      eapply post_bind with (P := fun found => found = None).
      * destruct (status_code =? 200) eqn:Hst; [| now apply post_ret].
        eapply post_bind with (P := fun v => body = inr v).
        -- apply post_response_json. auto.
        -- intros v Hv.
           eapply post_bind with (P := fun ok => ok = false).
           ++ apply post_lift. intros ok Hok.
              eapply failing_answer_rejected; eauto.
           ++ intros ok ->. now apply post_ret.
      * intros found ->. apply post_raise.
  - intros e. now apply fallback_handler_slice.
Qed.

Lemma get_timeframe_rates_down :
  forall start_date end_date start end_ from_currency to_currency,
  strptime start_date = Ret start -> strptime end_date = Ret end_ ->
  post (_get_timeframe_rates o self start_date end_date
          from_currency to_currency)
       (fun r => r = success_result b (restrict start end_ table)).
Proof.
  intros start_date end_date start end_ from_currency to_currency Hs He.
  unfold _get_timeframe_rates. apply post_try.
  - eapply post_bind with
      (P := fun a => remote_fails (Response (fst a) (snd a)) = true).
    + apply post_requests_get. intros t st body Hans. cbn [fst snd].
      rewrite <- Hans. apply Hdown.
    + intros [status_code body] Hfail. cbn [fst snd] in Hfail.
      eapply post_bind with (P := fun found => found = None).
      * destruct (status_code =? 200) eqn:Hst; [| now apply post_ret].
        eapply post_bind with (P := fun v => body = inr v).
        -- apply post_response_json. auto.
        -- intros v Hv.
           eapply post_bind with (P := fun ok => ok = false).
           ++ apply post_lift. intros ok Hok.
              eapply failing_answer_rejected; eauto.
           ++ intros ok ->. now apply post_ret.
      * intros found ->. now apply get_rates_day_by_day_down.
  - intros e. eapply post_bind with (P := fun _ => True).
    + intros ? ? ? _; exact I.
    + intros _ _. now apply get_rates_day_by_day_down.
Qed.

Lemma get_rates_down :
  forall start_date end_date start end_ from_currency to_currency,
  strptime start_date = Ret start -> strptime end_date = Ret end_ ->
  post (get_rates o self start_date end_date from_currency to_currency)
       (fun r => r = success_result b (restrict start end_ table)).
Proof.
  intros start_date end_date start end_ from_currency to_currency Hs He.
  unfold get_rates. apply post_try.
  - destruct (String.eqb_spec start_date end_date) as [Heq | Hne]; cbn [negb].
    + subst end_date. assert (end_ = start) by congruence. subst end_.
      now apply get_historical_rate_down.
    + now apply get_timeframe_rates_down.
  - intros e. now apply fallback_handler_slice.
Qed.

End RemoteDown.



(** ** The dates of the series *)

Section KeysInRange.
Variable start end_ : datetime.

Lemma Forall_keys_dict_set : forall (k : string) (v : json) (d : dict json),
  in_range start end_ k -> Forall (in_range start end_) (keys d) ->
  Forall (in_range start end_) (keys (dict_set k v d)).
Proof.
  intros k v d Hk Hd. apply Forall_forall. intros k0 Hin.
  apply keys_dict_set in Hin. destruct Hin as [-> | Hin]; [exact Hk |].
  rewrite Forall_forall in Hd. now apply Hd.
Qed.

Lemma for_each_fallback_keys : forall items acc res,
  Forall (in_range start end_) (keys acc) ->
  for_each (fallback_step start end_) items acc = Ret res ->
  Forall (in_range start end_) (keys res).
Proof.
  induction items as [| [k v] items IH]; intros acc res Hacc Hrun.
  - simpl in Hrun. now inversion Hrun; subst.
  - cbn [for_each] in Hrun. unfold fallback_step at 1 in Hrun.
    destruct (strptime k) as [d | e |] eqn:Hd; try discriminate.
    cbn [Py.bind] in Hrun.
    destruct (Dates.leb start d && Dates.leb d end_) eqn:Htest;
      cbn [Py.bind] in Hrun.
    + eapply IH; [| exact Hrun]. apply Forall_keys_dict_set; auto.
      unfold in_range, date_in_range. now rewrite Hd.
    + eapply IH; eauto.
Qed.

End KeysInRange.

Lemma for_each_timeframe_keys : forall from_currency to_currency items acc res,
  for_each (timeframe_step from_currency to_currency) items acc = Ret res ->
  forall k, In k (keys res) -> In k (keys acc) \/ In k (keys items).
Proof.
  intros from_currency to_currency.
  induction items as [| [date_str quote_data] items IH]; intros acc res Hrun k Hk.
  - simpl in Hrun. inversion Hrun; subst. now left.
  - cbn [for_each] in Hrun. unfold timeframe_step at 1 in Hrun.
    destruct (py_in (from_currency ++ to_currency) quote_data)
      as [[|] | e |]; try discriminate; cbn [Py.bind] in Hrun.
    + destruct (py_getitem quote_data (from_currency ++ to_currency))
        as [v | e |]; try discriminate; cbn [Py.bind] in Hrun.
      destruct (IH _ _ Hrun k Hk) as [Hin | Hin].
      * apply keys_dict_set in Hin. destruct Hin as [-> | Hin].
        -- right. now left.
        -- now left.
      * right. now right.
    + destruct (IH _ _ Hrun k Hk) as [Hin | Hin]; [now left | right; now right].
Qed.

(** The year does not decrease along the numbering of the dates. *)
Lemma rank_year : forall a b,
  valid a -> valid b -> rank a <= rank b -> year a <= year b.
Proof.
  intros [ya ma da] [yb mb db] (Hya & Hma & Hda) (Hyb & Hmb & Hdb).
  unfold rank. cbn [year month day] in *.
  pose proof (days_in_month_bounds ya ma). pose proof (days_in_month_bounds yb mb).
  lia.
Qed.

Section SeriesDates.
Variable out : console.
Variable o : oracle.
Variable self : service.
Variable start end_ : datetime.
Hypothesis Hstart : valid start.
Hypothesis Hend : valid end_.
Hypothesis Hyear : 1000 <= year start.

Lemma load_fallback_data_in_range : forall start_date end_date,
  strptime start_date = Ret start -> strptime end_date = Ret end_ ->
  post (ServiceOnConsole._load_fallback_data out o self start_date end_date) (dates_within start end_).
Proof.
  intros start_date end_date Hs He.
  unfold ServiceOnConsole._load_fallback_data. apply post_try.
  - unfold load_fallback_try. post_step.
    eapply post_bind with (P := fun d => d = start);
      [apply post_lift; congruence |]. intros ? ->.
    eapply post_bind with (P := fun d => d = end_);
      [apply post_lift; congruence |]. intros ? ->.
    do 2 post_step.
    eapply post_bind with (P := fun rs => Forall (in_range start end_) (keys rs)).
    + apply post_lift. intros rs Hrs.
      eapply for_each_fallback_keys; [| exact Hrs]. constructor.
    + intros rs Hrs. post_step. apply post_ret.
      intros rs' Hrs'. inversion Hrs'; now subst.
  - intros e. post_step. apply post_ret. intros rs Hrs. discriminate Hrs.
Qed.

Lemma fallback_handler_in_range : forall start_date end_date line,
  strptime start_date = Ret start -> strptime end_date = Ret end_ ->
  post (World.bind (say out line)
          (fun _ => ServiceOnConsole._load_fallback_data out o self start_date end_date))
       (dates_within start end_).
Proof.
  intros. eapply post_bind with (P := fun _ => True).
  - intros ? ? ? _; exact I.
  - intros _ _. now apply load_fallback_data_in_range.
Qed.

(** The keys that the loop adds are the days it goes through. *)
Lemma day_loop_in_range : forall fuel from_currency to_currency current rates,
  valid current -> rank start <= rank current ->
  Forall (in_range start end_) (keys rates) ->
  post (day_loop o self fuel end_ from_currency to_currency current rates)
       (fun rs => Forall (in_range start end_) (keys rs)).
Proof.
  induction fuel as [| fuel IH];
    intros from_currency to_currency current rates Hc Hrank Hrates.
  - cbn [day_loop]. intros t r t' H. discriminate H.
  - cbn [day_loop].
    destruct (Dates.leb current end_) eqn:Hle; [| now apply post_ret].
    assert (Hkey : in_range start end_ (strftime current)).
    { unfold in_range, date_in_range.
      rewrite strptime_strftime
        by (auto; pose proof (rank_year _ _ Hstart Hc Hrank); lia).
      rewrite Hle. rewrite andb_true_r. now apply leb_rank. }
    post_step. destruct a as [status_code body].
    eapply post_bind with (P := fun rs => Forall (in_range start end_) (keys rs)).
    + repeat post_step;
        first [assumption | apply Forall_keys_dict_set; assumption].
    + intros rates' Hrates'.
      eapply post_bind with (P := fun c' => next_day current = Ret c');
        [apply post_lift; auto |].
      intros c' Hnext. destruct (next_day_valid _ _ Hc Hnext) as [Hc' Hlt].
      apply IH; auto. lia.
Qed.

Lemma get_rates_day_by_day_in_range :
  forall start_date end_date from_currency to_currency,
  strptime start_date = Ret start -> strptime end_date = Ret end_ ->
  post (ServiceOnConsole._get_rates_day_by_day out o self start_date end_date
          from_currency to_currency) (dates_within start end_).
Proof.
  intros start_date end_date from_currency to_currency Hs He.
  unfold ServiceOnConsole._get_rates_day_by_day. apply post_try.
  - eapply post_bind with (P := fun d => d = start);
      [apply post_lift; congruence |]. intros ? ->.
    eapply post_bind with (P := fun d => d = end_);
      [apply post_lift; congruence |]. intros ? ->.
    eapply post_bind with (P := fun rs => Forall (in_range start end_) (keys rs)).
    + apply day_loop_in_range; [assumption | lia | constructor].
    + intros rs Hrs. destruct rs; [apply post_raise |].
      apply post_ret. intros rs' Hrs'. inversion Hrs'; now subst.
  - intros e. now apply fallback_handler_in_range.
Qed.

End SeriesDates.

Section SeriesDatesOfGetRates.
Variable out : console.
Variable o : oracle.
Variable self : service.
Variable start_date end_date from_currency to_currency : string.
Variable start end_ : datetime.
Hypothesis Hs : strptime start_date = Ret start.
Hypothesis He : strptime end_date = Ret end_.
Hypothesis Hle : Dates.leb start end_ = true.
Hypothesis Hyear : 1000 <= year start.
Hypothesis Htimeframe :
  timeframe_dates_in_range o self start_date end_date
    from_currency to_currency start end_.

Lemma get_historical_rate_in_range :
  start_date = end_date ->
  post (ServiceOnConsole._get_historical_rate out o self start_date from_currency to_currency)
       (dates_within start end_).
Proof.
  intros Heq.
  assert (Hvs : valid start) by (eapply strptime_valid; eauto).
  assert (Hkey : in_range start end_ start_date).
  { unfold in_range, date_in_range. rewrite Hs, Hle. now rewrite leb_refl. }
  unfold ServiceOnConsole._get_historical_rate. apply post_try.
  - post_step. destruct a as [status_code body].
    eapply post_bind with
      (P := fun found => forall r, found = Some r -> dates_within start end_ r).
    + repeat post_step; try discriminate.
      intros r Hr. inversion Hr; subst. intros rs Hrs.
      inversion Hrs; subst. now repeat constructor.
    + intros [r |] Hfound; [| apply post_raise].
      apply post_ret. now apply Hfound.
  - intros e. subst end_date.
    assert (end_ = start) by congruence. subst end_.
    apply fallback_handler_in_range; auto.
Qed.

Lemma get_timeframe_rates_in_range :
  post (ServiceOnConsole._get_timeframe_rates out o self start_date end_date
          from_currency to_currency) (dates_within start end_).
Proof.
  assert (Hvs : valid start) by (eapply strptime_valid; eauto).
  assert (Hve : valid end_) by (eapply strptime_valid; eauto).
  unfold ServiceOnConsole._get_timeframe_rates. apply post_try.
  - eapply post_bind with
      (P := fun a => exists t,
              http o t (timeframe_request self start_date end_date
                          from_currency to_currency)
              = Response (fst a) (snd a)).
    + apply post_requests_get. intros t st body Hans. now exists t.
    + intros [status_code body] [t0 Hans]. cbn [fst snd] in Hans.
      eapply post_bind with
        (P := fun found => forall r, found = Some r -> dates_within start end_ r).
      * destruct (status_code =? 200); [| apply post_ret; discriminate].
        eapply post_bind with (P := fun v => body = inr v);
          [apply post_response_json; auto |].
        intros data ->. post_step.
        destruct a; [| apply post_ret; discriminate].
        eapply post_bind with
          (P := fun quotes => py_getitem data "quotes" = Ret quotes);
          [apply post_lift; auto |].
        intros quotes Hquotes.
        eapply post_bind with (P := fun items => quotes = JDict items).
        { apply post_lift. intros items Hitems.
          destruct quotes; try discriminate. now inversion Hitems. }
        intros items ->.
        assert (Hitems : Forall (in_range start end_)
                           (keys items)).
        { destruct data; try discriminate.
          cbn [py_getitem] in Hquotes. unfold dict_getitem in Hquotes.
          destruct (dict_get "quotes" d) as [q |] eqn:Hq; try discriminate.
          inversion Hquotes; subst q.
          eapply Htimeframe; eauto. }
        eapply post_bind with
          (P := fun rs => Forall (in_range start end_)
                            (keys rs)).
        { apply post_lift. intros rs Hrs. apply Forall_forall. intros k Hk.
          destruct (for_each_timeframe_keys _ _ _ _ _ Hrs k Hk) as [[] | Hin].
          rewrite Forall_forall in Hitems. now apply Hitems. }
        intros rs Hrs. apply post_ret.
        intros r Hr. inversion Hr; subst. intros rs' Hrs'.
        inversion Hrs'; now subst.
      * intros [r |] Hfound.
        -- apply post_ret. now apply Hfound.
        -- now apply get_rates_day_by_day_in_range.
  - intros e. eapply post_bind with (P := fun _ => True).
    + intros ? ? ? _; exact I.
    + intros _ _. now apply get_rates_day_by_day_in_range.
Qed.

Lemma get_rates_in_range :
  post (ServiceOnConsole.get_rates out o self start_date end_date from_currency to_currency)
       (dates_within start end_).
Proof.
  assert (Hvs : valid start) by (eapply strptime_valid; eauto).
  assert (Hve : valid end_) by (eapply strptime_valid; eauto).
  unfold ServiceOnConsole.get_rates. apply post_try.
  - destruct (String.eqb_spec start_date end_date) as [Heq | Hne]; cbn [negb].
    + now apply get_historical_rate_in_range.
    + apply get_timeframe_rates_in_range.
  - intros e. now apply fallback_handler_in_range.
Qed.

End SeriesDatesOfGetRates.

(** C5, as stated, fails: the range 2025-07-01 to 2025-07-03 is valid and in
    order, the timeframe call answers with a quote dated 2024-01-01, and the
    series returned holds that date, which is outside the range. *)
Lemma C5_stray_date_is_kept :
  strptime "2025-07-01" = Ret (mk_date 2025 7 1) /\
  strptime "2025-07-03" = Ret (mk_date 2025 7 3) /\
  Dates.leb (mk_date 2025 7 1) (mk_date 2025 7 3) = true /\
  exists r t' rs,
    get_rates world_stray_date (init JNull)
      "2025-07-01" "2025-07-03" "USD" "EUR" [] = (Ret r, t') /\
    rates r = Some rs /\
    In "2024-01-01" (keys rs) /\
    date_in_range (mk_date 2025 7 1) (mk_date 2025 7 3) "2024-01-01" = false.
Proof.
  repeat split.
  do 3 eexists. split; [reflexivity |].
  split; [reflexivity |]. split; [now left | reflexivity].
Qed.

(** C5 (amended): for valid dates with start <= end and a start in the year
    1000 or later, on every console and in every world in which the quotes
    of a timeframe response are keyed only by dates within [start, end],
    every result that [get_rates] returns has a series whose date keys all
    lie within [start, end], both included; and on a console that takes
    every line [get_rates] does return a result. *)
Theorem C5_series_dates_in_range :
  forall (out : console) (o : oracle) (self : service)
    start_date end_date from_currency to_currency start end_ (t : list event),
  strptime start_date = Ret start ->
  strptime end_date = Ret end_ ->
  Dates.leb start end_ = true ->
  1000 <= year start ->
  timeframe_dates_in_range o self start_date end_date
    from_currency to_currency start end_ ->
  (forall r t',
     ServiceOnConsole.get_rates out o self
       start_date end_date from_currency to_currency t = (Ret r, t') ->
     dates_within start end_ r) /\
  ((forall t line, out t line = None) ->
   exists r t',
     ServiceOnConsole.get_rates out o self
       start_date end_date from_currency to_currency t = (Ret r, t')).
Proof.
  intros out o self start_date end_date from_currency to_currency start end_ t
    Hs He Hle Hyear Htf.
  split.
  - intros r t' Hrun.
    eapply (get_rates_in_range out o self start_date end_date
              from_currency to_currency start end_); eauto.
  - intros Haccepts.
    rewrite (get_rates_accepted out o self Haccepts).
    apply get_rates_returns.
Qed.

Lemma C5_series_dates_in_range_witness :
  exists r t',
    ServiceOnConsole.get_rates accepting world_in_range (init JNull)
      "2025-07-01" "2025-07-03" "USD" "EUR" [] = (Ret r, t') /\
    dates_within (mk_date 2025 7 1) (mk_date 2025 7 3) r.
Proof.
  destruct (C5_series_dates_in_range accepting world_in_range (init JNull)
              "2025-07-01" "2025-07-03" "USD" "EUR"
              (mk_date 2025 7 1) (mk_date 2025 7 3) [])
    as [Hpost Hret]; try reflexivity.
  - cbn. lia.
  - intros t st d q Hans Hq.
    injection Hans as _ Hd. subst d.
    injection Hq as Hq. subst q.
    repeat constructor.
  - destruct (Hret (fun _ _ => eq_refl)) as (r & t' & Hrun).
    exists r, t'. split; [exact Hrun | exact (Hpost r t' Hrun)].
Defined.

(** * Further properties of the retrieval tiers *)

(** ** What leaves a tier *)

Section AnyConsole.
Variable out : console.
Variable o : oracle.
Variable self : service.

Lemma say_raises : forall line, raises_only_from out (say out line).
Proof.
  intros line t e t' H. unfold say in H.
  destruct (out t line) as [e0 |] eqn:E; inversion H; subst.
  do 2 eexists. exact E.
Qed.

Lemma raises_bind : forall (A B : Type) (c : M A) (k : A -> M B),
  raises_only_from out c -> (forall a, raises_only_from out (k a)) ->
  raises_only_from out (World.bind c k).
Proof.
  intros A B c k Hc Hk t e t' H. unfold World.bind in H.
  destruct (c t) as [[a | e0 |] t1] eqn:E.
  - eapply Hk; eauto.
  - inversion H; subst. eapply Hc; eauto.
  - discriminate H.
Qed.

Lemma raises_try : forall (A : Type) (b : M A) (h : exc -> M A),
  (forall e, raises_only_from out (h e)) ->
  raises_only_from out (try_except b h).
Proof.
  intros A b h Hh t e t' H. unfold try_except in H.
  destruct (b t) as [[a | e0 |] t1] eqn:E.
  - discriminate H.
  - eapply Hh; eauto.
  - discriminate H.
Qed.

Lemma raises_ret : forall (A : Type) (a : A), raises_only_from out (ret a).
Proof. intros A a t e t' H. discriminate H. Qed.

Lemma load_fallback_data_raises : forall start_date end_date,
  raises_only_from out
    (ServiceOnConsole._load_fallback_data out o self start_date end_date).
Proof.
  intros start_date end_date. apply raises_try. intros e.
  apply raises_bind; [apply say_raises | intros _; apply raises_ret].
Qed.

Lemma get_historical_rate_raises : forall date from_currency to_currency,
  raises_only_from out
    (ServiceOnConsole._get_historical_rate out o self
       date from_currency to_currency).
Proof.
  intros date from_currency to_currency. apply raises_try. intros e.
  apply raises_bind; [apply say_raises |].
  intros _. apply load_fallback_data_raises.
Qed.

Lemma get_rates_day_by_day_raises :
  forall start_date end_date from_currency to_currency,
  raises_only_from out
    (ServiceOnConsole._get_rates_day_by_day out o self
       start_date end_date from_currency to_currency).
Proof.
  intros start_date end_date from_currency to_currency.
  apply raises_try. intros e.
  apply raises_bind; [apply say_raises |].
  intros _. apply load_fallback_data_raises.
Qed.

Lemma get_timeframe_rates_raises :
  forall start_date end_date from_currency to_currency,
  raises_only_from out
    (ServiceOnConsole._get_timeframe_rates out o self
       start_date end_date from_currency to_currency).
Proof.
  intros start_date end_date from_currency to_currency.
  apply raises_try. intros e.
  apply raises_bind; [apply say_raises |].
  intros _. apply get_rates_day_by_day_raises.
Qed.

Lemma tier_raises : forall start_date end_date from_currency to_currency,
  raises_only_from out
    (tier out o self start_date end_date from_currency to_currency).
Proof.
  intros start_date end_date from_currency to_currency. unfold tier.
  destruct (String.eqb start_date end_date).
  - apply get_historical_rate_raises.
  - apply get_timeframe_rates_raises.
Qed.

End AnyConsole.

(** X1: the [except] clause of [get_rates] is entered only when a [print]
    raised inside the tier it calls (the historical tier when the two dates
    are the same string, the timeframe tier otherwise): on every console and
    in every world, [get_rates] gives the result and the trace of its tier,
    or the tier raised an exception that came from the console.  On a console
    that takes every line the clause is therefore never entered, and 'API
    request failed' is never printed. *)
Theorem get_rates_is_its_tier :
  forall (out : console) (o : oracle) (self : service)
    start_date end_date from_currency to_currency (t : list event),
  (ServiceOnConsole.get_rates out o self
     start_date end_date from_currency to_currency t
   = tier out o self start_date end_date from_currency to_currency t \/
   exists e t1,
     tier out o self start_date end_date from_currency to_currency t
     = (Raise e, t1) /\
     from_console out e) /\
  ((forall t line, out t line = None) ->
   ServiceOnConsole.get_rates out o self
     start_date end_date from_currency to_currency t
   = tier out o self start_date end_date from_currency to_currency t).
Proof.
  intros out o self start_date end_date from_currency to_currency t.
  assert (Hcases :
    ServiceOnConsole.get_rates out o self
      start_date end_date from_currency to_currency t
    = tier out o self start_date end_date from_currency to_currency t \/
    exists e t1,
      tier out o self start_date end_date from_currency to_currency t
      = (Raise e, t1) /\
      from_console out e).
  { pose proof (tier_raises out o self start_date end_date
                  from_currency to_currency t) as Hraises.
    unfold ServiceOnConsole.get_rates, try_except.
    replace (if negb (String.eqb start_date end_date)
             then ServiceOnConsole._get_timeframe_rates out o self
                    start_date end_date from_currency to_currency
             else ServiceOnConsole._get_historical_rate out o self
                    start_date from_currency to_currency)
      with (tier out o self start_date end_date from_currency to_currency)
      by (unfold tier; now destruct (String.eqb start_date end_date)).
    destruct (tier out o self start_date end_date from_currency to_currency t)
      as [[r | e |] t1].
    - now left.
    - right. exists e, t1. split; [reflexivity |]. now apply (Hraises e t1).
    - now left. }
  split; [exact Hcases |].
  intros Haccepts. destruct Hcases as [Heq | (e & t1 & _ & t0 & line & Hout)].
  - exact Heq.
  - rewrite Haccepts in Hout. discriminate Hout.
Qed.

Lemma get_rates_is_its_tier_witness :
  ServiceOnConsole.get_rates accepting world_no_file (init JNull)
    "2025-07-01" "2025-07-03" "USD" "EUR" []
  = tier accepting world_no_file (init JNull)
      "2025-07-01" "2025-07-03" "USD" "EUR" [].
Proof.
  apply (get_rates_is_its_tier accepting world_no_file (init JNull)
           "2025-07-01" "2025-07-03" "USD" "EUR" []).
  intros t line. reflexivity.
Defined.

(** X2: the single-date path.  When both dates are the same string and the
    historical call answers 200 with a true [success] and a quote [v] for
    the pair, [get_rates] returns the success whose series has the one entry
    [date -> {to: v}] and whose base is the source currency; the historical
    request (timeout 10) is the only thing that happened. *)
Theorem single_date_one_entry : forall (o : oracle) (self : service)
    date from_currency to_currency (t : list event) (d q : dict json) (v : json),
  http o t (historical_request self date from_currency to_currency 10)
  = Response 200 (inr (JDict d)) ->
  truthy (dict_get_default "success" (JBool false) d) = true ->
  dict_get "quotes" d = Some (JDict q) ->
  dict_get (from_currency ++ to_currency) q = Some v ->
  get_rates o self date date from_currency to_currency t
  = (Ret (success_result (JStr from_currency) [(date, JDict [(to_currency, v)])]),
     (t ++ [Get (historical_request self date from_currency to_currency 10)])%list).
Proof.
  intros o self date from_currency to_currency t d q v Hans Hsucc Hq Hv.
  unfold historical_request in *.
  unfold get_rates, try_except. rewrite String.eqb_refl. cbn [negb].
  unfold _get_historical_rate, try_except.
  unfold World.bind at 1. unfold requests_get. rewrite Hans.
  cbn [Z.eqb Pos.eqb]. unfold World.bind, response_json, ret, lift, has_quotes.
  cbn [py_get Py.bind]. rewrite Hsucc. cbn [py_in]. unfold dict_mem.
  rewrite Hq. cbn [py_getitem]. unfold dict_getitem. rewrite Hq.
  cbn [py_in]. unfold dict_mem. rewrite Hv. cbn [py_getitem].
  unfold dict_getitem. rewrite Hv. reflexivity.
Qed.

Lemma single_date_one_entry_witness :
  get_rates world_single_quote (init JNull)
    "2025-07-01" "2025-07-01" "USD" "EUR" []
  = (Ret (success_result (JStr "USD")
            [("2025-07-01", JDict [("EUR", JFloat (dec 9 10))])]),
     [Get (historical_request (init JNull) "2025-07-01" "USD" "EUR" 10)]).
Proof.
  apply (single_date_one_entry world_single_quote (init JNull)
           "2025-07-01" "USD" "EUR" [] payload_single_quote
           [("USDEUR", JFloat (dec 9 10))]); reflexivity.
Defined.

Lemma for_each_timeframe_reshape : forall from_currency to_currency quotes acc,
  quotes_by_date quotes ->
  NoDup (keys quotes) ->
  (forall k, In k (keys quotes) -> ~ In k (keys acc)) ->
  for_each (timeframe_step from_currency to_currency) quotes acc
  = Ret (acc ++ reshape from_currency to_currency quotes)%list.
Proof.
  intros from_currency to_currency quotes.
  induction quotes as [| [k v] quotes IH]; intros acc Hq Hnd Hfresh.
  - simpl. now rewrite app_nil_r.
  - unfold quotes_by_date in Hq. cbn [map snd keys fst] in *.
    inversion Hq as [| ? ? [qd ->] Hq']; subst.
    inversion Hnd as [| ? ? Hk Hnd']; subst.
    cbn [for_each reshape]. unfold timeframe_step at 1.
    cbn [py_in Py.bind]. unfold dict_mem.
    destruct (dict_get (from_currency ++ to_currency) qd) as [x |] eqn:Hx.
    + cbn [py_getitem]. unfold dict_getitem. rewrite Hx. cbn [Py.bind].
      rewrite dict_set_fresh by (apply Hfresh; now left).
      rewrite IH; auto.
      * now rewrite <- app_assoc.
      * intros k' Hin Hacc. unfold keys in Hacc. rewrite map_app in Hacc.
        apply in_app_or in Hacc. destruct Hacc as [Hacc | Hacc].
        -- eapply Hfresh; [right; exact Hin | exact Hacc].
        -- simpl in Hacc. destruct Hacc as [-> | []]. contradiction.
    + cbn [Py.bind]. apply IH; auto.
      intros k' Hin. apply Hfresh. now right.
Qed.

(** X3: the timeframe path.  When the dates differ and the timeframe call
    answers 200 with a true [success] and quotes keyed by date, [get_rates]
    returns the reshaped quotes: one entry [date -> {to: quote}] per date
    whose quotes carry the pair, in the order of the response, the other
    dates being dropped; the timeframe request is the only one sent. *)
Theorem timeframe_quotes_reshaped : forall (o : oracle) (self : service)
    start_date end_date from_currency to_currency (t : list event)
    (d q : dict json),
  String.eqb start_date end_date = false ->
  http o t (timeframe_request self start_date end_date from_currency to_currency)
  = Response 200 (inr (JDict d)) ->
  truthy (dict_get_default "success" (JBool false) d) = true ->
  dict_get "quotes" d = Some (JDict q) ->
  quotes_by_date q -> NoDup (keys q) ->
  get_rates o self start_date end_date from_currency to_currency t
  = (Ret (success_result (JStr from_currency)
            (reshape from_currency to_currency q)),
     (t ++ [Get (timeframe_request self start_date end_date
                   from_currency to_currency)])%list).
Proof.
  intros o self start_date end_date from_currency to_currency t d q
    Hne Hans Hsucc Hq Hdicts Hnd.
  unfold timeframe_request in *.
  unfold get_rates, try_except. rewrite Hne. cbn [negb].
  unfold _get_timeframe_rates, try_except.
  unfold World.bind at 1. unfold requests_get. rewrite Hans.
  cbn [Z.eqb Pos.eqb]. unfold World.bind, response_json, ret, lift, has_quotes.
  cbn [py_get Py.bind]. rewrite Hsucc. cbn [py_in]. unfold dict_mem.
  rewrite Hq. cbn [py_getitem]. unfold dict_getitem. rewrite Hq.
  cbn [py_items].
  rewrite (for_each_timeframe_reshape from_currency to_currency q []); auto.
Qed.

Lemma timeframe_quotes_reshaped_witness :
  get_rates world_in_range (init JNull) "2025-07-01" "2025-07-03" "USD" "EUR" []
  = (Ret (success_result (JStr "USD")
            [("2025-07-01", JDict [("EUR", JFloat (dec 9 10))]);
             ("2025-07-02", JDict [("EUR", JFloat (dec 91 100))])]),
     [Get (timeframe_request (init JNull)
             "2025-07-01" "2025-07-03" "USD" "EUR")]).
Proof.
  apply (timeframe_quotes_reshaped world_in_range (init JNull)
           "2025-07-01" "2025-07-03" "USD" "EUR" []
           [("success", JBool true);
            ("quotes",
             JDict [("2025-07-01", JDict [("USDEUR", JFloat (dec 9 10))]);
                    ("2025-07-02", JDict [("USDEUR", JFloat (dec 91 100))])])]
           [("2025-07-01", JDict [("USDEUR", JFloat (dec 9 10))]);
            ("2025-07-02", JDict [("USDEUR", JFloat (dec 91 100))])]);
    try reflexivity.
  - repeat constructor; eexists; reflexivity.
  - repeat constructor; simpl; intuition discriminate.
Defined.

(** X4: a success that the day-by-day tier builds itself is never empty.
    On every console and in every world, a result that the tier returns is
    either a success with at least one rate and the source currency as base,
    or what [_load_fallback_data] returned. *)
Theorem day_by_day_success_not_empty :
  forall (out : console) (o : oracle) (self : service)
    start_date end_date from_currency to_currency (t t' : list event) r,
  ServiceOnConsole._get_rates_day_by_day out o self
    start_date end_date from_currency to_currency t
  = (Ret r, t') ->
  (exists rs, rs <> [] /\ r = success_result (JStr from_currency) rs) \/
  (exists t1,
     ServiceOnConsole._load_fallback_data out o self start_date end_date t1
     = (Ret r, t')).
Proof.
  intros out o self start_date end_date from_currency to_currency t t' r Hrun.
  unfold ServiceOnConsole._get_rates_day_by_day, try_except in Hrun.
  match type of Hrun with
  | (match ?body t with _ => _ end) = _ =>
      destruct (body t) as [[a | e |] t1] eqn:Ebody
  end.
  - left. inversion Hrun; subst a t1. clear Hrun.
    revert Ebody. generalize t' as t2. revert r. generalize t as t0.
    match goal with
    | |- forall t0 r t2, ?body t0 = (Ret r, t2) -> ?Q =>
        change (post body (fun r => Q))
    end.
    do 4 post_step.
    + apply post_raise.
    + apply post_ret. eexists. split; [| reflexivity]. discriminate.
  - right. unfold World.bind, say in Hrun.
    destruct (out t1 _); [discriminate Hrun | eauto].
  - discriminate.
Qed.

Lemma day_by_day_success_not_empty_witness :
  (exists rs,
     rs <> [] /\
     success_result (JStr "USD")
       [("2025-07-01", JDict [("EUR", JFloat (dec 9 10))]);
        ("2025-07-02", JDict [("EUR", JFloat (dec 9 10))])]
     = success_result (JStr "USD") rs) \/
  (exists t1,
     ServiceOnConsole._load_fallback_data closed_pipe world_single_quote
       (init JNull) "2025-07-01" "2025-07-02" t1
     = (Ret (success_result (JStr "USD")
               [("2025-07-01", JDict [("EUR", JFloat (dec 9 10))]);
                ("2025-07-02", JDict [("EUR", JFloat (dec 9 10))])]),
        [Get (historical_request (init JNull) "2025-07-01" "USD" "EUR" 5);
         Get (historical_request (init JNull) "2025-07-02" "USD" "EUR" 5)])).
Proof.
  apply (day_by_day_success_not_empty closed_pipe world_single_quote
           (init JNull) "2025-07-01" "2025-07-02" "USD" "EUR" []).
  reflexivity.
Defined.

Lemma day_loop_to_max_date : forall o self fuel from_currency to_currency
    current rates,
  valid current ->
  post (day_loop o self fuel max_date from_currency to_currency current rates)
       (fun _ => False).
Proof.
  intros o self. induction fuel as [| fuel IH];
    intros from_currency to_currency current rates Hc.
  - cbn [day_loop]. intros t r t' H. discriminate H.
  - cbn [day_loop].
    assert (Hmax : valid max_date) by (unfold valid; cbn; lia).
    assert (Hle : Dates.leb current max_date = true).
    { apply leb_rank; auto.
      destruct current as [y m d]. destruct Hc as (Hy & Hm & Hd).
      cbn [year month day] in *.
      pose proof (days_in_month_bounds y m). unfold rank, max_date. cbn. lia. }
    rewrite Hle.
    post_step. destruct a as [status_code body].
    eapply post_bind with (P := fun _ => True).
    + intros ? ? ? _. exact I.
    + intros rates' _.
      eapply post_bind with (P := fun c' => next_day current = Ret c');
        [apply post_lift; auto |].
      intros c' Hnext. apply IH.
      now destruct (next_day_valid _ _ Hc Hnext).
Qed.



Lemma for_each_fallback_outside : forall start end_ items acc,
  (forall d, valid d -> Dates.leb start d && Dates.leb d end_ = false) ->
  Forall (fun k => exists d, strptime k = Ret d) (keys items) ->
  for_each (fallback_step start end_) items acc = Ret acc.
Proof.
  intros start end_ items acc Hout.
  induction items as [| [k v] items IH]; intros Hparse.
  - reflexivity.
  - cbn [for_each keys map fst] in *.
    inversion Hparse as [| ? ? [d Hd] Hparse']; subst.
    unfold fallback_step at 1. rewrite Hd. cbn [Py.bind].
    rewrite Hout by (eapply strptime_valid; eauto).
    cbn [Py.bind]. now apply IH.
Qed.



(** X7: the slice of the fallback file.  With valid dates and a table of
    distinct date keys, [_load_fallback_data] returns the entries of the
    table dated within the range, in the order of the file; the base is the
    file's [base] entry and 'USD' when the file has none; the file is read
    once and nothing is printed. *)
Theorem fallback_slice_and_default_base : forall (o : oracle) (self : service)
    start_date end_date start end_ (data table : dict json) (t : list event),
  strptime start_date = Ret start -> strptime end_date = Ret end_ ->
  open_json o t (fallback_file self) = inr (JDict data) ->
  dict_get "rates" data = Some (JDict table) ->
  NoDup (keys table) ->
  Forall (fun k => exists d, strptime k = Ret d) (keys table) ->
  _load_fallback_data o self start_date end_date t
  = (Ret (success_result
            (match dict_get "base" data with Some b => b | None => JStr "USD" end)
            (restrict start end_ table)),
     (t ++ [Open (fallback_file self)])%list).
Proof.
  intros o self start_date end_date start end_ data table t
    Hs He Hfile Htable Hnd Hparse.
  unfold _load_fallback_data, try_except, load_fallback_try.
  unfold World.bind at 1. unfold load_json. rewrite Hfile.
  unfold World.bind, lift. rewrite Hs, He.
  cbn [py_getitem]. unfold dict_getitem. rewrite Htable.
  cbn [py_items].
  rewrite (for_each_fallback_restrict start end_ table []); auto.
Qed.

Lemma fallback_slice_and_default_base_witness :
  _load_fallback_data world_no_base (init JNull) "2025-07-01" "2025-07-03" []
  = (Ret (success_result (JStr "USD")
            [("2025-07-01", JDict [("EUR", JFloat (dec 9 10))])]),
     [Open "data/sample_api.json"]).
Proof.
  apply (fallback_slice_and_default_base world_no_base (init JNull)
           "2025-07-01" "2025-07-03" (mk_date 2025 7 1) (mk_date 2025 7 3)
           [("rates",
             JDict [("2025-07-01", JDict [("EUR", JFloat (dec 9 10))]);
                    ("2025-07-09", JDict [("EUR", JFloat (dec 92 100))])])]
           [("2025-07-01", JDict [("EUR", JFloat (dec 9 10))]);
            ("2025-07-09", JDict [("EUR", JFloat (dec 92 100))])]
           []); try reflexivity.
  - repeat constructor; simpl; intuition discriminate.
  - repeat constructor; eexists; reflexivity.
Defined.



Lemma for_each_fallback_bad_key : forall start end_ items acc k e,
  In k (keys items) -> strptime k = Raise e ->
  exists k' e',
    In k' (keys items) /\ strptime k' = Raise e' /\
    for_each (fallback_step start end_) items acc = Raise e'.
Proof.
  intros start end_ items.
  induction items as [| [k0 v0] items IH]; intros acc k e Hin Hbad.
  - contradiction.
  - cbn [for_each keys map fst] in *.
    unfold fallback_step at 1.
    pose proof (strptime_ends k0) as Hends.
    destruct (strptime k0) as [d | e0 |] eqn:Hd; try congruence.
    + destruct Hin as [-> | Hin]; [congruence |].
      cbn [Py.bind].
      destruct (Dates.leb start d && Dates.leb d end_); cbn [Py.bind];
        match goal with
        | |- context [for_each _ items ?acc'] =>
            destruct (IH acc' k e Hin Hbad) as (k' & e' & Hin' & Hbad' & Hrun)
        end;
        exists k', e'; (split; [now right | split; assumption]).
    + exists k0, e0. split; [now left | split; [exact Hd | reflexivity]].
Qed.

(** X9: one key of the table that is not a date makes the whole fallback
    fail, also when that key is outside the range asked.  With a table whose
    keys are ASCII texts, there is a key that [strptime] does not read, and
    [_load_fallback_data] ends on its parse error: when the console takes
    the diagnostic, the result is the failure that carries the text of that
    error; when the console refuses it, the exception of [print] leaves the
    method. *)
Theorem fallback_bad_key_fails :
  forall (out : console) (o : oracle) (self : service)
    start_date end_date start end_ (data table : dict json) k e
    (t : list event),
  strptime start_date = Ret start -> strptime end_date = Ret end_ ->
  open_json o t (fallback_file self) = inr (JDict data) ->
  dict_get "rates" data = Some (JDict table) ->
  Forall (fun key => is_ascii key = true) (keys table) ->
  In k (keys table) -> strptime k = Raise e ->
  exists k' e',
    In k' (keys table) /\ strptime k' = Raise e' /\
    ServiceOnConsole._load_fallback_data out o self start_date end_date t
    = match out (t ++ [Open (fallback_file self)])%list
              ("Fallback data loading failed: " ++ message e') with
      | None =>
          (Ret (failure_result (message e')),
           (t ++ [Open (fallback_file self);
                  Print ("Fallback data loading failed: " ++ message e')])%list)
      | Some refused => (Raise refused, (t ++ [Open (fallback_file self)])%list)
      end.
Proof.
  intros out o self start_date end_date start end_ data table k e t
    Hs He Hfile Htable Hascii Hin Hbad.
  destruct (for_each_fallback_bad_key start end_ table [] k e Hin Hbad)
    as (k' & e' & Hin' & Hbad' & Hrun).
  exists k', e'. repeat split; auto.
  unfold ServiceOnConsole._load_fallback_data, try_except, load_fallback_try.
  unfold World.bind at 1. unfold load_json. rewrite Hfile.
  unfold World.bind, lift. rewrite Hs, He.
  cbn [py_getitem]. unfold dict_getitem. rewrite Htable.
  cbn [py_items]. rewrite Hrun. unfold say, ret.
  destruct (out _ _); [reflexivity |].
  now rewrite <- app_assoc.
Qed.

Lemma fallback_bad_key_fails_witness :
  exists k' e',
    In k' ["2025-07-01"; "updated"] /\ strptime k' = Raise e' /\
    ServiceOnConsole._load_fallback_data accepting world_bad_key (init JNull)
      "2025-07-01" "2025-07-03" []
    = (Ret (failure_result (message e')),
       [Open "data/sample_api.json";
        Print ("Fallback data loading failed: " ++ message e')]).
Proof.
  apply (fallback_bad_key_fails accepting world_bad_key (init JNull)
           "2025-07-01" "2025-07-03" (mk_date 2025 7 1) (mk_date 2025 7 3)
           [("base", JStr "USD");
            ("rates",
             JDict [("2025-07-01", JDict [("EUR", JFloat (dec 9 10))]);
                    ("updated", JStr "2025-07-09")])]
           [("2025-07-01", JDict [("EUR", JFloat (dec 9 10))]);
            ("updated", JStr "2025-07-09")]
           "updated"
           (mk_exc ValueError
              "time data 'updated' does not match format '%Y-%m-%d'")
           []); try reflexivity.
  - repeat constructor.
  - right. now left.
Defined.

(** * Further properties of the calculator *)

(** X10: [breakdown] is a switch.  On a successful non-empty series a mode
    other than 'day' gives the totals alone, and they are the totals of the
    'day' mode; the 'day' mode adds one breakdown entry per date. *)
Theorem breakdown_is_a_switch : forall (rd : rates_data (dict float))
    (r : dict (dict float)) to_currency breakdown,
  success rd = true -> rates rd = Some r -> r <> [] ->
  String.eqb breakdown "day" = false ->
  exists totals entries,
    process_rates_data rd to_currency breakdown
    = Ret (JDict [("totals", totals)]) /\
    process_rates_data rd to_currency "day"
    = Ret (JDict [("totals", totals); ("breakdown", JList entries)]) /\
    List.length entries = List.length r.
Proof.
  intros rd r to_currency breakdown Hs Hr Hne Hmode.
  rewrite !(process_rates_data_spec rd r) by assumption.
  unfold stats_from. rewrite Hmode. cbn [String.eqb Ascii.eqb Bool.eqb].
  do 2 eexists. split; [reflexivity |]. split; [reflexivity |].
  assert (Hlen : forall series prev,
            List.length (breakdown_from prev series) = List.length series).
  { induction series as [| [d x] series IH]; intros prev; simpl; auto. }
  rewrite Hlen, length_map. unfold sorted, keys.
  rewrite <- (Permutation_length (StringSort.Permuted_sort (map fst r))).
  apply length_map.
Qed.

Lemma breakdown_is_a_switch_witness :
  exists totals entries,
    process_rates_data (success_result (JStr "USD") example_series) "EUR" "none"
    = Ret (JDict [("totals", totals)]) /\
    process_rates_data (success_result (JStr "USD") example_series) "EUR" "day"
    = Ret (JDict [("totals", totals); ("breakdown", JList entries)]) /\
    List.length entries = List.length example_series.
Proof.
  assert (Hne : example_series <> []) by discriminate.
  exact (breakdown_is_a_switch (success_result (JStr "USD") example_series)
           example_series "EUR" "none" eq_refl eq_refl Hne eq_refl).
Defined.

Lemma breakdown_from_nth : forall (f : string -> float) l1 d1 d2 l2 prev,
  nth_error (breakdown_from prev
               (map (fun d => (d, f d)) (l1 ++ d1 :: d2 :: l2)))
            (S (List.length l1))
  = Some (JDict [("date", JStr d2); ("rate", JFloat (py_round (f d2) 5));
                 ("pct_change", pct_field (pct_value (f d1) (f d2)))]).
Proof.
  intros f l1 d1 d2 l2. induction l1 as [| d l1 IH]; intros prev.
  - reflexivity.
  - cbn [app map breakdown_from List.length nth_error]. apply IH.
Qed.

(** X11: the undefined change.  When the rate of a day is zero (or the day
    does not quote the currency) and the rate of the next day, in date order,
    is not zero, the entry of the next day carries the change 'N/A'. *)
Theorem change_from_zero_is_marked : forall (rd : rates_data (dict float))
    (r : dict (dict float)) to_currency l1 d1 d2 l2,
  success rd = true -> rates rd = Some r ->
  sorted (keys r) = (l1 ++ d1 :: d2 :: l2)%list ->
  (rate_of r to_currency d1 =? 0)%float = true ->
  (rate_of r to_currency d2 =? 0)%float = false ->
  exists totals entries,
    process_rates_data rd to_currency "day"
    = Ret (JDict [("totals", totals); ("breakdown", JList entries)]) /\
    nth_error entries (S (List.length l1))
    = Some (JDict [("date", JStr d2);
                   ("rate", JFloat (py_round (rate_of r to_currency d2) 5));
                   ("pct_change", JStr "N/A")]).
Proof.
  intros rd r to_currency l1 d1 d2 l2 Hs Hr Hsorted Hz1 Hz2.
  assert (Hne : r <> []).
  { intros ->. cbn in Hsorted. destruct l1; discriminate. }
  rewrite (process_rates_data_spec rd r) by assumption.
  unfold stats_from. cbn [String.eqb Ascii.eqb Bool.eqb].
  do 2 eexists. split; [reflexivity |].
  rewrite Hsorted, breakdown_from_nth.
  unfold pct_value. rewrite Hz1, Hz2. reflexivity.
Qed.

Lemma change_from_zero_is_marked_witness :
  exists totals entries,
    process_rates_data
      (success_result (JStr "USD")
         [("2025-07-02", [("EUR", dec 9 10)]); ("2025-07-01", [("GBP", dec 8 10)])])
      "EUR" "day"
    = Ret (JDict [("totals", totals); ("breakdown", JList entries)]) /\
    nth_error entries 1
    = Some (JDict [("date", JStr "2025-07-02");
                   ("rate", JFloat (py_round (dec 9 10) 5));
                   ("pct_change", JStr "N/A")]).
Proof.
  exact (change_from_zero_is_marked
           (success_result (JStr "USD")
              [("2025-07-02", [("EUR", dec 9 10)]);
               ("2025-07-01", [("GBP", dec 8 10)])])
           [("2025-07-02", [("EUR", dec 9 10)]);
            ("2025-07-01", [("GBP", dec 8 10)])]
           "EUR" [] "2025-07-01" "2025-07-02" []
           eq_refl eq_refl eq_refl eq_refl eq_refl).
Defined.

(** ** The two embeddings of the calculator agree on float rates *)

Lemma dict_get_series_json : forall (r : dict (dict float)) k,
  dict_get k (series_json r) = option_map day_json (dict_get k r).
Proof.
  induction r as [| [k0 day] r IH]; intros k; simpl.
  - reflexivity.
  - destruct (String.eqb k k0); [reflexivity | apply IH].
Qed.

Lemma keys_series_json : forall r : dict (dict float),
  keys (series_json r) = keys r.
Proof.
  intros r. unfold keys, series_json. rewrite map_map. now apply map_ext.
Qed.

Lemma dict_get_day_json : forall (entry : dict float) k,
  dict_get k (map (fun p => (fst p, JFloat (snd p))) entry)
  = option_map JFloat (dict_get k entry).
Proof.
  induction entry as [| [k0 x] entry IH]; intros k; simpl.
  - reflexivity.
  - destruct (String.eqb k k0); [reflexivity | apply IH].
Qed.

Lemma list_index_floats : forall (l : list float) i,
  list_index (map JFloat l) i
  = Py.bind (py_index l i) (fun x => Ret (JFloat x)).
Proof.
  intros l i. unfold list_index, py_index. rewrite length_map.
  destruct ((0 <=? (if i <? 0 then i + Z.of_nat (List.length l) else i))
            && ((if i <? 0 then i + Z.of_nat (List.length l) else i)
                <? Z.of_nat (List.length l))); [| reflexivity].
  rewrite nth_error_map.
  destruct (nth_error l _); reflexivity.
Qed.

Lemma calculate_percentage_change_dyn_floats : forall a b : float,
  calculate_percentage_change_dyn (JFloat a) (JFloat b)
  = calculate_percentage_change a b.
Proof.
  intros a b.
  unfold calculate_percentage_change_dyn, calculate_percentage_change.
  unfold py_eq_zero. cbn [as_num].
  destruct (a =? 0)%float eqn:Ha; [reflexivity |].
  unfold py_sub, py_truediv_by, py_truediv. cbn [as_num num_sub to_float Py.bind].
  cbn [num_truediv to_float Py.bind]. rewrite Ha. reflexivity.
Qed.

Lemma day_step_dyn_floats : forall (r : dict (dict float)) to_currency i date
    daily_data (rate_values : list float),
  quoted to_currency r ->
  day_step_dyn (series_json r) to_currency i date
    (daily_data, map JFloat rate_values)
  = Py.bind (day_step r to_currency i date (daily_data, rate_values))
      (fun st => Ret (fst st, map JFloat (snd st))).
Proof.
  intros r to_currency i date daily_data rate_values Hq.
  unfold day_step_dyn, day_step, dict_getitem.
  rewrite dict_get_series_json.
  destruct (dict_get date r) as [day |] eqn:Hday; [| reflexivity].
  cbn [option_map Py.bind].
  assert (Hmem : dict_mem to_currency day = true).
  { unfold quoted in Hq. rewrite Forall_forall in Hq.
    apply (Hq (date, day)). now apply dict_get_Some_In. }
  unfold dict_mem in Hmem.
  destruct (dict_get to_currency day) as [x |] eqn:Hx; [| discriminate].
  unfold day_json. cbn [py_get]. unfold dict_get_default.
  rewrite dict_get_day_json, Hx. cbn [option_map Py.bind].
  change [JFloat x] with (map JFloat [x]). rewrite <- map_app.
  assert (Hpct :
    (if 0 <? i
     then Py.bind (list_index (map JFloat (rate_values ++ [x])) (i - 1))
            (fun prev_rate =>
               calculate_percentage_change_dyn prev_rate (JFloat x))
     else Ret 0%float)
    = (if 0 <? i
       then Py.bind (py_index (rate_values ++ [x]) (i - 1))
              (fun prev_rate => calculate_percentage_change prev_rate x)
       else Ret 0%float)).
  { destruct (0 <? i); [| reflexivity].
    rewrite list_index_floats.
    destruct (py_index (rate_values ++ [x]) (i - 1)); cbn [Py.bind];
      first [apply calculate_percentage_change_dyn_floats | reflexivity]. }
  rewrite Hpct. clear Hpct.
  destruct (0 <? i); [| reflexivity].
  destruct (py_index (rate_values ++ [x]) (i - 1)) as [prev | e |];
    cbn [Py.bind]; try reflexivity.
  destruct (calculate_percentage_change prev x) as [pct | e |]; reflexivity.
Qed.

Lemma enumerate_loop_dyn_floats : forall (r : dict (dict float)) to_currency
    dates i daily_data (rate_values : list float),
  quoted to_currency r ->
  enumerate_loop_dyn (series_json r) to_currency i dates
    (daily_data, map JFloat rate_values)
  = Py.bind (enumerate_loop r to_currency i dates (daily_data, rate_values))
      (fun st => Ret (fst st, map JFloat (snd st))).
Proof.
  intros r to_currency dates.
  induction dates as [| date dates IH]; intros i daily_data rate_values Hq.
  - reflexivity.
  - cbn [enumerate_loop_dyn enumerate_loop].
    rewrite day_step_dyn_floats by assumption.
    destruct (day_step r to_currency i date (daily_data, rate_values))
      as [[dd rv] | e |]; cbn [Py.bind fst snd]; try reflexivity.
    now apply IH.
Qed.

Lemma sum_from_floats : forall (l : list float) (a : float),
  sum_from (NFloat a) (map JFloat l) = Ret (NFloat (fold_left PrimFloat.add l a)).
Proof.
  induction l as [| x l IH]; intros a.
  - reflexivity.
  - cbn [map sum_from as_num num_add to_float Py.bind fold_left]. apply IH.
Qed.

Lemma py_sum_dyn_floats : forall (x : float) (l : list float),
  py_sum_dyn (map JFloat (x :: l)) = Ret (NFloat (py_sum (x :: l))).
Proof.
  intros x l. unfold py_sum_dyn, py_sum.
  cbn [map sum_from as_num num_add]. unfold to_float at 1.
  change (float_of_int 0) with (@Ret float 0%float).
  cbn [Py.bind to_float fold_left]. apply sum_from_floats.
Qed.

Lemma process_rates_data_dyn_floats : forall (rd : rates_data (dict float))
    (r : dict (dict float)) to_currency breakdown,
  rates rd = Some r -> quoted to_currency r ->
  process_rates_data_dyn (rates_data_json rd) to_currency breakdown
  = process_rates_data rd to_currency breakdown.
Proof.
  intros rd r to_currency breakdown Hr Hq.
  unfold process_rates_data_dyn, process_rates_data, rates_data_json.
  cbn [success rates]. rewrite Hr. cbn [option_map].
  destruct (negb (success rd)); [reflexivity |].
  destruct r as [| kv r']; [reflexivity |].
  set (r := kv :: r') in *.
  assert (Hcons : exists kv' r'', series_json r = kv' :: r'')
    by (subst r; cbn; eauto).
  destruct Hcons as (kv' & r'' & Hcons).
  assert (Hshape : forall (X : Type) (a b : X),
            match series_json r with [] => a | _ :: _ => b end = b)
    by (intros; now rewrite Hcons).
  rewrite Hshape. rewrite keys_series_json.
  change (@nil json) with (map JFloat []) at 2.
  rewrite enumerate_loop_dyn_floats by assumption.
  rewrite (enumerate_loop_spec r to_currency (sorted (keys r)) 0 [] []);
    [| intros d Hd; now apply sorted_In | reflexivity].
  cbn [Py.bind fst snd app].
  set (rv := map (rate_of r to_currency) (sorted (keys r))).
  assert (Hrv : rv <> []).
  { subst rv. intros Hnil. apply map_eq_nil in Hnil. revert Hnil.
    apply sorted_nonempty. subst r. destruct kv. discriminate. }
  destruct rv as [| v0 vs]; [congruence |].
  - cbn [map]. rewrite <- (map_cons JFloat v0 vs).
    rewrite !list_index_floats.
    destruct (py_index (v0 :: vs) 0) as [s0 | e |]; cbn [Py.bind];
      try reflexivity.
    destruct (py_index (v0 :: vs) (-1)) as [s1 | e |]; cbn [Py.bind];
      try reflexivity.
    rewrite calculate_percentage_change_dyn_floats.
    destruct (calculate_percentage_change s0 s1) as [p | e |]; cbn [Py.bind];
      try reflexivity.
    rewrite py_sum_dyn_floats. cbn [Py.bind num_truediv_len].
    rewrite length_map.
    destruct (py_truediv_len (py_sum (v0 :: vs)) (List.length (v0 :: vs)))
      as [m | e |]; reflexivity.
Qed.

(** X12: the calculator on the values of [get_rates] and the calculator on a
    typed series agree: when every day is a dictionary of float rates that
    quotes the currency, both return the same document or raise the same
    exception. *)
Theorem calculator_agrees_on_floats : forall (rd : rates_data (dict float))
    (r : dict (dict float)) to_currency breakdown,
  rates rd = Some r -> quoted to_currency r ->
  process_rates_data_dyn (rates_data_json rd) to_currency breakdown
  = process_rates_data rd to_currency breakdown.
Proof.
  intros rd r to_currency breakdown Hr Hq.
  now apply (process_rates_data_dyn_floats rd r).
Qed.

Lemma calculator_agrees_on_floats_witness :
  process_rates_data_dyn
    (rates_data_json (success_result (JStr "USD") example_series)) "EUR" "day"
  = process_rates_data (success_result (JStr "USD") example_series) "EUR" "day".
Proof.
  apply (calculator_agrees_on_floats
           (success_result (JStr "USD") example_series) example_series
           "EUR" "day" eq_refl).
  repeat constructor.
Defined.

(** * When the remote service is down, the answer is the fallback's *)

Section EndsLike.
Context {A : Type}.

Lemma ends_like_trans : forall (c1 c2 c3 : M A),
  ends_like c2 c1 -> ends_like c3 c2 -> ends_like c3 c1.
Proof.
  intros c1 c2 c3 H12 H23 t.
  destruct (H12 t) as [t1 E1]. destruct (H23 t1) as [t2 E2].
  exists t2. congruence.
Qed.

Lemma ends_like_after_print : forall (target : M A) line,
  ends_like target (World.bind (print line) (fun _ => target)).
Proof. intros target line t. unfold World.bind, print. eauto. Qed.

(** A [try] whose body raises or ends like [target], and whose handler ends
    like [target], ends like [target] when [target] returns. *)
Lemma ends_like_try : forall (target body : M A) (h : exc -> M A),
  returns target ->
  raises_or_ends_like target body ->
  (forall e, ends_like target (h e)) ->
  ends_like target (try_except body h).
Proof.
  intros target body h Hret Hbody Hh t. unfold try_except.
  destruct (Hbody t) as [(e & t1 & E) | (t1 & E)].
  - rewrite E. apply Hh.
  - rewrite E. destruct (Hret t1) as (a & t2 & E2). rewrite E2. eauto.
Qed.

Lemma never_returns_raises : forall (target body : M A),
  terminates body -> post body (fun _ => False) ->
  raises_or_ends_like target body.
Proof.
  intros target body Hterm Hpost t. left.
  pose proof (Hterm t) as Ht.
  destruct (body t) as [[a | e |] t1] eqn:E; simpl in Ht.
  - destruct (Hpost _ _ _ E).
  - eauto.
  - congruence.
Qed.

End EndsLike.

Lemma raises_or_ends_like_bind : forall (A B : Type) (target : M B)
    (c : M A) (k : A -> M B) (P : A -> Prop),
  terminates c -> post c P ->
  (forall a, P a -> raises_or_ends_like target (k a)) ->
  raises_or_ends_like target (World.bind c k).
Proof.
  intros A B target c k P Hterm Hpost Hk t. unfold World.bind.
  pose proof (Hterm t) as Ht.
  destruct (c t) as [[a | e |] t1] eqn:E; simpl in Ht.
  - apply Hk. eapply Hpost. exact E.
  - left. eauto.
  - congruence.
Qed.

Section RemoteDownEndsInFallback.
Variable o : oracle.
Variable self : service.
Hypothesis Hdown : forall t r, remote_fails (http o t r) = true.

Lemma day_by_day_ends_in_fallback :
  forall start_date end_date from_currency to_currency,
  ends_like (_load_fallback_data o self start_date end_date)
    (_get_rates_day_by_day o self start_date end_date
       from_currency to_currency).
Proof.
  intros. unfold _get_rates_day_by_day. apply ends_like_try.
  - apply load_fallback_data_returns.
  - apply never_returns_raises.
    + eapply terminates_bind with (P := valid).
      * repeat ends_step.
      * apply post_lift. intros d Hd. eapply strptime_valid; eauto.
      * intros start Hstart.
        eapply terminates_bind with (P := valid).
        -- repeat ends_step.
        -- apply post_lift. intros d Hd. eapply strptime_valid; eauto.
        -- intros end_ Hend. ends_step.
           ++ apply day_loop_terminates; auto.
           ++ repeat ends_step.
    + do 2 post_step.
      eapply post_bind with (P := fun r => r = []).
      * now apply day_loop_down.
      * intros r ->. apply post_raise.
  - intros e. apply ends_like_after_print.
Qed.

(** The test that guards the quotes is false on every answer. *)
Lemma guarded_block_down : forall (X : Type) u p tmo (k : Z * (exc + json) -> M X)
    (Q : X -> Prop),
  (forall st body, remote_fails (Response st body) = true -> post (k (st, body)) Q) ->
  post (World.bind (requests_get o u p tmo) k) Q.
Proof.
  intros X u p tmo k Q Hk.
  eapply post_bind with
    (P := fun a => remote_fails (Response (fst a) (snd a)) = true).
  - apply post_requests_get. intros t st body Hans. cbn [fst snd].
    rewrite <- Hans. apply Hdown.
  - intros [st body] Hfail. now apply Hk.
Qed.

Lemma historical_ends_in_fallback : forall date from_currency to_currency,
  ends_like (_load_fallback_data o self date date)
    (_get_historical_rate o self date from_currency to_currency).
Proof.
  intros. unfold _get_historical_rate. apply ends_like_try.
  - apply load_fallback_data_returns.
  - apply never_returns_raises.
    + ends_step; [ends_step |]. destruct a as [status_code body].
      repeat ends_step.
    + apply guarded_block_down. intros st body Hfail.
      eapply post_bind with (P := fun found => found = None).
      * destruct (st =? 200) eqn:Hst; [| now apply post_ret].
        eapply post_bind with (P := fun v => body = inr v).
        -- apply post_response_json. auto.
        -- intros v Hv.
           eapply post_bind with (P := fun ok => ok = false).
           ++ apply post_lift. intros ok Hok.
              eapply failing_answer_rejected; eauto.
           ++ intros ok ->. now apply post_ret.
      * intros found ->. apply post_raise.
  - intros e. apply ends_like_after_print.
Qed.

Lemma timeframe_ends_in_day_by_day :
  forall start_date end_date from_currency to_currency,
  ends_like (_get_rates_day_by_day o self start_date end_date
               from_currency to_currency)
    (_get_timeframe_rates o self start_date end_date
       from_currency to_currency).
Proof.
  intros. unfold _get_timeframe_rates. apply ends_like_try.
  - apply get_rates_day_by_day_returns.
  - eapply raises_or_ends_like_bind with
      (P := fun a => remote_fails (Response (fst a) (snd a)) = true).
    + apply terminates_requests_get.
    + apply post_requests_get. intros t st body Hans. cbn [fst snd].
      rewrite <- Hans. apply Hdown.
    + intros [st body] Hfail. cbn [fst snd] in Hfail.
      eapply raises_or_ends_like_bind with (P := fun found => found = None).
      * repeat ends_step.
      * destruct (st =? 200) eqn:Hst; [| now apply post_ret].
        eapply post_bind with (P := fun v => body = inr v).
        -- apply post_response_json. auto.
        -- intros v Hv.
           eapply post_bind with (P := fun ok => ok = false).
           ++ apply post_lift. intros ok Hok.
              eapply failing_answer_rejected; eauto.
           ++ intros ok ->. now apply post_ret.
      * intros found -> t. right. eauto.
  - intros e. apply ends_like_after_print.
Qed.

Lemma get_rates_ends_in_fallback :
  forall start_date end_date from_currency to_currency,
  ends_like (_load_fallback_data o self start_date end_date)
    (get_rates o self start_date end_date from_currency to_currency).
Proof.
  intros start_date end_date from_currency to_currency.
  assert (Htier : ends_like (_load_fallback_data o self start_date end_date)
            (if String.eqb start_date end_date
             then _get_historical_rate o self start_date from_currency to_currency
             else _get_timeframe_rates o self start_date end_date
                    from_currency to_currency)).
  { destruct (String.eqb_spec start_date end_date) as [<- | Hne].
    - apply historical_ends_in_fallback.
    - eapply ends_like_trans.
      + apply timeframe_ends_in_day_by_day.
      + apply day_by_day_ends_in_fallback. }
  intros t. destruct (Htier t) as [t1 E]. exists t1. rewrite <- E.
  unfold get_rates, try_except.
  destruct (String.eqb start_date end_date); cbn [negb].
  - destruct (get_historical_rate_returns o self start_date
                from_currency to_currency t) as (r & t' & Er).
    now rewrite Er.
  - destruct (get_timeframe_rates_returns o self start_date end_date
                from_currency to_currency t) as (r & t' & Er).
    now rewrite Er.
Qed.

End RemoteDownEndsInFallback.



(** * The calculator on arbitrary values: it ends, and what it returns *)

Lemma bind_ends : forall (X Y : Type) (c : outcome X) (k : X -> outcome Y),
  c <> Diverge -> (forall a, k a <> Diverge) -> Py.bind c k <> Diverge.
Proof.
  intros X Y c k Hc Hk. destruct c; simpl; [apply Hk | discriminate | congruence].
Qed.

Lemma bind_Ret_inv : forall (X Y : Type) (c : outcome X) (k : X -> outcome Y) y,
  Py.bind c k = Ret y -> exists a, c = Ret a /\ k a = Ret y.
Proof. intros X Y c k y H. destruct c; try discriminate. eauto. Qed.

Lemma float_of_int_ends : forall z, float_of_int z <> Diverge.
Proof.
  intros z. unfold float_of_int.
  destruct (binary_normalize prec emax z 0 false); discriminate.
Qed.

Lemma int_truediv_ends : forall a b, int_truediv a b <> Diverge.
Proof.
  intros a b. unfold int_truediv. destruct (b =? 0); [discriminate |].
  destruct (SFdiv_core_binary prec emax (Z.abs a) 0 (Z.abs b) 0) as [[q e] l].
  destruct (binary_round_aux prec emax _ q e l); discriminate.
Qed.

Lemma to_float_ends : forall x, to_float x <> Diverge.
Proof. intros [z | f]; [apply float_of_int_ends | discriminate]. Qed.

Lemma float_pair_ends : forall (X : Type) x y (k : float -> float -> outcome X),
  (forall a b, k a b <> Diverge) ->
  Py.bind (to_float x) (fun fa => Py.bind (to_float y) (fun fb => k fa fb))
  <> Diverge.
Proof.
  intros X x y k Hk. apply bind_ends; [apply to_float_ends |].
  intros a. apply bind_ends; [apply to_float_ends | apply Hk].
Qed.

Lemma num_sub_ends : forall x y, num_sub x y <> Diverge.
Proof.
  intros [a | a] [b | b]; unfold num_sub; try discriminate;
    apply float_pair_ends; discriminate.
Qed.

Lemma num_add_ends : forall x y, num_add x y <> Diverge.
Proof.
  intros [a | a] [b | b]; unfold num_add; try discriminate;
    apply float_pair_ends; discriminate.
Qed.

Lemma num_truediv_ends : forall x y, num_truediv x y <> Diverge.
Proof.
  intros [a | a] [b | b]; unfold num_truediv;
    try apply int_truediv_ends;
    apply float_pair_ends; intros fa fb; destruct (fb =? 0)%float; discriminate.
Qed.

Lemma calculate_percentage_change_dyn_ends : forall a b,
  calculate_percentage_change_dyn a b <> Diverge.
Proof.
  intros a b. unfold calculate_percentage_change_dyn.
  destruct (py_eq_zero a); [discriminate |].
  apply bind_ends.
  - unfold py_sub. destruct (as_num b); [| discriminate].
    destruct (as_num a); [apply num_sub_ends | discriminate].
  - intros d. apply bind_ends; [| discriminate].
    unfold py_truediv_by. destruct (as_num a); [apply num_truediv_ends | discriminate].
Qed.

Lemma py_round_dyn_ends : forall v n, py_round_dyn v n <> Diverge.
Proof. intros v n. destruct v; discriminate. Qed.

Lemma list_index_ends : forall l i, list_index l i <> Diverge.
Proof.
  intros l i. unfold list_index.
  match goal with
  | |- match ?x with _ => _ end <> _ => destruct x; discriminate
  end.
Qed.

Lemma dict_getitem_ends : forall (V : Type) k (d : dict V),
  dict_getitem k d <> Diverge.
Proof. intros V k d. unfold dict_getitem. destruct (dict_get k d); discriminate. Qed.

Lemma sum_from_ends : forall l acc, sum_from acc l <> Diverge.
Proof.
  induction l as [| v l IH]; intros acc; simpl; [discriminate |].
  destruct (as_num v); [| discriminate].
  apply bind_ends; [apply num_add_ends | apply IH].
Qed.

Lemma day_step_dyn_ends : forall rates to_currency i date st,
  day_step_dyn rates to_currency i date st <> Diverge.
Proof.
  intros rates to_currency i date [daily_data rate_values]. unfold day_step_dyn.
  apply bind_ends; [apply dict_getitem_ends |]. intros entry.
  apply bind_ends; [apply py_get_ends |]. intros rate.
  apply bind_ends.
  - destruct (0 <? i); [| discriminate].
    apply bind_ends; [apply list_index_ends |].
    intros prev. apply calculate_percentage_change_dyn_ends.
  - intros pct. apply bind_ends; [apply py_round_dyn_ends | discriminate].
Qed.

Lemma enumerate_loop_dyn_ends : forall rates to_currency dates i st,
  enumerate_loop_dyn rates to_currency i dates st <> Diverge.
Proof.
  intros rates to_currency dates.
  induction dates as [| date dates IH]; intros i st; simpl; [discriminate |].
  apply bind_ends; [apply day_step_dyn_ends | intros st'; apply IH].
Qed.

Lemma process_rates_data_dyn_ends : forall rd to_currency breakdown,
  process_rates_data_dyn rd to_currency breakdown <> Diverge.
Proof.
  intros rd to_currency breakdown. unfold process_rates_data_dyn.
  destruct (negb (success rd)); [discriminate |].
  destruct (match rates rd with Some r => r | None => [] end) as [| kv r'];
    [discriminate |].
  apply bind_ends; [apply enumerate_loop_dyn_ends |].
  intros [daily_data rate_values].
  apply bind_ends.
  { destruct rate_values; [discriminate | apply list_index_ends]. }
  intros start_rate. apply bind_ends.
  { destruct rate_values; [discriminate | apply list_index_ends]. }
  intros end_rate.
  apply bind_ends; [apply calculate_percentage_change_dyn_ends |].
  intros total. apply bind_ends.
  { destruct rate_values; [discriminate |].
    apply bind_ends; [apply sum_from_ends |]. intros x.
    apply bind_ends; [| discriminate].
    destruct x; [apply int_truediv_ends | discriminate]. }
  intros mean.
  apply bind_ends; [apply py_round_dyn_ends |]. intros r1.
  apply bind_ends; [apply py_round_dyn_ends |]. intros r2.
  apply bind_ends; [apply py_round_dyn_ends | discriminate].
Qed.

Lemma pct_field_is_change : forall p, is_change (pct_field p).
Proof.
  intros p. unfold pct_field, is_change.
  destruct (negb (p =? inf)%float); eauto.
Qed.

Lemma enumerate_loop_dyn_entries : forall rates to_currency dates i
    daily_data rate_values daily_data' rate_values',
  Forall is_entry daily_data ->
  enumerate_loop_dyn rates to_currency i dates (daily_data, rate_values)
  = Ret (daily_data', rate_values') ->
  Forall is_entry daily_data'.
Proof.
  intros rates to_currency dates.
  induction dates as [| date dates IH];
    intros i daily_data rate_values daily_data' rate_values' Hdd Hrun.
  - simpl in Hrun. now inversion Hrun; subst.
  - cbn [enumerate_loop_dyn] in Hrun.
    apply bind_Ret_inv in Hrun. destruct Hrun as ([dd rv] & Hstep & Hrun).
    eapply IH; [| exact Hrun].
    unfold day_step_dyn in Hstep.
    apply bind_Ret_inv in Hstep. destruct Hstep as (entry & _ & Hstep).
    apply bind_Ret_inv in Hstep. destruct Hstep as (rate & _ & Hstep).
    apply bind_Ret_inv in Hstep. destruct Hstep as (pct & _ & Hstep).
    apply bind_Ret_inv in Hstep. destruct Hstep as (rounded & _ & Hstep).
    inversion Hstep; subst.
    apply Forall_app. split; [assumption |].
    constructor; [| constructor].
    do 3 eexists. split; [reflexivity | apply pct_field_is_change].
Qed.

(** What the calculator returns is one of two documents. *)
Lemma process_rates_data_dyn_shape : forall rd to_currency breakdown v,
  process_rates_data_dyn rd to_currency breakdown = Ret v ->
  is_error_doc v \/ is_stats breakdown v.
Proof.
  intros rd to_currency breakdown v. unfold process_rates_data_dyn.
  destruct (negb (success rd)).
  { intros H; inversion H. left. eexists. reflexivity. }
  destruct (match rates rd with Some r => r | None => [] end) as [| kv r'].
  { intros H; inversion H. left. eexists. reflexivity. }
  intros H. right.
  apply bind_Ret_inv in H. destruct H as ([dd rv] & Hloop & H).
  apply bind_Ret_inv in H. destruct H as (s0 & _ & H).
  apply bind_Ret_inv in H. destruct H as (s1 & _ & H).
  apply bind_Ret_inv in H. destruct H as (total & _ & H).
  apply bind_Ret_inv in H. destruct H as (mean & _ & H).
  apply bind_Ret_inv in H. destruct H as (r0 & _ & H).
  apply bind_Ret_inv in H. destruct H as (r1 & _ & H).
  apply bind_Ret_inv in H. destruct H as (r2 & _ & H).
  inversion H; subst v. clear H.
  exists [("start_rate", r0); ("end_rate", r1);
          ("total_pct_change", pct_field total); ("mean_rate", r2)], dd.
  split.
  - eapply enumerate_loop_dyn_entries; [| exact Hloop]. constructor.
  - destruct (String.eqb breakdown "day"); reflexivity.
Qed.

(** * The route handlers *)

Lemma strptime_raises_value_error : forall s e,
  strptime s = Raise e -> is_value_error e = true.
Proof.
  intros s e. unfold strptime.
  destruct (match_format s) as [[[[y m] d] rest] |];
    [| intros H; inversion H; reflexivity].
  destruct (negb (rest =? "")%string); [intros H; inversion H; reflexivity |].
  destruct (y =? 0); [intros H; inversion H; reflexivity |].
  destruct (days_in_month y m <? d); [intros H; inversion H; reflexivity |].
  discriminate.
Qed.

Lemma strptime_not_empty : forall s a, strptime s = Ret a -> String.eqb s "" = false.
Proof.
  intros s a H. destruct s; [discriminate H | reflexivity].
Qed.

Section HandlerFacts.
Variable o : oracle.
Variable self : service.
Variable now : list event -> string.

Lemma validate_dates_accepts : forall start_date end_date bad a b t,
  strptime start_date = Ret a -> strptime end_date = Ret b ->
  validate_dates start_date end_date bad t = (Ret None, t).
Proof.
  intros start_date end_date bad a b t Ha Hb.
  unfold validate_dates, try_except_value_error, World.bind, lift.
  now rewrite Ha, Hb.
Qed.

Lemma validate_dates_rejects : forall start_date end_date bad t,
  (forall a b, ~ (strptime start_date = Ret a /\ strptime end_date = Ret b)) ->
  validate_dates start_date end_date bad t = (Ret (Some bad), t).
Proof.
  intros start_date end_date bad t Hbad.
  unfold validate_dates, try_except_value_error, World.bind, lift.
  pose proof (strptime_ends start_date) as Hs.
  pose proof (strptime_ends end_date) as He.
  destruct (strptime start_date) as [a | e |] eqn:Ea; try congruence.
  - destruct (strptime end_date) as [b | e |] eqn:Eb; try congruence.
    + exfalso. now apply (Hbad a b).
    + now rewrite (strptime_raises_value_error _ _ Eb).
  - now rewrite (strptime_raises_value_error _ _ Ea).
Qed.

(** [finance] once the dates are accepted: the cases of the retrieval and of
    the calculation. *)
Lemma finance_accepted : forall args start_date end_date t,
  dates_accepted args start_date end_date ->
  finance o self now args t
  = match get_rates o self start_date end_date (from_of args) (to_of args) t with
    | (Ret rd, t') =>
        match process_rates_data_dyn rd (to_of args) (breakdown_of args) with
        | Ret (JDict d) =>
            if dict_mem "error" d
            then (Ret (JDict d, 500), t')
            else (Ret (JDict (dict_set "metadata"
                                (finance_metadata start_date end_date
                                   (from_of args) (to_of args)
                                   (breakdown_of args) (now t')) d),
                       200), t')
        | Ret v =>
            match Py.bind (py_in "error" v) (fun failed =>
                    if failed then Ret (v, 500)
                    else Py.bind (py_setitem v "metadata"
                                    (finance_metadata start_date end_date
                                       (from_of args) (to_of args)
                                       (breakdown_of args) (now t')))
                           (fun r => Ret (r, 200))) with
            | Ret r => (Ret r, t')
            | Raise e => (Ret (internal_error_doc e, 500), t')
            | Diverge => (Diverge, t')
            end
        | Raise e => (Ret (internal_error_doc e, 500), t')
        | Diverge => (Diverge, t')
        end
    | (Raise e, t') => (Ret (internal_error_doc e, 500), t')
    | (Diverge, t') => (Diverge, t')
    end.
Proof.
  intros args start_date end_date t (Hs & He & [a Ha] & [b Hb]).
  unfold finance, try_except. rewrite Hs, He.
  unfold missing. rewrite (strptime_not_empty _ _ Ha), (strptime_not_empty _ _ Hb).
  cbn [orb]. unfold World.bind at 1.
  rewrite (validate_dates_accepts _ _ _ a b) by assumption.
  fold (from_of args) (to_of args) (breakdown_of args).
  unfold World.bind at 1.
  destruct (get_rates o self start_date end_date (from_of args) (to_of args) t)
    as [[rd | e |] t']; try reflexivity.
  unfold World.bind, lift, isoformat_now, ret.
  destruct (process_rates_data_dyn rd (to_of args) (breakdown_of args))
    as [v | e |]; try reflexivity.
  destruct v; try reflexivity.
  - cbn [py_in]. destruct (is_substring "error" s); reflexivity.
  - cbn [py_in]. destruct (existsb (eq_str "error") l); reflexivity.
  - cbn [py_in]. destruct (dict_mem "error" d); reflexivity.
Qed.

End HandlerFacts.

Lemma dates_accepted_dec : forall args,
  (exists start_date end_date, dates_accepted args start_date end_date) \/
  (forall start_date end_date, ~ dates_accepted args start_date end_date).
Proof.
  intros args. unfold dates_accepted.
  destruct (dict_get "start" args) as [sd |];
    [| right; intros ? ? (H & _); discriminate H].
  destruct (dict_get "end" args) as [ed |];
    [| right; intros ? ? (_ & H & _); discriminate H].
  destruct (strptime sd) as [a | e |] eqn:Ea.
  - destruct (strptime ed) as [b | e |] eqn:Eb.
    + left. exists sd, ed. repeat split; eauto.
    + right. intros ? ? (_ & H & _ & [b Hb]). inversion H; subst. congruence.
    + right. intros ? ? (_ & H & _ & [b Hb]). inversion H; subst. congruence.
  - right. intros ? ? (H & _ & [a Ha] & _). inversion H; subst. congruence.
  - right. intros ? ? (H & _ & [a Ha] & _). inversion H; subst. congruence.
Qed.

Section HandlerAnswers.
Variable o : oracle.
Variable self : service.
Variable now : list event -> string.

Lemma finance_rejected : forall args t,
  (forall start_date end_date, ~ dates_accepted args start_date end_date) ->
  finance o self now args t
  = (Ret (if missing (dict_get "start" args) || missing (dict_get "end" args)
          then dates_required_doc else bad_format_doc, 400), t).
Proof.
  intros args t Hno. unfold finance, try_except.
  destruct (dict_get "start" args) as [sd |] eqn:Es;
    [| reflexivity].
  destruct (dict_get "end" args) as [ed |] eqn:Ee;
    [| rewrite Bool.orb_true_r; reflexivity].
  destruct (missing (Some sd) || missing (Some ed)); [reflexivity |].
  unfold World.bind at 1.
  rewrite validate_dates_rejects; [reflexivity |].
  intros a b [Ha Hb]. apply (Hno sd ed). repeat split; eauto.
Qed.

Lemma api_rates_rejected : forall args t,
  (forall start_date end_date, ~ dates_accepted args start_date end_date) ->
  api_rates o self now args t
  = (Ret (JDict [("error",
                  JStr (if missing (dict_get "start" args)
                           || missing (dict_get "end" args)
                        then "Start and end dates are required"
                        else "Invalid date format. Use YYYY-MM-DD"))], 400), t).
Proof.
  intros args t Hno. unfold api_rates, try_except.
  destruct (dict_get "start" args) as [sd |] eqn:Es;
    [| reflexivity].
  destruct (dict_get "end" args) as [ed |] eqn:Ee;
    [| rewrite Bool.orb_true_r; reflexivity].
  destruct (missing (Some sd) || missing (Some ed)); [reflexivity |].
  unfold World.bind at 1.
  rewrite validate_dates_rejects; [reflexivity |].
  intros a b [Ha Hb]. apply (Hno sd ed). repeat split; eauto.
Qed.

End HandlerAnswers.

(** X14: [finance] answers a request whose dates, written in ASCII, are not
    both given and readable with status 400, and does nothing else: no
    request is sent and no file is read.  The document names the missing
    parameters when one of them is absent or empty, the date format
    otherwise. *)
Theorem finance_rejects_bad_dates : forall o self now args t,
  ascii_param "start" args -> ascii_param "end" args ->
  (forall start_date end_date, ~ dates_accepted args start_date end_date) ->
  finance o self now args t
  = (Ret (if missing (dict_get "start" args) || missing (dict_get "end" args)
          then dates_required_doc else bad_format_doc, 400), t).
Proof.
  intros o self now args t _ _ Hno. now apply finance_rejected.
Qed.

Lemma finance_rejects_bad_dates_witness :
  finance world_down (init JNull) noon
    [("start", "2025-02-30"); ("end", "2025-07-03")] []
  = (Ret (bad_format_doc, 400), []).
Proof.
  apply (finance_rejects_bad_dates world_down _ noon
           [("start", "2025-02-30"); ("end", "2025-07-03")] []).
  - intros v Hv. inversion Hv. reflexivity.
  - intros v Hv. inversion Hv. reflexivity.
  - intros sd ed (Hs & _ & [a Ha] & _).
    inversion Hs; subst. vm_compute in Ha. discriminate Ha.
Defined.

(** X15: [api_rates] answers a request whose dates, written in ASCII, are
    not both given and readable with status 400 and a document that holds
    the error text only; no request is sent and no file is read. *)
Theorem api_rates_rejects_bad_dates : forall o self now args t,
  ascii_param "start" args -> ascii_param "end" args ->
  (forall start_date end_date, ~ dates_accepted args start_date end_date) ->
  api_rates o self now args t
  = (Ret (JDict [("error",
                  JStr (if missing (dict_get "start" args)
                           || missing (dict_get "end" args)
                        then "Start and end dates are required"
                        else "Invalid date format. Use YYYY-MM-DD"))], 400), t).
Proof.
  intros o self now args t _ _ Hno. now apply api_rates_rejected.
Qed.

Lemma api_rates_rejects_bad_dates_witness :
  api_rates world_down (init JNull) noon
    [("start", "2025-07-01"); ("end", "")] []
  = (Ret (JDict [("error", JStr "Start and end dates are required")], 400), []).
Proof.
  apply (api_rates_rejects_bad_dates world_down _ noon
           [("start", "2025-07-01"); ("end", "")] []).
  - intros v Hv. inversion Hv. reflexivity.
  - intros v Hv. inversion Hv. reflexivity.
  - intros sd ed (_ & He & _ & [b Hb]).
    inversion He; subst. vm_compute in Hb. discriminate Hb.
Defined.

(** X16: [finance] answers every request, in every world: with status 200
    and a document that has the totals and the metadata and no error entry,
    or with status 400 or 500 and a document whose error entry is a text. *)
Theorem finance_always_answers : forall o self now args t,
  exists body st t',
    finance o self now args t = (Ret (JDict body, st), t') /\
    ((st = 200 /\ dict_get "error" body = None /\
      dict_mem "totals" body = true /\ dict_mem "metadata" body = true) \/
     ((st = 400 \/ st = 500) /\
      exists msg, dict_get "error" body = Some (JStr msg))).
Proof.
  intros o self now args t.
  destruct (dates_accepted_dec args) as [(sd & ed & Hok) | Hno].
  - rewrite (finance_accepted o self now args sd ed t Hok).
    destruct (get_rates_returns o self sd ed (from_of args) (to_of args) t)
      as (rd & t' & Hg).
    rewrite Hg.
    pose proof (process_rates_data_dyn_ends rd (to_of args) (breakdown_of args))
      as Hends.
    pose proof (process_rates_data_dyn_shape rd (to_of args) (breakdown_of args))
      as Hshape.
    destruct (process_rates_data_dyn rd (to_of args) (breakdown_of args))
      as [v | e |]; [| | congruence].
    + destruct (Hshape v eq_refl) as [[msg ->] | (totals & entries & _ & ->)].
      * cbn. do 3 eexists. split; [reflexivity |].
        right. split; [now right | now exists msg].
      * destruct (String.eqb (breakdown_of args) "day");
          cbn; do 3 eexists; (split; [reflexivity |]);
          left; repeat split; reflexivity.
    + do 3 eexists. split; [reflexivity |].
      right. split; [now right | eexists; reflexivity].
  - rewrite (finance_rejected o self now args t Hno).
    destruct (missing (dict_get "start" args) || missing (dict_get "end" args));
      do 3 eexists; (split; [reflexivity |]);
      right; (split; [now left | eexists; reflexivity]).
Qed.

(** ** [api_rates] once the dates are accepted *)

Lemma comprehension_map : forall f g l,
  Forall (fun x => f x = Ret (g x)) l ->
  comprehension f l = Ret (map g l).
Proof.
  intros f g l H. induction H as [| x l Hx _ IH]; [reflexivity |].
  cbn [comprehension map]. rewrite Hx, IH. reflexivity.
Qed.

Lemma entry_date : forall entry,
  is_entry entry -> py_getitem entry "date" = Ret (field "date" entry).
Proof.
  intros entry (d & r & p & -> & _). reflexivity.
Qed.

Lemma entry_rate : forall entry,
  is_entry entry -> py_getitem entry "rate" = Ret (field "rate" entry).
Proof.
  intros entry (d & r & p & -> & _). reflexivity.
Qed.

Lemma entry_change : forall entry,
  is_entry entry ->
  chart_change entry = Ret (zero_if_na (field "pct_change" entry)).
Proof.
  intros entry (d & r & p & -> & _).
  unfold chart_change, zero_if_na, field. cbn.
  destruct (eq_str "N/A" p); reflexivity.
Qed.

Lemma zero_if_na_not_marker : forall p, zero_if_na p <> JStr "N/A".
Proof.
  intros p. unfold zero_if_na.
  destruct (eq_str "N/A" p) eqn:E; [discriminate |].
  intros ->. discriminate E.
Qed.

Section ApiRatesRuns.
Variable o : oracle.
Variable self : service.
Variable now : list event -> string.
Variable args : dict string.
Variable start_date end_date : string.
Variable t t' : list event.
Variable rd : rates_data json.
Hypothesis Hok : dates_accepted args start_date end_date.
Hypothesis Hg :
  get_rates o self start_date end_date (from_of args) (to_of args) t
  = (Ret rd, t').

Lemma api_rates_accepted :
  api_rates o self now args t
  = match process_rates_data_dyn rd (to_of args) "day" with
    | Ret result =>
        match
          (World.bind (lift (py_in "error" result)) (fun failed =>
           if failed
           then ret (result, 500)
           else
             World.bind (lift (py_get result "breakdown" (JList [])))
               (fun breakdown =>
             World.bind (lift (py_iter breakdown)) (fun days =>
             World.bind (lift (comprehension
                                 (fun day => py_getitem day "date") days))
               (fun labels =>
             World.bind (lift (py_iter breakdown)) (fun days =>
             World.bind (lift (comprehension
                                 (fun day => py_getitem day "rate") days))
               (fun chart_rates =>
             World.bind (lift (py_iter breakdown)) (fun days =>
             World.bind (lift (comprehension chart_change days))
               (fun changes =>
             World.bind (lift (py_getitem result "totals")) (fun totals =>
             ret (JDict [("labels", JList labels);
                         ("rates", JList chart_rates);
                         ("changes", JList changes);
                         ("totals", totals);
                         ("metadata",
                          chart_metadata start_date end_date (from_of args)
                            (to_of args) (now t'))],
                  200))))))))))) t'
        with
        | (Raise e, t1) => (Ret (JDict [("error", JStr (message e))], 500), t1)
        | r => r
        end
    | Raise e => (Ret (JDict [("error", JStr (message e))], 500), t')
    | Diverge => (Diverge, t')
    end.
Proof.
  destruct Hok as (Hs & He & [a Ha] & [b Hb]).
  unfold api_rates, try_except. rewrite Hs, He.
  unfold missing. rewrite (strptime_not_empty _ _ Ha), (strptime_not_empty _ _ Hb).
  cbn [orb]. unfold World.bind at 1.
  rewrite (validate_dates_accepts _ _ _ a b) by assumption.
  fold (from_of args) (to_of args).
  unfold World.bind at 1. rewrite Hg.
  unfold World.bind at 1. unfold lift at 1.
  destruct (process_rates_data_dyn rd (to_of args) "day") as [v | e |];
    try reflexivity.
  unfold World.bind, lift, isoformat_now, ret, chart_metadata.
  destruct (py_in "error" v) as [[|] | |]; reflexivity.
Qed.

Lemma api_rates_failed : forall msg,
  process_rates_data_dyn rd (to_of args) "day"
  = Ret (JDict [("error", JStr msg)]) ->
  api_rates o self now args t = (Ret (JDict [("error", JStr msg)], 500), t').
Proof.
  intros msg Hp. rewrite api_rates_accepted, Hp. reflexivity.
Qed.

Lemma api_rates_raised : forall e,
  process_rates_data_dyn rd (to_of args) "day" = Raise e ->
  api_rates o self now args t
  = (Ret (JDict [("error", JStr (message e))], 500), t').
Proof.
  intros e Hp. rewrite api_rates_accepted, Hp. reflexivity.
Qed.

Lemma api_rates_charted : forall totals entries,
  process_rates_data_dyn rd (to_of args) "day"
  = Ret (JDict [("totals", totals); ("breakdown", JList entries)]) ->
  Forall is_entry entries ->
  api_rates o self now args t
  = (Ret (JDict [("labels", JList (map (field "date") entries));
                 ("rates", JList (map (field "rate") entries));
                 ("changes",
                  JList (map (fun entry => zero_if_na (field "pct_change" entry))
                             entries));
                 ("totals", totals);
                 ("metadata",
                  chart_metadata start_date end_date (from_of args)
                    (to_of args) (now t'))],
          200), t').
Proof.
  intros totals entries Hp Hentries. rewrite api_rates_accepted, Hp.
  unfold World.bind, lift, ret. cbn [py_in dict_mem dict_get String.eqb
    Ascii.eqb Bool.eqb py_get dict_get_default py_iter].
  cbn.
  rewrite (comprehension_map _ (field "date"));
    [| eapply Forall_impl; [| exact Hentries]; apply entry_date].
  rewrite (comprehension_map _ (field "rate"));
    [| eapply Forall_impl; [| exact Hentries]; apply entry_rate].
  rewrite (comprehension_map _
             (fun entry => zero_if_na (field "pct_change" entry)));
    [| eapply Forall_impl; [| exact Hentries]; apply entry_change].
  reflexivity.
Qed.

End ApiRatesRuns.

(** X17: [api_rates] answers every request, in every world: with status 200
    and the chart, whose labels, rates and changes have the same length and
    whose changes do not hold the marker 'N/A', or with status 400 or 500 and
    a document that holds an error text and nothing else. *)
Theorem api_rates_always_answers : forall o self now args t,
  exists body st t',
    api_rates o self now args t = (Ret (JDict body, st), t') /\
    ((st = 200 /\
      exists labels chart_rates changes totals metadata,
        body = [("labels", JList labels); ("rates", JList chart_rates);
                ("changes", JList changes); ("totals", totals);
                ("metadata", metadata)] /\
        List.length labels = List.length chart_rates /\
        List.length chart_rates = List.length changes /\
        ~ In (JStr "N/A") changes) \/
     ((st = 400 \/ st = 500) /\ exists msg, body = [("error", JStr msg)])).
Proof.
  intros o self now args t.
  destruct (dates_accepted_dec args) as [(sd & ed & Hok) | Hno].
  - destruct (get_rates_returns o self sd ed (from_of args) (to_of args) t)
      as (rd & t' & Hg).
    pose proof (process_rates_data_dyn_ends rd (to_of args) "day") as Hends.
    pose proof (process_rates_data_dyn_shape rd (to_of args) "day") as Hshape.
    destruct (process_rates_data_dyn rd (to_of args) "day")
      as [v | e |] eqn:Hp; [| | congruence].
    + destruct (Hshape v eq_refl)
        as [[msg ->] | (totals & entries & Hentries & ->)].
      * rewrite (api_rates_failed o self now args sd ed t t' rd Hok Hg msg Hp).
        do 3 eexists. split; [reflexivity |].
        right. split; [now right | now exists msg].
      * cbn [String.eqb Ascii.eqb Bool.eqb] in Hp.
        rewrite (api_rates_charted o self now args sd ed t t' rd Hok Hg
                   (JDict totals) entries Hp Hentries).
        do 3 eexists. split; [reflexivity |].
        left. split; [reflexivity |]. do 5 eexists.
        split; [reflexivity |].
        rewrite !length_map. repeat split.
        intros Hin. apply in_map_iff in Hin. destruct Hin as (entry & Hna & _).
        now apply zero_if_na_not_marker in Hna.
    + rewrite (api_rates_raised o self now args sd ed t t' rd Hok Hg e Hp).
      do 3 eexists. split; [reflexivity |].
      right. split; [now right | eexists; reflexivity].
  - rewrite (api_rates_rejected o self now args t Hno).
    do 3 eexists. split; [reflexivity |].
    right. split; [now left | eexists; reflexivity].
Qed.

(** X18: the chart of [api_rates] is read off the daily breakdown of the
    calculator, whatever parameters the request carries besides the dates and
    the currencies: the labels, rates and changes are the dates, rates and
    changes of its entries, in its order, with 0 in place of the marker
    'N/A'; the totals are passed on as they are; the request's dates and
    currencies and the time after the retrieval are the metadata. *)
Theorem api_rates_chart_of_breakdown :
  forall o self now args start_date end_date t rd t' totals entries,
  dates_accepted args start_date end_date ->
  get_rates o self start_date end_date (from_of args) (to_of args) t
  = (Ret rd, t') ->
  process_rates_data_dyn rd (to_of args) "day"
  = Ret (JDict [("totals", totals); ("breakdown", JList entries)]) ->
  api_rates o self now args t
  = (Ret (JDict [("labels", JList (map (field "date") entries));
                 ("rates", JList (map (field "rate") entries));
                 ("changes",
                  JList (map (fun entry => zero_if_na (field "pct_change" entry))
                             entries));
                 ("totals", totals);
                 ("metadata",
                  chart_metadata start_date end_date (from_of args)
                    (to_of args) (now t'))],
          200), t').
Proof.
  intros o self now args start_date end_date t rd t' totals entries Hok Hg Hp.
  apply (api_rates_charted o self now args start_date end_date t t' rd Hok Hg
           totals entries Hp).
  destruct (process_rates_data_dyn_shape rd (to_of args) "day" _ Hp)
    as [[msg Hv] | (totals' & entries' & Hentries & Hv)].
  - discriminate Hv.
  - cbn [String.eqb Ascii.eqb Bool.eqb] in Hv. inversion Hv; subst. assumption.
Qed.

Lemma api_rates_chart_of_breakdown_witness :
  exists totals entries t',
    api_rates world_down (init JNull) noon
      [("start", "2025-07-01"); ("end", "2025-07-02"); ("breakdown", "none")] []
    = (Ret (JDict [("labels", JList (map (field "date") entries));
                   ("rates", JList (map (field "rate") entries));
                   ("changes",
                    JList (map (fun entry =>
                                  zero_if_na (field "pct_change" entry))
                               entries));
                   ("totals", totals);
                   ("metadata",
                    chart_metadata "2025-07-01" "2025-07-02" "USD" "EUR"
                      "2025-07-10T12:00:00")],
            200), t').
Proof.
  do 3 eexists.
  eapply (api_rates_chart_of_breakdown world_down (init JNull) noon
            [("start", "2025-07-01"); ("end", "2025-07-02");
             ("breakdown", "none")]
            "2025-07-01" "2025-07-02" []).
  - repeat split; eexists; vm_compute; reflexivity.
  - vm_compute. reflexivity.
  - vm_compute. reflexivity.
Defined.

(** X19: when the retrieval reports a failure, both handlers answer 500 with
    the calculator's fixed text: the error text of the retrieval is not
    passed on to the client. *)
Theorem routes_hide_retrieval_error :
  forall o self now args start_date end_date t rd t',
  dates_accepted args start_date end_date ->
  get_rates o self start_date end_date (from_of args) (to_of args) t
  = (Ret rd, t') ->
  success rd = false ->
  finance o self now args t
  = (Ret (JDict [("error", JStr "Failed to retrieve rates data")], 500), t') /\
  api_rates o self now args t
  = (Ret (JDict [("error", JStr "Failed to retrieve rates data")], 500), t').
Proof.
  intros o self now args start_date end_date t rd t' Hok Hg Hfail. split.
  - rewrite (finance_accepted o self now args start_date end_date t Hok), Hg.
    unfold process_rates_data_dyn. rewrite Hfail. reflexivity.
  - apply (api_rates_failed o self now args start_date end_date t t' rd Hok Hg).
    unfold process_rates_data_dyn. rewrite Hfail. reflexivity.
Qed.

Lemma routes_hide_retrieval_error_witness :
  exists t',
    finance world_no_file (init JNull) noon
      [("start", "2025-07-01"); ("end", "2025-07-02")] []
    = (Ret (JDict [("error", JStr "Failed to retrieve rates data")], 500), t') /\
    api_rates world_no_file (init JNull) noon
      [("start", "2025-07-01"); ("end", "2025-07-02")] []
    = (Ret (JDict [("error", JStr "Failed to retrieve rates data")], 500), t').
Proof.
  eexists.
  eapply (routes_hide_retrieval_error world_no_file (init JNull) noon
            [("start", "2025-07-01"); ("end", "2025-07-02")]
            "2025-07-01" "2025-07-02" []).
  - repeat split; eexists; vm_compute; reflexivity.
  - vm_compute. reflexivity.
  - reflexivity.
Defined.

(** ** The handlers on a series of float rates *)

Lemma breakdown_field_dates : forall series prev,
  map (field "date") (breakdown_from prev series)
  = map (fun p => JStr (fst p)) series.
Proof.
  induction series as [| [date rate] series IH]; intros prev; [reflexivity |].
  cbn [breakdown_from map fst]. now rewrite IH.
Qed.

Lemma breakdown_field_rates : forall series prev,
  map (field "rate") (breakdown_from prev series)
  = map (fun p => JFloat (py_round (snd p) 5)) series.
Proof.
  induction series as [| [date rate] series IH]; intros prev; [reflexivity |].
  cbn [breakdown_from map snd]. now rewrite IH.
Qed.

Lemma load_fallback_data_sliced : forall (o : oracle) (self : service)
    start_date end_date start end_ (data table : dict json) (t : list event),
  strptime start_date = Ret start -> strptime end_date = Ret end_ ->
  open_json o t (fallback_file self) = inr (JDict data) ->
  dict_get "rates" data = Some (JDict table) ->
  NoDup (keys table) ->
  Forall (fun k => exists d, strptime k = Ret d) (keys table) ->
  _load_fallback_data o self start_date end_date t
  = (Ret (success_result
            (match dict_get "base" data with Some b => b | None => JStr "USD" end)
            (restrict start end_ table)),
     (t ++ [Open (fallback_file self)])%list).
Proof.
  intros o self start_date end_date start end_ data table t
    Hs He Hfile Htable Hnd Hparse.
  unfold _load_fallback_data, try_except, load_fallback_try.
  unfold World.bind at 1. unfold load_json. rewrite Hfile.
  unfold World.bind, lift. rewrite Hs, He.
  cbn [py_getitem]. unfold dict_getitem. rewrite Htable.
  cbn [py_items].
  rewrite (for_each_fallback_restrict start end_ table []); auto.
Qed.

Section FloatSeries.
Variable o : oracle.
Variable self : service.
Variable now : list event -> string.
Variable args : dict string.
Variable start_date end_date : string.
Variable t t' : list event.
Variable rd : rates_data (dict float).
Variable series : dict (dict float).
Hypothesis Hok : dates_accepted args start_date end_date.
Hypothesis Hg :
  get_rates o self start_date end_date (from_of args) (to_of args) t
  = (Ret (rates_data_json rd), t').
Hypothesis Hsuccess : success rd = true.
Hypothesis Hrates : rates rd = Some series.
Hypothesis Hne : series <> [].
Hypothesis Hquoted : quoted (to_of args) series.

Lemma calculator_on_series : forall breakdown,
  process_rates_data_dyn (rates_data_json rd) (to_of args) breakdown
  = Ret (stats_from series (to_of args) breakdown).
Proof.
  intros breakdown.
  rewrite (process_rates_data_dyn_floats rd series) by assumption.
  now apply process_rates_data_spec.
Qed.

Lemma finance_on_series :
  finance o self now args t
  = (Ret (JDict (("totals",
                  totals_from (map snd (dated_rates series (to_of args)))) ::
                 ((if String.eqb (breakdown_of args) "day"
                   then [("breakdown",
                          JList (breakdown_from None
                                   (dated_rates series (to_of args))))]
                   else []) ++
                  [("metadata",
                    finance_metadata start_date end_date (from_of args)
                      (to_of args) (breakdown_of args) (now t'))]))%list,
          200), t').
Proof.
  rewrite (finance_accepted o self now args start_date end_date t Hok), Hg.
  rewrite calculator_on_series. unfold stats_from.
  fold (dated_rates series (to_of args)).
  destruct (String.eqb (breakdown_of args) "day"); reflexivity.
Qed.

Lemma api_rates_on_series :
  api_rates o self now args t
  = (Ret (JDict
            [("labels", JList (map JStr (sorted (keys series))));
             ("rates",
              JList (map (fun date =>
                            JFloat (py_round (rate_of series (to_of args) date) 5))
                         (sorted (keys series))));
             ("changes",
              JList (map (fun entry => zero_if_na (field "pct_change" entry))
                         (breakdown_from None
                            (dated_rates series (to_of args)))));
             ("totals",
              totals_from (map snd (dated_rates series (to_of args))));
             ("metadata",
              chart_metadata start_date end_date (from_of args) (to_of args)
                (now t'))],
          200), t').
Proof.
  pose proof (calculator_on_series "day") as Hp.
  unfold stats_from in Hp. fold (dated_rates series (to_of args)) in Hp.
  cbn [String.eqb Ascii.eqb Bool.eqb] in Hp.
  rewrite (api_rates_charted o self now args start_date end_date t t'
             (rates_data_json rd) Hok Hg _ _ Hp).
  - rewrite breakdown_field_dates, breakdown_field_rates.
    unfold dated_rates. rewrite !map_map. reflexivity.
  - destruct (process_rates_data_dyn_shape _ _ _ _ Hp)
      as [[msg Hv] | (totals' & entries' & Hentries & Hv)].
    + discriminate Hv.
    + cbn [String.eqb Ascii.eqb Bool.eqb] in Hv. inversion Hv; subst.
      assumption.
Qed.

End FloatSeries.

(** X20: the document of a successful [finance] request.  When the dates are
    accepted and the retrieval returns a series of float rates that is not
    empty and quotes the currency on every day, the answer is 200 with the
    totals of the rates taken in ascending order of the dates, the entries
    of the breakdown when the mode is 'day' and only then, and the metadata:
    the request's parameters with their defaults and the time after the
    retrieval.  The handler adds nothing to the trace of the retrieval. *)
Theorem finance_success_document :
  forall o self now args start_date end_date t t'
         (rd : rates_data (dict float)) series,
  dates_accepted args start_date end_date ->
  get_rates o self start_date end_date (from_of args) (to_of args) t
  = (Ret (rates_data_json rd), t') ->
  success rd = true -> rates rd = Some series -> series <> [] ->
  quoted (to_of args) series ->
  finance o self now args t
  = (Ret (JDict (("totals",
                  totals_from (map snd (dated_rates series (to_of args)))) ::
                 ((if String.eqb (breakdown_of args) "day"
                   then [("breakdown",
                          JList (breakdown_from None
                                   (dated_rates series (to_of args))))]
                   else []) ++
                  [("metadata",
                    finance_metadata start_date end_date (from_of args)
                      (to_of args) (breakdown_of args) (now t'))]))%list,
          200), t').
Proof.
  intros o self now args start_date end_date t t' rd series
    Hok Hg Hsuccess Hrates Hne Hquoted.
  now apply (finance_on_series o self now args start_date end_date t t' rd series).
Qed.

Lemma finance_success_document_witness :
  exists t',
    finance world_down (init JNull) noon
      [("start", "2025-07-01"); ("end", "2025-07-02"); ("breakdown", "none")] []
    = (Ret (JDict [("totals",
                    totals_from
                      (map snd (dated_rates example_series "EUR")));
                   ("metadata",
                    finance_metadata "2025-07-01" "2025-07-02" "USD" "EUR"
                      "none" "2025-07-10T12:00:00")],
            200), t').
Proof.
  eexists.
  eapply (finance_success_document world_down (init JNull) noon
            [("start", "2025-07-01"); ("end", "2025-07-02");
             ("breakdown", "none")]
            "2025-07-01" "2025-07-02" [] _
            (success_result (JStr "USD") example_series) example_series).
  - repeat split; eexists; vm_compute; reflexivity.
  - vm_compute. reflexivity.
  - reflexivity.
  - reflexivity.
  - discriminate.
  - repeat constructor.
Defined.

(** X21: the chart of a successful [api_rates] request.  Under the
    conditions of X20 the labels are the dates of the series in ascending
    order, the rates are the rates of these dates rounded to 5 places, the
    changes are those of the daily breakdown with 0 where it has the marker
    'N/A', and the totals are those of the calculator. *)
Theorem api_rates_success_chart :
  forall o self now args start_date end_date t t'
         (rd : rates_data (dict float)) series,
  dates_accepted args start_date end_date ->
  get_rates o self start_date end_date (from_of args) (to_of args) t
  = (Ret (rates_data_json rd), t') ->
  success rd = true -> rates rd = Some series -> series <> [] ->
  quoted (to_of args) series ->
  api_rates o self now args t
  = (Ret (JDict
            [("labels", JList (map JStr (sorted (keys series))));
             ("rates",
              JList (map (fun date =>
                            JFloat (py_round (rate_of series (to_of args) date) 5))
                         (sorted (keys series))));
             ("changes",
              JList (map (fun entry => zero_if_na (field "pct_change" entry))
                         (breakdown_from None
                            (dated_rates series (to_of args)))));
             ("totals",
              totals_from (map snd (dated_rates series (to_of args))));
             ("metadata",
              chart_metadata start_date end_date (from_of args) (to_of args)
                (now t'))],
          200), t').
Proof.
  intros o self now args start_date end_date t t' rd series
    Hok Hg Hsuccess Hrates Hne Hquoted.
  now apply (api_rates_on_series o self now args start_date end_date t t'
               rd series).
Qed.

Lemma api_rates_success_chart_witness :
  exists t',
    api_rates world_down (init JNull) noon
      [("start", "2025-07-01"); ("end", "2025-07-02")] []
    = (Ret (JDict
              [("labels", JList [JStr "2025-07-01"; JStr "2025-07-02"]);
               ("rates", JList [JFloat (dec 9 10); JFloat (dec 91 100)]);
               ("changes", JList [JFloat 0; JFloat (dec 111 100)]);
               ("totals",
                totals_from (map snd (dated_rates example_series "EUR")));
               ("metadata",
                chart_metadata "2025-07-01" "2025-07-02" "USD" "EUR"
                  "2025-07-10T12:00:00")],
            200), t').
Proof.
  eexists.
  eapply (api_rates_success_chart world_down (init JNull) noon
            [("start", "2025-07-01"); ("end", "2025-07-02")]
            "2025-07-01" "2025-07-02" [] _
            (success_result (JStr "USD") example_series) example_series).
  - repeat split; eexists; vm_compute; reflexivity.
  - vm_compute. reflexivity.
  - reflexivity.
  - reflexivity.
  - discriminate.
  - repeat constructor.
Defined.

(** ** From the request to the answer when the remote service is down *)

Section DatasetOnly.
Variable o : oracle.
Variable self : service.
Variable now : list event -> string.
Variable args : dict string.
Variable start_date end_date : string.
Variable start end_ : datetime.
Variable data table : dict json.
Hypothesis Hdown : forall t r, remote_fails (http o t r) = true.
Hypothesis Hfile : forall t, open_json o t (fallback_file self) = inr (JDict data).
Hypothesis Htable : dict_get "rates" data = Some (JDict table).
Hypothesis Hnodup : NoDup (keys table).
Hypothesis Hparse : Forall (fun k => exists d, strptime k = Ret d) (keys table).
Hypothesis Hstart : dict_get "start" args = Some start_date.
Hypothesis Hend : dict_get "end" args = Some end_date.
Hypothesis Hs : strptime start_date = Ret start.
Hypothesis He : strptime end_date = Ret end_.

Lemma dataset_dates_accepted : dates_accepted args start_date end_date.
Proof.
  repeat split; eauto.
Qed.

Lemma get_rates_dataset : forall t,
  exists t1,
    get_rates o self start_date end_date (from_of args) (to_of args) t
    = (Ret (success_result
              (match dict_get "base" data with
               | Some b => b
               | None => JStr "USD"
               end)
              (restrict start end_ table)),
       (t1 ++ [Open (fallback_file self)])%list).
Proof.
  intros t.
  destruct (get_rates_ends_in_fallback o self Hdown start_date end_date
              (from_of args) (to_of args) t) as [t1 E].
  exists t1. rewrite E.
  now apply (load_fallback_data_sliced o self start_date end_date start end_
               data table t1).
Qed.

End DatasetOnly.





(** ** The calculator does not check the entries of the series *)

Lemma day_step_dyn_dict : forall rates to_currency i date st st',
  day_step_dyn rates to_currency i date st = Ret st' ->
  exists day, dict_get date rates = Some (JDict day).
Proof.
  intros rates to_currency i date [daily_data rate_values] st'.
  unfold day_step_dyn, dict_getitem.
  destruct (dict_get date rates) as [v |]; [| discriminate].
  destruct v; cbn; try discriminate. eauto.
Qed.

Lemma enumerate_loop_dyn_dicts : forall rates to_currency dates i st st',
  enumerate_loop_dyn rates to_currency i dates st = Ret st' ->
  forall date, In date dates ->
  exists day, dict_get date rates = Some (JDict day).
Proof.
  intros rates to_currency dates.
  induction dates as [| d dates IH]; intros i st st' Hloop date Hin.
  - contradiction.
  - cbn [enumerate_loop_dyn] in Hloop.
    apply bind_Ret_inv in Hloop. destruct Hloop as (st1 & Hstep & Hrest).
    destruct Hin as [<- | Hin].
    + eapply day_step_dyn_dict. exact Hstep.
    + eapply IH; eassumption.
Qed.

Lemma process_rates_data_dyn_raises_any_mode :
  forall rd to_currency breakdown breakdown' e,
  process_rates_data_dyn rd to_currency breakdown = Raise e ->
  process_rates_data_dyn rd to_currency breakdown' = Raise e.
Proof.
  intros rd to_currency breakdown breakdown' e.
  unfold process_rates_data_dyn.
  destruct (negb (success rd)); [discriminate |].
  destruct (match rates rd with Some r => r | None => [] end) as [| kv r'];
    [discriminate |].
  repeat match goal with
         | |- Py.bind ?c _ = Raise _ -> Py.bind ?c _ = Raise _ =>
             destruct c as [? | ? |]; cbn [Py.bind];
             [| intros H; exact H | discriminate]
         | |- (let '(_, _) := ?p in _) = _ -> _ => destruct p
         end.
  discriminate.
Qed.

(** X24: the calculator does not skip or repair a malformed entry: when the
    retrieval reports success and the entry of some date of the series is
    not a dictionary, [process_rates_data] raises an exception, whatever the
    other entries are. *)
Theorem calculator_rejects_malformed_day :
  forall (rd : rates_data json) r to_currency breakdown date v,
  success rd = true -> rates rd = Some r ->
  dict_get date r = Some v -> (forall day, v <> JDict day) ->
  exists e, process_rates_data_dyn rd to_currency breakdown = Raise e.
Proof.
  intros rd r to_currency breakdown date v Hsuccess Hrates Hget Hnot.
  pose proof (process_rates_data_dyn_ends rd to_currency breakdown) as Hends.
  destruct (process_rates_data_dyn rd to_currency breakdown)
    as [doc | e |] eqn:Hp; [| eauto | congruence].
  exfalso. unfold process_rates_data_dyn in Hp.
  rewrite Hsuccess, Hrates in Hp. cbn [negb] in Hp.
  destruct r as [| kv r']; [discriminate Hget |].
  apply bind_Ret_inv in Hp. destruct Hp as (st & Hloop & _).
  destruct (enumerate_loop_dyn_dicts _ _ _ _ _ _ Hloop date) as [day Hday].
  - apply sorted_In.
    apply dict_get_Some_In in Hget. now apply (in_map fst) in Hget.
  - rewrite Hget in Hday. inversion Hday. now apply (Hnot day).
Qed.

Lemma calculator_rejects_malformed_day_witness :
  exists e,
    process_rates_data_dyn
      (success_result (JStr "USD")
         [("2025-07-01", JDict [("EUR", JFloat (dec 9 10))]);
          ("2025-07-02", JFloat (dec 91 100))])
      "EUR" "day"
    = Raise e.
Proof.
  apply (calculator_rejects_malformed_day
           (success_result (JStr "USD")
              [("2025-07-01", JDict [("EUR", JFloat (dec 9 10))]);
               ("2025-07-02", JFloat (dec 91 100))])
           [("2025-07-01", JDict [("EUR", JFloat (dec 9 10))]);
            ("2025-07-02", JFloat (dec 91 100))]
           "EUR" "day" "2025-07-02" (JFloat (dec 91 100)));
    try reflexivity.
  intros day. discriminate.
Defined.

(** X25: an exception of the calculator does not escape the handlers: both
    answer 500, [finance] with the text 'Internal server error' and the text
    of the exception as details, [api_rates] with the text of the exception
    as the error. *)
Theorem routes_report_calculator_exception :
  forall o self now args start_date end_date t rd t' e,
  dates_accepted args start_date end_date ->
  get_rates o self start_date end_date (from_of args) (to_of args) t
  = (Ret rd, t') ->
  process_rates_data_dyn rd (to_of args) (breakdown_of args) = Raise e ->
  finance o self now args t = (Ret (internal_error_doc e, 500), t') /\
  api_rates o self now args t
  = (Ret (JDict [("error", JStr (message e))], 500), t').
Proof.
  intros o self now args start_date end_date t rd t' e Hok Hg Hp. split.
  - rewrite (finance_accepted o self now args start_date end_date t Hok), Hg, Hp.
    reflexivity.
  - apply (api_rates_raised o self now args start_date end_date t t' rd Hok Hg).
    now apply (process_rates_data_dyn_raises_any_mode rd (to_of args)
                 (breakdown_of args)).
Qed.

Lemma routes_report_calculator_exception_witness :
  exists t',
    finance world_text_rate (init JNull) noon
      [("start", "2025-07-01"); ("end", "2025-07-03")] []
    = (Ret (JDict [("error", JStr "Internal server error");
                   ("details",
                    JStr "type str doesn't define __round__ method")],
            500), t') /\
    api_rates world_text_rate (init JNull) noon
      [("start", "2025-07-01"); ("end", "2025-07-03")] []
    = (Ret (JDict [("error",
                    JStr "type str doesn't define __round__ method")],
            500), t').
Proof.
  eexists.
  eapply (routes_report_calculator_exception world_text_rate (init JNull) noon
            [("start", "2025-07-01"); ("end", "2025-07-03")]
            "2025-07-01" "2025-07-03" [] _ _
            (mk_exc TypeError "type str doesn't define __round__ method")).
  - repeat split; eexists; vm_compute; reflexivity.
  - vm_compute. reflexivity.
  - vm_compute. reflexivity.
Defined.

(** ** Day by day: one request that raises *)

Lemma rank_injective : forall a b, valid a -> valid b -> rank a = rank b -> a = b.
Proof.
  intros [ya ma da] [yb mb db] (Hya & Hma & Hda) (Hyb & Hmb & Hdb).
  unfold rank. cbn [year month day] in *.
  pose proof (days_in_month_bounds ya ma). pose proof (days_in_month_bounds yb mb).
  intros Hrank.
  assert (ya = yb /\ ma = mb /\ da = db) as (-> & -> & ->) by lia.
  reflexivity.
Qed.

(** No date lies between a day and the next. *)
Lemma next_day_least : forall c c' d,
  valid c -> valid d -> rank c < rank d -> next_day c = Ret c' ->
  rank c' <= rank d.
Proof.
  intros [y m dd] c' [y' m' d'] (Hy & Hm & Hd) (Hy' & Hm' & Hd').
  unfold next_day, rank. cbn [year month day] in *.
  pose proof (days_in_month_bounds y m).
  pose proof (days_in_month_bounds y' m').
  intros Hlt.
  assert (Hsame : y' = y -> m' = m -> d' <= days_in_month y m)
    by (intros -> ->; lia).
  destruct (dd <? days_in_month y m) eqn:E1.
  - intros H'; inversion H'; subst; cbn [year month day]. lia.
  - apply Z.ltb_ge in E1. destruct (m <? 12) eqn:E2.
    + intros H'; inversion H'; subst; cbn [year month day].
      destruct (Z.eq_dec y' y) as [-> |]; [| lia].
      destruct (Z.eq_dec m' m) as [-> |]; [| lia].
      specialize (Hsame eq_refl eq_refl). lia.
    + apply Z.ltb_ge in E2. destruct (y <? 9999) eqn:E3; [| discriminate].
      intros H'; inversion H'; subst; cbn [year month day].
      destruct (Z.eq_dec y' y) as [-> |]; [| lia].
      destruct (Z.eq_dec m' m) as [-> |]; [| lia].
      specialize (Hsame eq_refl eq_refl). lia.
Qed.

Section OneError.
Variable o : oracle.
Variable self : service.
Variable from_currency to_currency : string.
Variable d end_ : datetime.
Hypothesis Hd : valid d.
Hypothesis Hend : valid end_.
Hypothesis Hle : rank d <= rank end_.
Hypothesis Herr : forall t, exists e,
  http o t (historical_request self (strftime d) from_currency to_currency 5)
  = Failed e.

Lemma day_loop_hits_error : forall fuel current rates,
  valid current -> rank current <= rank d ->
  post (day_loop o self fuel end_ from_currency to_currency current rates)
       (fun _ => False).
Proof.
  induction fuel as [| fuel IH]; intros current rates Hc Hcd.
  - cbn [day_loop]. intros t r t' H. discriminate H.
  - cbn [day_loop].
    assert (Hce : Dates.leb current end_ = true) by (apply leb_rank; auto; lia).
    rewrite Hce.
    eapply post_bind with (P := fun _ => rank current < rank d).
    + apply post_requests_get. intros t st body Hans.
      destruct (Z.eq_dec (rank current) (rank d)) as [Heq |]; [| lia].
      apply rank_injective in Heq; auto. subst current.
      destruct (Herr t) as [e He]. unfold historical_request in He.
      rewrite He in Hans. discriminate Hans.
    + intros [status_code body] Hlt.
      eapply post_bind with (P := fun _ => True);
        [intros ? ? ? _; exact I |].
      intros rates' _.
      eapply post_bind with (P := fun c' => next_day current = Ret c');
        [apply post_lift; auto |].
      intros c' Hnext. apply IH.
      * now destruct (next_day_valid _ _ Hc Hnext).
      * now apply (next_day_least current c' d).
Qed.

End OneError.



(** ** Day by day: the days that answer *)

Lemma dict_get_set_same : forall (k : string) (v : json) (d : dict json),
  dict_get k (dict_set k v d) = Some v.
Proof.
  intros k v d. induction d as [| [k' v'] d IH]; simpl.
  - now rewrite String.eqb_refl.
  - destruct (String.eqb k k') eqn:E; simpl.
    + now rewrite String.eqb_refl.
    + now rewrite E.
Qed.

Lemma dict_get_set_other : forall (k k' : string) (v : json) (d : dict json),
  k <> k' -> dict_get k (dict_set k' v d) = dict_get k d.
Proof.
  intros k k' v d Hne. induction d as [| [k0 v0] d IH]; simpl.
  - destruct (String.eqb_spec k k'); [congruence | reflexivity].
  - destruct (String.eqb_spec k' k0) as [<- | Hne0]; simpl.
    + destruct (String.eqb_spec k k'); [congruence | reflexivity].
    + destruct (String.eqb k k0); [reflexivity | exact IH].
Qed.

Lemma strftime_injective : forall a b,
  valid a -> valid b -> 1000 <= year a -> 1000 <= year b ->
  strftime a = strftime b -> a = b.
Proof.
  intros a b Ha Hb Hya Hyb Heq.
  pose proof (strptime_strftime a Ha Hya) as Pa.
  pose proof (strptime_strftime b Hb Hyb) as Pb.
  rewrite Heq in Pa. congruence.
Qed.

Lemma next_day_exists : forall c,
  valid c -> rank c < rank max_date -> exists c', next_day c = Ret c'.
Proof.
  intros [y m d] (Hy & Hm & Hd). unfold next_day, rank, max_date.
  cbn [year month day] in *. intros Hlt.
  destruct (d <? days_in_month y m) eqn:E1; [eauto |].
  destruct (m <? 12) eqn:E2; [eauto |].
  destruct (y <? 9999) eqn:E3; [eauto |].
  exfalso. apply Z.ltb_ge in E1, E2, E3.
  assert (y = 9999) by lia. assert (m = 12) by lia. subst y m.
  change (days_in_month 9999 12) with 31 in *. lia.
Qed.

Section Collect.
Variable o : oracle.
Variable self : service.
Variable from_currency to_currency : string.
Variable end_ : datetime.
Variable quote : datetime -> option json.
Hypothesis Hend : valid end_.
Hypothesis Hlast : rank end_ < rank max_date.
Hypothesis Hans : forall t d, valid d ->
  day_answer (from_currency ++ to_currency) (quote d)
    (http o t (historical_request self (strftime d) from_currency to_currency 5)).

(** One turn of the loop. *)
Lemma day_loop_turn : forall fuel current c' rates t,
  valid current -> Dates.leb current end_ = true ->
  next_day current = Ret c' ->
  day_loop o self (S fuel) end_ from_currency to_currency current rates t
  = day_loop o self fuel end_ from_currency to_currency c'
      (match quote current with
       | Some v => dict_set (strftime current) (JDict [(to_currency, v)]) rates
       | None => rates
       end)
      (t ++ [Get (historical_request self (strftime current)
                    from_currency to_currency 5)])%list.
Proof.
  intros fuel current c' rates t Hc Hle Hnext.
  cbn [day_loop]. rewrite Hle.
  pose proof (Hans t current Hc) as Ha. unfold historical_request in *.
  unfold World.bind at 1. unfold requests_get.
  destruct (quote current) as [v |]; cbn [day_answer] in Ha.
  - destruct Ha as (doc & qs & -> & Hsucc & Hq & Hv).
    cbn [Z.eqb Pos.eqb].
    unfold World.bind, response_json, ret, lift, has_quotes.
    cbn [py_get Py.bind]. rewrite Hsucc. cbn [py_in]. unfold dict_mem.
    rewrite Hq. cbn [py_getitem]. unfold dict_getitem. rewrite Hq.
    cbn [py_in]. unfold dict_mem. rewrite Hv. cbn [py_getitem].
    unfold dict_getitem. rewrite Hv. rewrite Hnext. reflexivity.
  - destruct Ha as (st & body & -> & Hst).
    apply Z.eqb_neq in Hst. rewrite Hst.
    unfold World.bind, ret, lift. rewrite Hnext. reflexivity.
Qed.

Lemma day_loop_collects : forall fuel current acc t,
  valid current -> 1000 <= year current ->
  (Z.to_nat (rank end_ - rank current + 1) < fuel)%nat ->
  exists rates t',
    day_loop o self fuel end_ from_currency to_currency current acc t
    = (Ret rates, t') /\
    (forall d, valid d -> rank current <= rank d <= rank end_ ->
       dict_get (strftime d) rates
       = match quote d with
         | Some v => Some (JDict [(to_currency, v)])
         | None => dict_get (strftime d) acc
         end) /\
    (forall k,
       (forall d, valid d -> rank current <= rank d <= rank end_ ->
          k <> strftime d) ->
       dict_get k rates = dict_get k acc).
Proof.
  induction fuel as [| fuel IH]; intros current acc t Hc Hyc Hfuel; [lia |].
  destruct (Dates.leb current end_) eqn:Hle.
  - pose proof Hle as Hrank. apply (leb_rank _ _ Hc Hend) in Hrank.
    destruct (next_day_exists current Hc) as [c' Hnext]; [lia |].
    destruct (next_day_valid _ _ Hc Hnext) as [Hc' Hlt].
    assert (Hyc' : 1000 <= year c')
      by (pose proof (rank_year current c' Hc Hc' ltac:(lia)); lia).
    assert (Hlater : forall d, valid d -> rank current <= rank d ->
              1000 <= year d)
      by (intros d Hd Hcd; pose proof (rank_year current d Hc Hd Hcd); lia).
    rewrite (day_loop_turn fuel current c' acc t Hc Hle Hnext).
    set (acc' := match quote current with
                 | Some v =>
                     dict_set (strftime current) (JDict [(to_currency, v)]) acc
                 | None => acc
                 end).
    assert (Hother : forall k, k <> strftime current ->
              dict_get k acc' = dict_get k acc).
    { intros k Hk. subst acc'. destruct (quote current); [| reflexivity].
      now apply dict_get_set_other. }
    match goal with
    | |- context [day_loop _ _ _ _ _ _ _ _ ?t1] =>
        destruct (IH c' acc' t1 Hc' Hyc')
          as (rates & t' & Hrun & Hin & Hframe); [lia |]
    end.
    exists rates, t'. split; [exact Hrun |]. split.
    + intros d Hd [Hlo Hhi].
      destruct (Z.eq_dec (rank d) (rank current)) as [Heq | Hne].
      * apply rank_injective in Heq; auto. subst d.
        rewrite Hframe.
        -- subst acc'. destruct (quote current); [| reflexivity].
           apply dict_get_set_same.
        -- intros d' Hd' [Hlo' _] Hk.
           apply strftime_injective in Hk; auto; [| apply Hlater; auto; lia].
           subst d'. lia.
      * pose proof (next_day_least current c' d Hc Hd ltac:(lia) Hnext) as Hc'd.
        rewrite (Hin d Hd (conj Hc'd Hhi)).
        destruct (quote d); [reflexivity |].
        apply Hother. intros Hk.
        apply strftime_injective in Hk; auto.
        subst d. lia.
    + intros k Hk. rewrite Hframe.
      * apply Hother. apply (Hk current Hc). lia.
      * intros d Hd [Hlo Hhi]. apply (Hk d Hd). lia.
  - cbn [day_loop]. rewrite Hle. exists acc, t. split; [reflexivity |].
    split; [| reflexivity].
    intros d Hd [Hlo Hhi].
    assert (Hce : Dates.leb current end_ = true)
      by (apply leb_rank; auto; lia).
    congruence.
Qed.

End Collect.

(** X27: the day-by-day tier collects exactly the days that answer.  When
    the range is valid, starts in the year 1000 or later (so that every day
    is written YYYY-MM-DD) and does not end on 9999-12-31, and the historical
    endpoint answers for every day either with a quote for the pair or with a
    status other than 200, with a quote for at least one day of the range,
    [_get_rates_day_by_day] returns a success whose series has, for each day
    of the range, the entry [{to: quote}] when the day was quoted and no
    entry otherwise, and no entry under any other key. *)
Theorem day_by_day_collects_quoted_days :
  forall (o : oracle) (self : service)
         start_date end_date from_currency to_currency start end_
         (quote : datetime -> option json) d0 (t : list event),
  strptime start_date = Ret start -> strptime end_date = Ret end_ ->
  1000 <= year start -> end_ <> max_date ->
  (forall t d, valid d ->
     day_answer (from_currency ++ to_currency) (quote d)
       (http o t (historical_request self (strftime d)
                    from_currency to_currency 5))) ->
  valid d0 -> Dates.leb start d0 = true -> Dates.leb d0 end_ = true ->
  quote d0 <> None ->
  exists rates t',
    _get_rates_day_by_day o self start_date end_date from_currency to_currency t
    = (Ret (success_result (JStr from_currency) rates), t') /\
    (forall d, valid d -> Dates.leb start d = true -> Dates.leb d end_ = true ->
       dict_get (strftime d) rates = day_entry to_currency (quote d)) /\
    (forall k,
       (forall d, valid d -> Dates.leb start d = true ->
          Dates.leb d end_ = true -> k <> strftime d) ->
       dict_get k rates = None).
Proof.
  intros o self start_date end_date from_currency to_currency start end_
    quote d0 t Hs He Hyear Hmax Hans Hd0 Hsd0 Hd0e Hq0.
  pose proof (strptime_valid _ _ Hs) as Hvs.
  pose proof (strptime_valid _ _ He) as Hve.
  assert (Hlast : rank end_ < rank max_date).
  { assert (Hvm : valid max_date) by (unfold valid; cbn; lia).
    destruct (Z.eq_dec (rank end_) (rank max_date)) as [Heq | Hne].
    - apply rank_injective in Heq; auto. contradiction.
    - destruct end_ as [y m dd]. destruct Hve as (Hy & Hm & Hdd).
      cbn [year month day] in *.
      pose proof (days_in_month_bounds y m).
      unfold rank, max_date in *. cbn [year month day] in *. lia. }
  destruct (day_loop_collects o self from_currency to_currency end_ quote
              Hve Hlast Hans (day_fuel start end_) start [] t Hvs Hyear)
    as (rates & t' & Hrun & Hin & Hframe).
  { unfold day_fuel. lia. }
  assert (Hget : forall d, valid d -> Dates.leb start d = true ->
            Dates.leb d end_ = true ->
            dict_get (strftime d) rates = day_entry to_currency (quote d)).
  { intros d Hd Hsd Hde.
    apply (leb_rank _ _ Hvs Hd) in Hsd. apply (leb_rank _ _ Hd Hve) in Hde.
    rewrite (Hin d Hd (conj Hsd Hde)). destruct (quote d); reflexivity. }
  exists rates, t'. split; [| split; [exact Hget |]].
  - unfold _get_rates_day_by_day, try_except, World.bind, lift.
    rewrite Hs, He, Hrun.
    destruct rates as [| kv rates']; [| reflexivity].
    exfalso. specialize (Hget d0 Hd0 Hsd0 Hd0e).
    destruct (quote d0); [discriminate Hget | congruence].
  - intros k Hk. rewrite Hframe; [reflexivity |].
    intros d Hd [Hlo Hhi]. apply (Hk d Hd); apply leb_rank; auto.
Qed.

Lemma day_by_day_collects_quoted_days_witness :
  exists rates t',
    _get_rates_day_by_day world_single_quote (init JNull)
      "2025-07-01" "2025-07-03" "USD" "EUR" []
    = (Ret (success_result (JStr "USD") rates), t') /\
    (forall d, valid d -> Dates.leb (mk_date 2025 7 1) d = true ->
       Dates.leb d (mk_date 2025 7 3) = true ->
       dict_get (strftime d) rates
       = day_entry "EUR" (Some (JFloat (dec 9 10)))) /\
    (forall k,
       (forall d, valid d -> Dates.leb (mk_date 2025 7 1) d = true ->
          Dates.leb d (mk_date 2025 7 3) = true -> k <> strftime d) ->
       dict_get k rates = None).
Proof.
  apply (day_by_day_collects_quoted_days world_single_quote (init JNull)
           "2025-07-01" "2025-07-03" "USD" "EUR"
           (mk_date 2025 7 1) (mk_date 2025 7 3)
           (fun _ => Some (JFloat (dec 9 10))) (mk_date 2025 7 2) []);
    try reflexivity; try discriminate.
  - intros t d Hd. exists payload_single_quote, [("USDEUR", JFloat (dec 9 10))].
    repeat split; reflexivity.
  - unfold valid. cbn. lia.
Defined.

(** * The calculator on float rates, some days without the currency *)

Lemma iter_shr_1_zero : forall p,
  iter_pos shr_1 p (Build_shr_record 0 false false)
  = Build_shr_record 0 false false.
Proof.
  induction p as [p IH | p IH |]; cbn [iter_pos].
  - change (shr_1 (Build_shr_record 0 false false))
      with (Build_shr_record 0 false false).
    now rewrite !IH.
  - now rewrite !IH.
  - reflexivity.
Qed.

Lemma shr_fexp_zero : forall e,
  exists e',
    shr_fexp prec emax 0 e loc_Exact = (Build_shr_record 0 false false, e').
Proof.
  intros e. unfold shr_fexp, shr.
  change (shr_record_of_loc 0 loc_Exact) with (Build_shr_record 0 false false).
  destruct (fexp prec emax (Zdigits2 0 + e) - e) as [| p | p]; eauto.
  rewrite iter_shr_1_zero. eauto.
Qed.

Lemma binary_round_aux_zero : forall e,
  binary_round_aux prec emax false 0 e loc_Exact = S754_zero false.
Proof.
  intros e. unfold binary_round_aux.
  destruct (shr_fexp_zero e) as [e1 ->].
  cbn [shr_m loc_of_shr_record shr_r shr_s].
  change (round_nearest_even 0 loc_Exact) with 0.
  destruct (shr_fexp_zero e1) as [e2 ->]. reflexivity.
Qed.

(** [0 / n] is [0.0] for every positive integer [n]. *)
Lemma int_truediv_zero : forall n, 0 < n -> int_truediv 0 n = Ret 0%float.
Proof.
  intros n Hn. destruct n as [| p | p]; try lia.
  unfold int_truediv. cbn [Z.eqb Z.ltb Z.compare xorb Z.abs].
  unfold SFdiv_core_binary.
  match goal with
  | |- context [Z.div_eucl ?m (Z.pos p)] =>
      assert (Hm : m = 0)
  end.
  { match goal with
    | |- match ?s with _ => _ end = 0 => destruct s as [| q | q]
    end; try reflexivity.
    apply Z.shiftl_0_l. }
  rewrite Hm. cbn [Z.div_eucl].
  assert (Hloc : new_location (Z.pos p) 0 = loc_Exact).
  { unfold new_location, new_location_even, new_location_odd.
    destruct (Z.even (Z.pos p)); reflexivity. }
  rewrite Hloc. rewrite binary_round_aux_zero. reflexivity.
Qed.

Lemma float_days_entry : forall to_currency r date,
  float_days to_currency r -> In date (keys r) ->
  exists day,
    dict_get date r = Some (JDict day) /\
    rate_or_zero (dict_get_default to_currency (JInt 0) day).
Proof.
  intros to_currency r date Hdays Hin.
  destruct (dict_get_In date r Hin) as [v Hv].
  pose proof (dict_get_Some_In _ _ _ Hv) as Hmem.
  unfold float_days in Hdays. rewrite Forall_forall in Hdays.
  destruct (Hdays _ Hmem) as (day & Hday & Hrate). cbn [snd] in Hday. subst v.
  exists day. split; [exact Hv |].
  unfold dict_get_default, rate_or_zero.
  destruct Hrate as [-> | [f ->]]; eauto.
Qed.

Lemma calculate_percentage_change_dyn_rates : forall a b,
  rate_or_zero a -> rate_or_zero b ->
  exists p, calculate_percentage_change_dyn a b = Ret p.
Proof.
  intros a b [-> | [f ->]] [-> | [g ->]];
    unfold calculate_percentage_change_dyn, py_eq_zero; cbn [as_num Z.eqb];
    eauto.
  - destruct (f =? 0)%float eqn:Hf; [eauto |].
    unfold py_sub, py_truediv_by. cbn [as_num num_sub to_float].
    change (float_of_int 0) with (@Ret float 0%float).
    cbn [Py.bind num_truediv to_float]. rewrite Hf. cbn [Py.bind]. eauto.
  - destruct (f =? 0)%float eqn:Hf; [eauto |].
    unfold py_sub, py_truediv_by. cbn [as_num num_sub to_float Py.bind].
    cbn [num_truediv to_float Py.bind]. rewrite Hf. cbn [Py.bind]. eauto.
Qed.

Lemma py_round_dyn_rate : forall v n,
  rate_or_zero v ->
  exists w, py_round_dyn v n = Ret w /\ (v = JInt 0 -> w = JInt 0).
Proof.
  intros v n [-> | [f ->]]; cbn [py_round_dyn]; eexists; split; eauto.
  discriminate.
Qed.

Lemma list_index_within : forall (l : list json) i,
  - Z.of_nat (List.length l) <= i < Z.of_nat (List.length l) ->
  exists x, list_index l i = Ret x /\ In x l.
Proof.
  intros l i Hi. unfold list_index.
  set (j := if i <? 0 then i + Z.of_nat (List.length l) else i).
  assert (Hj : 0 <= j < Z.of_nat (List.length l)).
  { subst j. destruct (i <? 0) eqn:E;
      [apply Z.ltb_lt in E | apply Z.ltb_ge in E]; lia. }
  replace ((0 <=? j) && (j <? Z.of_nat (List.length l))) with true
    by (symmetry; apply andb_true_iff; split;
        [apply Z.leb_le | apply Z.ltb_lt]; lia).
  destruct (nth_error l (Z.to_nat j)) as [x |] eqn:Hx.
  - exists x. split; [reflexivity |]. eapply nth_error_In; eauto.
  - apply nth_error_None in Hx. lia.
Qed.

Lemma day_step_dyn_rates : forall r to_currency i date daily_data rate_values,
  float_days to_currency r -> In date (keys r) ->
  Forall rate_or_zero rate_values ->
  i <= Z.of_nat (List.length rate_values) ->
  exists w p,
    day_step_dyn r to_currency i date (daily_data, rate_values)
    = Ret ((daily_data ++
              [JDict [("date", JStr date); ("rate", w);
                      ("pct_change", pct_field p)]])%list,
           (rate_values ++ [extracted r to_currency date])%list) /\
    rate_or_zero (extracted r to_currency date) /\
    (extracted r to_currency date = JInt 0 -> w = JInt 0).
Proof.
  intros r to_currency i date daily_data rate_values Hdays Hin Hrv Hi.
  destruct (float_days_entry to_currency r date Hdays Hin)
    as (day & Hday & Hrate).
  unfold day_step_dyn, dict_getitem, extracted. rewrite Hday.
  cbn [Py.bind py_get].
  set (rate := dict_get_default to_currency (JInt 0) day) in *.
  assert (Hpct : exists p,
            (if 0 <? i
             then Py.bind (list_index (rate_values ++ [rate]) (i - 1))
                    (fun prev_rate =>
                       calculate_percentage_change_dyn prev_rate rate)
             else Ret 0%float) = Ret p).
  { destruct (0 <? i) eqn:Hpos; [| eauto].
    apply Z.ltb_lt in Hpos.
    destruct (list_index_within (rate_values ++ [rate]) (i - 1))
      as (prev & Hprev & Hmem).
    { rewrite length_app. cbn [List.length]. lia. }
    rewrite Hprev. cbn [Py.bind].
    apply calculate_percentage_change_dyn_rates; [| exact Hrate].
    apply in_app_or in Hmem. destruct Hmem as [Hmem | [<- | []]].
    - rewrite Forall_forall in Hrv. now apply Hrv.
    - exact Hrate. }
  destruct Hpct as [p ->]. cbn [Py.bind].
  destruct (py_round_dyn_rate rate 5 Hrate) as (w & -> & Hw).
  cbn [Py.bind]. exists w, p. auto.
Qed.

Lemma enumerate_loop_dyn_rates : forall r to_currency dates i daily_data
    rate_values,
  float_days to_currency r ->
  (forall d, In d dates -> In d (keys r)) ->
  Forall rate_or_zero rate_values ->
  i = Z.of_nat (List.length rate_values) ->
  exists entries,
    enumerate_loop_dyn r to_currency i dates (daily_data, rate_values)
    = Ret ((daily_data ++ entries)%list,
           (rate_values ++ map (extracted r to_currency) dates)%list) /\
    Forall rate_or_zero (map (extracted r to_currency) dates) /\
    (forall d, In d dates -> extracted r to_currency d = JInt 0 ->
       exists pct,
         In (JDict [("date", JStr d); ("rate", JInt 0); ("pct_change", pct)])
            entries).
Proof.
  intros r to_currency dates.
  induction dates as [| date dates IH];
    intros i daily_data rate_values Hdays Hkeys Hrv Hi.
  - exists []. cbn [enumerate_loop_dyn map]. rewrite !app_nil_r.
    split; [reflexivity |]. split; [constructor |]. intros d [].
  - cbn [enumerate_loop_dyn].
    destruct (day_step_dyn_rates r to_currency i date daily_data rate_values
                Hdays (Hkeys date (or_introl eq_refl)) Hrv ltac:(lia))
      as (w & p & -> & Hrate & Hw).
    cbn [Py.bind].
    destruct (IH (i + 1)
                (daily_data ++
                   [JDict [("date", JStr date); ("rate", w);
                           ("pct_change", pct_field p)]])%list
                (rate_values ++ [extracted r to_currency date])%list Hdays)
      as (entries & -> & Hall & Hzero).
    + intros d Hd. apply Hkeys. now right.
    + apply Forall_app. split; [exact Hrv | now constructor].
    + rewrite length_app. cbn [List.length]. lia.
    + eexists. split; [| split].
      * rewrite <- !app_assoc. cbn [app map]. reflexivity.
      * cbn [map]. now constructor.
      * intros d [<- | Hd] Hext.
        -- exists (pct_field p). left. now rewrite (Hw Hext).
        -- destruct (Hzero d Hd Hext) as [pct Hpct]. exists pct. now right.
Qed.

Lemma sum_from_rates : forall l acc,
  Forall rate_or_zero l ->
  (acc = NInt 0 \/ exists f, acc = NFloat f) ->
  exists total,
    sum_from acc l = Ret total /\ (total = NInt 0 \/ exists f, total = NFloat f).
Proof.
  induction l as [| v l IH]; intros acc Hl Hacc.
  - exists acc. split; [reflexivity | exact Hacc].
  - inversion Hl as [| ? ? Hv Hl']; subst. cbn [sum_from].
    destruct Hv as [-> | [g ->]]; destruct Hacc as [-> | [f ->]];
      cbn [as_num num_add to_float];
      try change (float_of_int 0) with (@Ret float 0%float);
      cbn [Py.bind]; apply IH; eauto.
Qed.

Lemma num_truediv_len_rates : forall total n,
  (total = NInt 0 \/ exists f, total = NFloat f) -> n <> O ->
  exists m, num_truediv_len total n = Ret m.
Proof.
  intros total n [-> | [f ->]] Hn; cbn [num_truediv_len].
  - rewrite int_truediv_zero by lia. eauto.
  - destruct n; [congruence |]. cbn [py_truediv_len]. eauto.
Qed.

Lemma process_rates_data_dyn_rates :
  forall (rd : rates_data json) r to_currency,
  success rd = true -> rates rd = Some r -> r <> [] ->
  float_days to_currency r ->
  exists totals entries mean,
    (forall breakdown,
       process_rates_data_dyn rd to_currency breakdown
       = Ret (JDict (("totals", JDict totals) ::
                     (if String.eqb breakdown "day"
                      then [("breakdown", JList entries)]
                      else [])))) /\
    keys totals = ["start_rate"; "end_rate"; "total_pct_change"; "mean_rate"] /\
    extracted_rates r to_currency <> [] /\
    Py.bind (py_sum_dyn (extracted_rates r to_currency))
      (fun total =>
         num_truediv_len total
           (List.length (extracted_rates r to_currency)))
    = Ret mean /\
    dict_get "mean_rate" totals = Some (JFloat (py_round mean 5)) /\
    (forall date, In date (keys r) ->
       extracted r to_currency date = JInt 0 ->
       exists pct,
         In (JDict [("date", JStr date); ("rate", JInt 0); ("pct_change", pct)])
            entries).
Proof.
  intros rd r to_currency Hsuccess Hrates Hne Hdays.
  destruct (enumerate_loop_dyn_rates r to_currency (sorted (keys r)) 0 [] []
              Hdays) as (entries & Hloop & Hall & Hzero).
  { intros d Hd. now apply sorted_In. }
  { constructor. }
  { reflexivity. }
  cbn [app] in Hloop.
  assert (Hrv : extracted_rates r to_currency <> []).
  { unfold extracted_rates. intros Hnil. apply map_eq_nil in Hnil. revert Hnil.
    apply sorted_nonempty. destruct r as [| [k v] r']; [congruence | discriminate]. }
  fold (extracted_rates r to_currency) in Hloop, Hall.
  destruct (extracted_rates r to_currency) as [| x l] eqn:Erv; [congruence |].
  destruct (list_index_within (x :: l) 0) as (x0 & Hx0 & Hin0);
    [cbn [List.length]; lia |].
  destruct (list_index_within (x :: l) (-1)) as (x1 & Hx1 & Hin1);
    [cbn [List.length]; lia |].
  rewrite Forall_forall in Hall.
  destruct (calculate_percentage_change_dyn_rates x0 x1 (Hall _ Hin0)
              (Hall _ Hin1)) as [p Hp].
  destruct (sum_from_rates (x :: l) (NInt 0)) as (total & Hsum & Htotal);
    [now apply Forall_forall | now left |].
  destruct (num_truediv_len_rates total (List.length (x :: l)) Htotal)
    as [m Hm]; [discriminate |].
  destruct (py_round_dyn_rate x0 5 (Hall _ Hin0)) as (w0 & Hw0 & _).
  destruct (py_round_dyn_rate x1 5 (Hall _ Hin1)) as (w1 & Hw1 & _).
  exists [("start_rate", w0); ("end_rate", w1);
          ("total_pct_change", pct_field p);
          ("mean_rate", JFloat (py_round m 5))], entries, m.
  split; [| split; [reflexivity | split; [discriminate | split; [| split]]]].
  - intros breakdown. unfold process_rates_data_dyn.
    rewrite Hsuccess, Hrates. cbn [negb].
    destruct r as [| kv r']; [congruence |].
    rewrite Hloop. cbn [Py.bind].
    rewrite Hx0. cbn [Py.bind]. rewrite Hx1. cbn [Py.bind].
    rewrite Hp. cbn [Py.bind].
    unfold py_sum_dyn. rewrite Hsum. cbn [Py.bind]. rewrite Hm.
    cbn [Py.bind]. rewrite Hw0. cbn [Py.bind]. rewrite Hw1.
    cbn [Py.bind py_round_dyn].
    destruct (String.eqb breakdown "day"); reflexivity.
  - unfold py_sum_dyn. rewrite Hsum. cbn [Py.bind]. exact Hm.
  - reflexivity.
  - intros date Hin Hext. apply Hzero; [now apply sorted_In | exact Hext].
Qed.



